(* ===== verification/_CoqProject ===== *)
-Q . S2P
Prelude.v
Tokens.v
Duration.v
Alignment.v
Stft.v
PostProcess.v
Window.v
Pipeline.v
Voice.v
OnnxExport.v
Weights.v
KModelInit.v
Cli.v
Outputs.v
