(* ===== verification/Prelude.v ===== *)
(** * Kokoro text-to-speech: export and inference, a verification development

    The program (src/ of szsteven008/kokoro) turns text into audio with
    the Kokoro-82M model and exports that model to ONNX:
    - src/kokoro/model.py, class [KModel]: [__init__] reads a
      configuration, builds the neural sub-modules and loads a checkpoint
      into them; [forward] encodes phonemes to ids, predicts a duration
      per token, expands the token features to frames with an alignment
      matrix and decodes audio; [inference] is the same pass on ready ids
      with an integer speed, written without scatter so that it traces to
      ONNX.
    - src/export.py: [load_input_ids] (text to phonemes to ids),
      [load_voice] (style vector of a voice pack), [load_sample], the
      wrapper [Model] whose [forward] is [KModel.inference],
      [export_onnx] (torch.onnx.export and onnx.checker),
      [inference_onnx] (onnxruntime) and [check_model] (direct call),
      both ending in [post_process] (an STFT low-pass) and playback; the
      [__main__] block parses the command line, builds the model and
      dispatches.
    - src/ids.py: the id encoding of [load_input_ids] as a script that
      builds the model and reads the ids through [model.vocab.get].

    Files, in dependency order (each opens with a comment of its own):
    - [Prelude] (this file): Python exceptions as values of [result]
      with stdpp's monad notation; [py_assert]; Python indexing [l.[i]]
      ([py_getitem], negative indices from the end, IndexError out of
      range); the hint databases [kokoro] and [kokoro_rw] and the tactics
      [invc] and [simplify_result].
    - [Tokens], Module [Tokens]: [load_input_ids] (export.py 58-73) with
      the English chunk loop (61-63), the 510-symbol truncation, the
      vocabulary lookup that drops unknown symbols (line 70) and the
      [0 ... 0] wrapping; ids.py 20-30 as [ids_script], generic in the id
      type and reading through a [get] that may raise (stdpp's [mapM]
      runs the lazy [map] that [list(...)] forces); the encoding and
      context-length assertion of [KModel.forward] (model.py 82-85) as
      [forward_input_ids].  The g2p front end is a Section variable.
    - [Duration], Module [Duration]: model.py 96-97 and 126-129,
      [sigmoid(duration).sum(-1) / speed], [torch.round] (half to even),
      [clamp(min=1)], [.long()], as [pred_dur].  Floats are exact
      rationals [Q]; division by a zero speed is the error
      [UndefinedCast] (an infinite float cast to long).
    - [Alignment], Module [Alignment]: the alignment matrix built by
      scatter in [forward] (model.py 99-101, [aln_scatter]) and by
      comparisons with the cumulative sums in [inference] (130-134,
      [aln_broadcast]), both refined to the reference [aln_spec]
      (entry [(i, f)] is 1 iff frame [f] lies in token [i]'s interval);
      the product [d.transpose(-1, -2) @ pred_aln_trg] ([matmul]).  The
      element type is any [TensorElt] (a semiring interface with the
      laws the proofs use); [Z] is an instance.
    - [Stft], Module [Stft]: [torch.stft] and [torch.istft] as
      [post_process] calls them (library code, modelled from their
      semantics): reflect padding, the window loop of [Tensor.unfold]
      ([unfold_windows], an Equations definition by well-founded
      recursion on the samples left, with [hop_length > 0] checked as
      torch does), windowing, overlap-add, division by the window
      envelope and the NOLA check, over a window and a one-sided DFT
      pair given as Section variables.
    - [PostProcess], Module [PostProcess]: [post_process] (export.py
      100-112): the transforms, gain 3, the mask of bins [18:] and the
      recombination with the phase, at [n_fft = 100].
    - [Window], Module [Window]: the window of line 102, scipy's periodic
      Hann window [get_window('hann', 100, fftbins=True)], over the
      Stdlib reals (its values are irrational, so [Stft] takes the
      window as a parameter over [Q]), and the envelope [torch.istft]
      divides by, computed as [Stft.envelope] does.
    - [Pipeline], Module [Pipeline]: [KModel.forward] (75-108) and
      [KModel.inference] (110-141) composed from the above.  The neural
      sub-modules are the class [Backend]; its laws are their shape
      contracts and the agreement of the [.inference] variants with the
      variants [forward] calls.  Device moves are identities.
    - [Voice], Module [Voice]: [load_voice] (export.py 75-77).
    - [OnnxExport], Module [OnnxExport]: the wrapper [Model] (10-26),
      [export_onnx] (28-56) as the graph signature the export declares,
      [load_sample] (79-96), [inference_onnx] (114-134) and [check_model]
      (136-147).  onnxruntime's [session.run] is its input validation
      followed by the traced computation, [KModel.inference].
    - [Weights], Module [Weights]: the checkpoint loop of
      [KModel.__init__] (model.py 56-63), with [load_state_dict]'s
      strict and non-strict semantics on gmaps of parameters.
    - [KModelInit], Module [KModelInit]: [KModel.__init__] (model.py
      29-63): where the configuration comes from (dict, path, hub), its
      reads in order with their KeyError and TypeError, the keyword
      expansions, the attributes it assigns, then the loop of [Weights].
      JSON objects are association lists; module constructors,
      [json.load], [hf_hub_download] and [torch.load] are Section
      variables.
    - [Cli], Module [Cli]: the [__main__] blocks of export.py (149-179)
      and ids.py (4-31): required options, defaults, the model built by
      [KModelInit] and the action chosen; for ids.py, the phonemes and
      ids of [Tokens.ids_script] read through [json_get], the [get] of
      the JSON vocabulary the built model holds ([null] read as [None]).
    - [Outputs], Module [Outputs]: the ONNX files that successive runs
      of export.py share: a store by path of what [torch.onnx.export]
      writes, the graph signature and the parameters ([km_attrs]) of the
      model exported; it is written by [export_onnx] (the file exists
      before the checker runs) and opened by [inference_onnx] before it
      loads the sample.  One run ([export_py]) is [Cli.export_main] then
      the chosen action with the model built: its modules are
      [backend_of] its parameters and its vocabulary [vocab_of] its
      [vocab] (Section variables); [-t] runs the parameters stored in the
      file on ids encoded with the current model's vocabulary.  Runs form
      the step relation [invocation] (stdpp's [rtc]), the random example
      arguments of lines 31-34 being an input.

    Theorems, by group (claim numbers in their doc comments):
    - alignment: the two constructions are equal (C1), columns are one
      hot (C2), and the product expands features like
      [repeat_interleave] (C3);
    - durations: at least one frame (C4), monotone in the speed (C5),
      bounded (C24), and the negative speeds the code does not reject
      (C23);
    - tokens: shape and bounds of the ids (C6), agreement of export and
      [forward] encodings (C7), dropped symbols (C8), ids.py and
      export.py encode alike (C9), the chunk loop keeping only the last
      chunk (C21) and raising when there is none (C22);
    - passes: [inference] refines [forward] (C10), durations independent
      of the timbre half (C27);
    - post-processing: [torch.istft] inverts [torch.stft] on the samples
      it returns (C11), the window loop terminates with its closed form
      (C12), the Hann window's envelope never meets the NOLA threshold
      (C13) and is the constant 3/2 where four frames overlap (C14), the
      spectrum after the mask (C25), short signals raise in the padding
      (C26);
    - voice: bucket selection (C28), empty input (C29), always in range
      after truncation (C30);
    - export: the declared signature (C31), the ONNX runner agrees with
      the direct one on the sample (C32); an export followed by [-t] with
      the same paths plays what [-m] plays (C18); over any history of
      runs, [-t] plays the parameters last exported to its directory on
      the current vocabulary and raises NO_SUCHFILE when there was no
      export (C19), and every ONNX file left has the same signature
      (C20);
    - weights and construction: save and reload round trip (C15), what a
      built model holds (C16), the first missing configuration key
      (C17), layout invariant of the loop (C33), a checkpoint missing a
      sub-module loads without error and leaves it untouched (C34),
      unknown keys (C35), the ["module."] prefix round trip (C36), a
      reserved [plbert] key (C37);
    - command line: ids.py's phonemes and ids from the built model's
      vocabulary, [null] entries dropped (C38); empty paths are never
      opened (C39).

    Bounds: the constants are the code's: 510 phonemes ([max_phonemes])
    and 510 pack rows ([pack_rows]), [n_fft = 100] with torch's hop of
    25, bins from 18, a 128/128 split of the style, ALBERT's default of
    512 positions.  Every recursion is structural except the window loop
    of [Stft], which decreases [S (length xs) - start] and stops when
    the step is 0 (torch raises before); no definition takes fuel, so
    every function is total.  Floating point is idealised: samples, logits and envelopes are
    exact rationals, so the round trip of C11 is exact where float32
    arithmetic is only close; the Hann window is real-valued (its cast to
    float32 is not modelled).  The random example arguments of the
    export range over everything torch can draw ([draw_ok]); the
    theorems about runs hold for every such draw.

    Not modelled: directories, file and model I/O, downloads, printing
    and audio playback (I/O: the runners return the samples they would
    play); the internals of CustomAlbert, ProsodyPredictor, TextEncoder
    and the iSTFTNet Decoder (library code outside src/, taken through
    [Backend] and, for construction, through a builder that returns
    their parameters); the g2p library; scipy's Hann window and the DFT
    (parameters of [Stft] with the laws they satisfy); floating-point
    rounding (the element laws of [TensorElt] hold exactly); tensor shape
    checks of [load_state_dict] (a size mismatch raises in torch even
    when not strict); [onnx.checker] beyond the distinctness of the
    input and output names; negative durations in [KModel.inference]
    (unreachable behind [clamp(min=1)]: they are converted with
    [Z.to_nat] where [torch.arange] would raise on a negative total);
    [os.makedirs] (it precedes every write,
    and a missing directory is the same NO_SUCHFILE to [-t] as a
    missing file).  The computation of the library modules on given
    parameters ([backend_of]) and the integer vocabulary read from the
    JSON one ([vocab_of]) are Section variables of [Outputs]. *)

From stdpp Require Export base list gmap strings.
From Stdlib Require Export ZArith Lia.

Declare Scope kokoro_scope.
Delimit Scope kokoro_scope with kk.

(** ** Python exceptions and the result monad *)

(** The exceptions the modelled Python code can raise. *)
Inductive py_exc : Type :=
| AssertionError (what : string)
| IndexError
| NameError (name : string)
| AttributeError (name : string)
| KeyError (key : string)
| TypeError (what : string)
| RuntimeError (what : string)
| SystemExit (code : Z) (message : string)
| UndefinedCast.

(** A Python computation that returns a value or raises. *)
Inductive result (A : Type) : Type :=
| Ok (a : A)
| Raise (e : py_exc).
Arguments Ok {A} a.
Arguments Raise {A} e.

#[export] Instance result_ret : MRet result := @Ok.
#[export] Instance result_bind : MBind result :=
  fun A B f r => match r with Ok a => f a | Raise e => Raise e end.
#[export] Instance result_fmap : FMap result :=
  fun A B f r => match r with Ok a => Ok (f a) | Raise e => Raise e end.

(** [assert cond, what]. *)
Definition py_assert (b : bool) (what : string) : result unit :=
  if b then Ok tt else Raise (AssertionError what).

Definition is_ok {A} (r : result A) : bool :=
  match r with Ok _ => true | Raise _ => false end.

(** ** Python list indexing *)

(** [l[i]] on a Python list or on the first axis of a tensor: a negative
    index counts from the end, an index out of range raises IndexError. *)
Definition py_getitem {A} (l : list A) (i : Z) : result A :=
  let n := Z.of_nat (length l) in
  let j := if (i <? 0)%Z then (n + i)%Z else i in
  if (0 <=? j)%Z && (j <? n)%Z then
    match l !! Z.to_nat j with Some x => Ok x | None => Raise IndexError end
  else Raise IndexError.

Notation "l .[ i ]" := (py_getitem l i) (at level 1, left associativity,
  format "l .[ i ]") : kokoro_scope.

(** Sum of a list of integers, as [tensor.sum()]. *)
Definition zsum (l : list Z) : Z := foldr Z.add 0%Z l.

Open Scope kokoro_scope.

(** ** Automation *)

Create HintDb kokoro discriminated.
Create Rewrite HintDb kokoro_rw.

Ltac invc H := inversion H; clear H; subst.

(** Split a successful bind [x ← c; k = Ok v] into its two steps. *)
Lemma bind_Ok {A B} (c : result A) (k : A → result B) (v : B) :
  (c ≫= k) = Ok v ↔ ∃ a, c = Ok a ∧ k a = Ok v.
Proof.
  destruct c as [a|e]; simpl; split.
  - intros H. eauto.
  - intros (a' & Ha & Hk). by invc Ha.
  - discriminate.
  - intros (a' & Ha & _). discriminate.
Qed.

Lemma bind_Raise {A B} (c : result A) (k : A → result B) e :
  c = Raise e → (c ≫= k) = Raise e.
Proof. intros ->. reflexivity. Qed.

Lemma py_assert_Ok b what : py_assert b what = Ok tt ↔ b = true.
Proof. destruct b; simpl; split; congruence. Qed.

Ltac simplify_result :=
  repeat match goal with
  | H : Ok _ = Ok _ |- _ => invc H
  | H : Ok _ = Raise _ |- _ => discriminate H
  | H : Raise _ = Ok _ |- _ => discriminate H
  | H : (_ ≫= _) = Ok _ |- _ =>
      apply bind_Ok in H; destruct H as (? & ? & ?)
  | H : py_assert _ _ = Ok ?u |- _ => destruct u; apply py_assert_Ok in H
  end.

(** ** Python indexing lemmas *)

Lemma py_getitem_nonneg {A} (l : list A) (i : nat) x :
  l !! i = Some x → l.[Z.of_nat i] = Ok x.
Proof.
  intros Hi. pose proof (lookup_lt_Some _ _ _ Hi).
  unfold py_getitem.
  replace (Z.of_nat i <? 0)%Z with false by lia.
  replace ((0 <=? Z.of_nat i)%Z && (Z.of_nat i <? Z.of_nat (length l))%Z)
    with true by lia.
  by rewrite Nat2Z.id, Hi.
Qed.

(** [l[-k]] is the element [k] places from the end. *)
Lemma py_getitem_neg {A} (l : list A) (k : nat) x :
  (0 < k)%nat → l !! (length l - k)%nat = Some x → (k ≤ length l)%nat →
  l.[(- Z.of_nat k)%Z] = Ok x.
Proof.
  intros Hk Hi Hle. unfold py_getitem.
  replace (- Z.of_nat k <? 0)%Z with true by lia.
  replace ((0 <=? Z.of_nat (length l) + - Z.of_nat k)%Z
           && (Z.of_nat (length l) + - Z.of_nat k <? Z.of_nat (length l))%Z)
    with true by lia.
  replace (Z.to_nat (Z.of_nat (length l) + - Z.of_nat k)) with (length l - k)%nat
    by lia.
  by rewrite Hi.
Qed.

Lemma py_getitem_out {A} (l : list A) (i : Z) :
  (i < - Z.of_nat (length l) ∨ Z.of_nat (length l) ≤ i)%Z → l.[i] = Raise IndexError.
Proof.
  intros Hi. unfold py_getitem.
  destruct (i <? 0)%Z eqn:E;
    (replace (_ && _) with false by lia); reflexivity.
Qed.

Lemma py_getitem_elem {A} (l : list A) i x : l.[i] = Ok x → x ∈ l.
Proof.
  unfold py_getitem. destruct (_ && _); [|discriminate].
  destruct (l !! _) eqn:E; intros H; simplify_result.
  by eapply list_elem_of_lookup_2.
Qed.

Lemma zsum_app l1 l2 : zsum (l1 ++ l2) = (zsum l1 + zsum l2)%Z.
Proof. induction l1; simpl; lia. Qed.

(** A loop of calls that cannot raise is the plain [map]. *)
Lemma mapM_Ok_map {A B} (f : A → B) (l : list A) :
  mapM (λ x, Ok (f x)) l = Ok (map f l).
Proof. induction l as [|x l IH]; simpl; [done|]. by rewrite IH. Qed.

Lemma mapM_result_ext {A B} (f g : A → result B) l :
  (∀ x, f x = g x) → mapM f l = mapM g l.
Proof. intros Hfg. induction l as [|x l IH]; simpl; [done|]. by rewrite Hfg, IH. Qed.

#[export] Hint Rewrite zsum_app : kokoro_rw.
#[export] Hint Resolve py_getitem_nonneg : kokoro.
