(* ===== verification/Tokens.v ===== *)
(** * Tokens: phonemes to input ids

    Models the TokenEncoder: [load_input_ids] of src/export.py (lines
    58-73), the same steps in src/ids.py (lines 20-30), and the id
    encoding with its context-length assertion at the start of
    [KModel.forward] in src/kokoro/model.py (lines 82-85).  A phoneme
    string is a list of one-character strings (Python iterates a [str]
    by character); the vocabulary [model.vocab] is a [gmap string Z] in
    export.py and [forward], and ids.py reads its ids through any [get]
    that may raise ([input_ids_with]), which [Cli] instantiates with the
    JSON vocabulary of the built model.
    The grapheme-to-phoneme front end ([pipeline.g2p],
    [pipeline.en_tokenize]) is an external library: it is a Section
    variable. *)

From S2P Require Import Prelude.

Module Tokens.

(** One chunk yielded by [pipeline.en_tokenize]: [(gs, ps, tks)]. *)
Record chunk : Type := mk_chunk {
  chunk_gs : string;
  chunk_ps : list string;
  chunk_tks : list string
}.

(** [vocab.get(p)]. *)
Definition vocab_get {I} (vocab : gmap string I) (p : string) : option I :=
  vocab !! p.

(** [filter(lambda i: i is not None, xs)]. *)
Fixpoint filter_not_none {I} (xs : list (option I)) : list I :=
  match xs with
  | [] => []
  | Some i :: xs' => i :: filter_not_none xs'
  | None :: xs' => filter_not_none xs'
  end.

(** [list(filter(lambda i: i is not None,
             map(lambda p: vocab.get(p), ps)))]. *)
Definition input_ids_of {I} (vocab : gmap string I) (ps : list string) : list I :=
  filter_not_none (map (vocab_get vocab) ps).

(** The same line when [model.vocab] is whatever [config['vocab']] held:
    [get p] is [model.vocab.get(p)], which may raise (a [vocab] that is
    not a dict has no [get]); [list(...)] forces the lazy [map] in
    order, so the first raising [get] ends the encoding. *)
Definition input_ids_with {I} (get : string → result (option I)) (ps : list string)
    : result (list I) :=
  filter_not_none <$> mapM get ps.

(** [if len(ps) > 510: ps = ps[:510]]. *)
Definition max_phonemes : nat := 510.

Definition truncate (ps : list string) : list string :=
  if bool_decide (max_phonemes < length ps) then take max_phonemes ps else ps.

(** [[0, *input_ids, 0]]: the boundary markers. *)
Definition wrap (ids : list Z) : list Z := 0%Z :: ids ++ [0%Z].

(** The loop [for gs, ps, tks in chunks: if not ps: continue].
    The body only binds [ps]; [continue] ends the iteration either way,
    so after the loop [ps] is the phonemes of the last chunk, and it is
    unbound ([None]) when there was no chunk. *)
Fixpoint en_tokenize_loop (ps : option (list string)) (cs : list chunk)
    : option (list string) :=
  match cs with
  | [] => ps
  | c :: cs' => en_tokenize_loop (Some (chunk_ps c)) cs'
  end.

(** Python's [s in t] on strings: substring test. *)
Fixpoint str_in (s t : string) : bool :=
  String.prefix s t ||
  match t with
  | EmptyString => false
  | String _ t' => str_in s t'
  end.

Section Frontend.

(** [en_tokenize(g2p(text)[1])] for English, [g2p(text)] otherwise. *)
Variable en_chunks : string → list chunk.
Variable g2p_other : string → list string.

(** The phonemes [load_input_ids] works on, before truncation. *)
Definition load_phonemes (lang_code text : string) : result (list string) :=
  if str_in lang_code "ab" then
    match en_tokenize_loop None (en_chunks text) with
    | Some ps => Ok ps
    | None => Raise (NameError "ps")
    end
  else Ok (g2p_other text).

(** [load_input_ids(pipeline, text)] of src/export.py: the truncated
    phonemes and the wrapped id row of [torch.LongTensor([[0, *ids, 0]])]. *)
Definition load_input_ids (vocab : gmap string Z) (lang_code text : string)
    : result (list string * list Z) :=
  ps ← load_phonemes lang_code text;
  let ps := truncate ps in
  Ok (ps, wrap (input_ids_of vocab ps)).

(** src/ids.py lines 20-30: the English front end of the pipeline built
    with [lang_code='a'], the truncation and the ids (not wrapped), read
    through [get] = [model.vocab.get]. *)
Definition ids_script {I} (get : string → result (option I)) (text : string)
    : result (list string * list I) :=
  ps ← match en_tokenize_loop None (en_chunks text) with
       | Some ps => Ok ps
       | None => Raise (NameError "ps")
       end;
  let ps := truncate ps in
  ids ← input_ids_with get ps;
  Ok (ps, ids).

End Frontend.

(** The encoding at the start of [KModel.forward]:
    ids, [assert len(input_ids)+2 <= self.context_length], wrap. *)
Definition forward_input_ids (vocab : gmap string Z) (context_length : nat)
    (phonemes : list string) : result (list Z) :=
  let input_ids := input_ids_of vocab phonemes in
  py_assert (bool_decide (length input_ids + 2 ≤ context_length))
    "len(input_ids)+2 <= self.context_length";;
  Ok (wrap input_ids).

Definition vocab_example : gmap string Z := {[ "a" := 5%Z; "b" := 12%Z ]}.

Definition chunks_example (_ : string) : list chunk :=
  [mk_chunk "x" ["a"; "a"] []; mk_chunk "y" ["a"; "b"; "?"] []].

(** ** Lemmas *)

Lemma filter_not_none_app {I} (xs ys : list (option I)) :
  filter_not_none (xs ++ ys) = filter_not_none xs ++ filter_not_none ys.
Proof. induction xs as [|[i|] xs IH]; simpl; rewrite ?IH; done. Qed.

Lemma input_ids_of_app {I} (vocab : gmap string I) ps1 ps2 :
  input_ids_of vocab (ps1 ++ ps2) = input_ids_of vocab ps1 ++ input_ids_of vocab ps2.
Proof. unfold input_ids_of. by rewrite map_app, filter_not_none_app. Qed.

Lemma input_ids_of_cons_absent {I} (vocab : gmap string I) p ps :
  vocab !! p = None → input_ids_of vocab (p :: ps) = input_ids_of vocab ps.
Proof. intros Hp. unfold input_ids_of; simpl. unfold vocab_get. by rewrite Hp. Qed.

Lemma input_ids_of_length {I} (vocab : gmap string I) ps : length (input_ids_of vocab ps) ≤ length ps.
Proof.
  unfold input_ids_of. induction ps as [|p ps IH]; simpl; [lia|].
  destruct (vocab_get vocab p); simpl; lia.
Qed.

(** Reading a [gmap] never raises: [input_ids_with] is [input_ids_of]. *)
Lemma input_ids_with_gmap {I} (vocab : gmap string I) ps :
  input_ids_with (λ p, Ok (vocab !! p)) ps = Ok (input_ids_of vocab ps).
Proof. unfold input_ids_with. by rewrite mapM_Ok_map. Qed.

(** The filter of the [None]s after a map is stdpp's [omap]. *)
Lemma filter_not_none_map {A I} (g : A → option I) l : filter_not_none (map g l) = omap g l.
Proof. induction l as [|x l IH]; simpl; [done|]. destruct (g x); simpl; by rewrite IH. Qed.

(** With a [get] that cannot raise, the encoding is [omap get]. *)
Lemma input_ids_with_pure {I} (g : string → option I) ps :
  input_ids_with (λ p, Ok (g p)) ps = Ok (omap g ps).
Proof. unfold input_ids_with. rewrite mapM_Ok_map. cbn. by rewrite filter_not_none_map. Qed.

Lemma input_ids_with_ext {I} (g1 g2 : string → result (option I)) ps :
  (∀ p, g1 p = g2 p) → input_ids_with g1 ps = input_ids_with g2 ps.
Proof. intros Hg. unfold input_ids_with. by rewrite (mapM_result_ext _ _ _ Hg). Qed.

(** The truncation is a [take] of 510. *)
Lemma truncate_take ps : truncate ps = take 510 ps.
Proof. unfold truncate, max_phonemes. case_bool_decide; [done|]. rewrite take_ge; [done|lia]. Qed.

Lemma length_truncate ps : length (truncate ps) = min (length ps) max_phonemes.
Proof.
  unfold truncate. case_bool_decide; [rewrite length_take|]; lia.
Qed.

Lemma length_wrap ids : length (wrap ids) = length ids + 2.
Proof. unfold wrap. simpl. rewrite length_app. simpl. lia. Qed.

Lemma wrap_first ids : wrap ids !! 0 = Some 0%Z.
Proof. reflexivity. Qed.

Lemma wrap_last ids : wrap ids !! (length (wrap ids) - 1) = Some 0%Z.
Proof.
  rewrite length_wrap. unfold wrap.
  replace (length ids + 2 - 1) with (S (length ids)) by lia. simpl.
  by rewrite lookup_app_r, Nat.sub_diag by lia.
Qed.

Lemma en_tokenize_loop_app_last o cs c :
  en_tokenize_loop o (cs ++ [c]) = Some (chunk_ps c).
Proof. revert o. induction cs; simpl; auto. Qed.

(** The chunk loop leaves the phonemes of the last chunk. *)
Lemma en_tokenize_loop_last o cs :
  en_tokenize_loop o cs = match last cs with Some c => Some (chunk_ps c) | None => o end.
Proof.
  revert o. induction cs as [|c cs IH]; intros o; simpl; [done|]. rewrite IH.
  destruct cs as [|c' cs]; [done|]. rewrite last_cons_cons.
  destruct (last (c' :: cs)) eqn:E; [done|]. by apply last_None in E.
Qed.

Lemma en_tokenize_loop_None_inv o cs :
  en_tokenize_loop o cs = None → o = None ∧ cs = [].
Proof.
  revert o. induction cs as [|c cs IH]; simpl; [auto|].
  intros o H. destruct (IH _ H). discriminate.
Qed.

Lemma load_input_ids_Ok en g2p vocab lang text ps ids :
  load_input_ids en g2p vocab lang text = Ok (ps, ids) →
  ∃ ps0, load_phonemes en g2p lang text = Ok ps0 ∧ ps = truncate ps0 ∧
         ids = wrap (input_ids_of vocab ps).
Proof.
  unfold load_input_ids. intros H. simplify_result. eauto.
Qed.

Lemma forward_input_ids_Ok vocab ctx phonemes ids :
  forward_input_ids vocab ctx phonemes = Ok ids →
  ids = wrap (input_ids_of vocab phonemes) ∧ length (input_ids_of vocab phonemes) + 2 ≤ ctx.
Proof.
  unfold forward_input_ids. intros H. simplify_result.
  by apply bool_decide_eq_true in H.
Qed.

#[export] Hint Rewrite length_truncate length_wrap @input_ids_of_app : kokoro_rw.

(** ** Properties *)

(** C6: every id row that [load_input_ids] returns is wrapped by the
    boundary marker 0 at both ends, has two more elements than the ids
    of the (at most 510) phonemes kept, and so at most 512 elements. *)
Theorem load_input_ids_shape en g2p vocab lang text ps ids :
  load_input_ids en g2p vocab lang text = Ok (ps, ids) →
  length ps ≤ max_phonemes ∧
  length ids = length (input_ids_of vocab ps) + 2 ∧
  length ids ≤ max_phonemes + 2 ∧
  ids !! 0 = Some 0%Z ∧ ids !! (length ids - 1) = Some 0%Z.
Proof.
  intros (ps0 & _ & -> & ->)%load_input_ids_Ok.
  pose proof (input_ids_of_length vocab (truncate ps0)).
  rewrite length_truncate in *.
  split; [lia|]. split; [apply length_wrap|].
  split; [rewrite length_wrap; lia|]. auto using wrap_first, wrap_last.
Qed.

(** C7: the export path and [KModel.forward] agree on the ids: when the
    model's context length is at least 512 (the plbert
    [max_position_embeddings]), encoding the phonemes kept by
    [load_input_ids] in [KModel.forward] passes the context-length
    assertion and yields the same wrapped row. *)
Theorem load_input_ids_forward_agree en g2p vocab lang text ps ids ctx :
  load_input_ids en g2p vocab lang text = Ok (ps, ids) →
  max_phonemes + 2 ≤ ctx →
  forward_input_ids vocab ctx ps = Ok ids.
Proof.
  intros (ps0 & _ & -> & ->)%load_input_ids_Ok Hctx.
  pose proof (input_ids_of_length vocab (truncate ps0)).
  rewrite length_truncate in *.
  unfold forward_input_ids. rewrite bool_decide_true by lia. reflexivity.
Qed.

(** [KModel.forward] raises the context-length AssertionError exactly
    when the ids and the two markers do not fit the context. *)
Lemma forward_input_ids_assert vocab ctx phonemes :
  forward_input_ids vocab ctx phonemes =
  if bool_decide (length (input_ids_of vocab phonemes) + 2 ≤ ctx)
  then Ok (wrap (input_ids_of vocab phonemes))
  else Raise (AssertionError "len(input_ids)+2 <= self.context_length").
Proof. unfold forward_input_ids. by case_bool_decide. Qed.

(** C8: a phoneme absent from the vocabulary is dropped silently: the ids
    are those of the sequence without it. *)
Theorem input_ids_of_drop_absent (vocab : gmap string Z) ps1 p ps2 :
  vocab !! p = None →
  input_ids_of vocab (ps1 ++ p :: ps2) = input_ids_of vocab (ps1 ++ ps2).
Proof.
  intros Hp. rewrite !input_ids_of_app, input_ids_of_cons_absent; done.
Qed.

(** C21: for English text, [load_input_ids] keeps only the phonemes of
    the LAST chunk that [en_tokenize] yields: the loop over the chunks
    does not accumulate them. *)
Theorem load_input_ids_last_chunk en g2p vocab lang text cs c :
  str_in lang "ab" = true → en text = cs ++ [c] →
  load_input_ids en g2p vocab lang text =
  Ok (truncate (chunk_ps c), wrap (input_ids_of vocab (truncate (chunk_ps c)))).
Proof.
  intros Hl Hc. unfold load_input_ids, load_phonemes.
  by rewrite Hl, Hc, en_tokenize_loop_app_last.
Qed.

(** C22: for English text that yields no chunk, [ps] is never bound and
    [load_input_ids] raises a NameError (an UnboundLocalError). *)
Theorem load_input_ids_no_chunk en g2p vocab lang text :
  str_in lang "ab" = true → en text = [] →
  load_input_ids en g2p vocab lang text = Raise (NameError "ps").
Proof. intros Hl Hc. unfold load_input_ids, load_phonemes. by rewrite Hl, Hc. Qed.

(** ** Witnesses *)


(** C9: src/ids.py and [load_input_ids] of src/export.py encode alike:
    for the American pipeline ([lang_code='a']) both return the same
    truncated phonemes, or raise the same error, and the row export.py
    feeds the model is the ids of ids.py wrapped in [0 ... 0]. *)
Theorem ids_script_load_input_ids en g2p (vocab : gmap string Z) text :
  load_input_ids en g2p vocab "a" text =
  (λ '(ps, ids), (ps, wrap ids)) <$> ids_script en (λ p, Ok (vocab !! p)) text.
Proof.
  unfold load_input_ids, load_phonemes, ids_script. simpl.
  destruct (en_tokenize_loop None (en text)); simpl; [|done].
  by rewrite input_ids_with_gmap.
Qed.

Lemma load_input_ids_shape_witness :
  load_input_ids chunks_example (λ _, []) vocab_example "a" "x y" =
    Ok (["a"; "b"; "?"], [0; 5; 12; 0]%Z) ∧
  length ["a"; "b"; "?"] ≤ max_phonemes ∧
  length [0; 5; 12; 0]%Z = length (input_ids_of vocab_example ["a"; "b"; "?"]) + 2 ∧
  length [0; 5; 12; 0]%Z ≤ max_phonemes + 2 ∧
  [0; 5; 12; 0]%Z !! 0 = Some 0%Z ∧
  [0; 5; 12; 0]%Z !! (length [0; 5; 12; 0]%Z - 1) = Some 0%Z.
Proof.
  assert (H : load_input_ids chunks_example (λ _, []) vocab_example "a" "x y" =
                Ok (["a"; "b"; "?"], [0; 5; 12; 0]%Z)) by reflexivity.
  split; [exact H|]. exact (load_input_ids_shape _ _ _ _ _ _ _ H).
Defined.

Lemma load_input_ids_forward_agree_witness :
  forward_input_ids vocab_example 512 ["a"; "b"; "?"] = Ok [0; 5; 12; 0]%Z.
Proof.
  apply (load_input_ids_forward_agree chunks_example (λ _, []) vocab_example "a" "x y");
    [reflexivity | vm_compute; lia].
Defined.

Lemma input_ids_of_drop_absent_witness :
  input_ids_of vocab_example (["a"] ++ "?" :: ["b"]) = input_ids_of vocab_example (["a"] ++ ["b"]).
Proof. apply input_ids_of_drop_absent. reflexivity. Defined.

Lemma load_input_ids_last_chunk_witness :
  load_input_ids chunks_example (λ _, []) vocab_example "a" "x y" =
  Ok (truncate ["a"; "b"; "?"], wrap (input_ids_of vocab_example (truncate ["a"; "b"; "?"]))).
Proof.
  apply (load_input_ids_last_chunk _ _ _ _ _ [mk_chunk "x" ["a"; "a"] []]
           (mk_chunk "y" ["a"; "b"; "?"] []));
    reflexivity.
Defined.

Lemma load_input_ids_no_chunk_witness :
  load_input_ids (λ _, []) (λ _, []) vocab_example "a" "" = Raise (NameError "ps").
Proof. apply load_input_ids_no_chunk; reflexivity. Defined.

End Tokens.
