(* ===== verification/Duration.v ===== *)
(** * Duration: the per-token frame counts

    Models the duration policy shared by [KModel.forward] (src/kokoro/
    model.py lines 95-97) and [KModel.inference] (lines 126-129):
<<
    duration = torch.sigmoid(duration).sum(axis=-1) / speed
    pred_dur = torch.round(duration).clamp(min=1).long()
>>
    Float tensors are modelled by exact rationals [Q]; [torch.round]
    rounds half to even and is modelled exactly on [Q].  The logits of
    [predictor.duration_proj] are one row of [Q] per token, and
    [torch.sigmoid] is a Section variable (its only property used is its
    range).  A zero [speed] makes the quotient infinite and [.long()] of
    an infinity is undefined: that case is the [UndefinedCast] error. *)

From Stdlib Require Import QArith Qround Lqa.
From S2P Require Import Prelude.

Module Duration.

Local Open Scope Q_scope.

(** [torch.round]: to the nearest integer, ties to the even one. *)
Definition round_half_even (q : Q) : Z :=
  let f := Qfloor q in
  match Qcompare (q - inject_Z f) (1 # 2) with
  | Lt => f
  | Gt => (f + 1)%Z
  | Eq => if Z.even f then f else (f + 1)%Z
  end.

(** [tensor.clamp(min=lo)]. *)
Definition clamp_min (lo x : Z) : Z := Z.max x lo.

(** A step approximation of the logistic function, in (0, 1). *)
Definition sigmoid_example (x : Q) : Q := if Qle_bool x 0 then 1 # 4 else 3 # 4.

Definition logits_example : list (list Q) := [[1; 1; 1; 1]; [-1; -1]].

Section Policy.

Variable sigmoid : Q → Q.

(** [torch.sigmoid(duration).sum(axis=-1) / speed] for one token. *)
Definition token_duration (speed : Q) (logits : list Q) : Q :=
  foldr Qplus 0 (map sigmoid logits) / speed.

(** [torch.round(duration).clamp(min=1)] for one token. *)
Definition frames_of (speed : Q) (logits : list Q) : Z :=
  clamp_min 1 (round_half_even (token_duration speed logits)).

(** [pred_dur] of a whole sequence, one logit row per token. *)
Definition pred_dur (speed : Q) (logits : list (list Q)) : result (list Z) :=
  if Qeq_bool speed 0 then Raise UndefinedCast
  else Ok (map (frames_of speed) logits).

(** ** Lemmas on the policy *)

Lemma sum_sigmoid_nonneg logits :
  (∀ x, 0 <= sigmoid x) → 0 <= foldr Qplus 0 (map sigmoid logits).
Proof.
  intros Hs. induction logits as [|x l IH]; simpl; [apply Qle_refl|].
  specialize (Hs x). lra.
Qed.

Lemma sum_sigmoid_le_length logits :
  (∀ x, sigmoid x <= 1) →
  foldr Qplus 0 (map sigmoid logits) <= inject_Z (Z.of_nat (length logits)).
Proof.
  intros Hs. induction logits as [|x l IH]; simpl; [apply Qle_refl|].
  rewrite Nat2Z.inj_succ, <- Z.add_1_l, inject_Z_plus.
  specialize (Hs x). change (inject_Z 1) with 1. lra.
Qed.

Lemma pred_dur_Ok speed logits :
  ~ speed == 0 → pred_dur speed logits = Ok (map (frames_of speed) logits).
Proof.
  intros Hs. unfold pred_dur.
  destruct (Qeq_bool speed 0) eqn:E; [|done].
  apply Qeq_bool_iff in E. contradiction.
Qed.

End Policy.

(** ** Lemmas on rounding *)

Lemma Qfloor_bounds q : inject_Z (Qfloor q) <= q < inject_Z (Qfloor q) + 1.
Proof.
  split; [apply Qfloor_le|]. pose proof (Qlt_floor q) as H.
  rewrite inject_Z_plus in H. exact H.
Qed.

(** The two outcomes of [round_half_even] and when each happens. *)
Lemma round_half_even_cases q :
  (round_half_even q = Qfloor q ∧
     (q - inject_Z (Qfloor q) < 1 # 2 ∨
      (q - inject_Z (Qfloor q) == 1 # 2 ∧ Z.even (Qfloor q) = true))) ∨
  (round_half_even q = (Qfloor q + 1)%Z ∧
     (1 # 2 < q - inject_Z (Qfloor q) ∨
      (q - inject_Z (Qfloor q) == 1 # 2 ∧ Z.even (Qfloor q) = false))).
Proof.
  unfold round_half_even.
  destruct (Qcompare_spec (q - inject_Z (Qfloor q)) (1 # 2)) as [H|H|H].
  - destruct (Z.even (Qfloor q)) eqn:E; [left|right]; auto.
  - left. auto.
  - right. auto.
Qed.

Lemma round_half_even_mono x y : x <= y → (round_half_even x <= round_half_even y)%Z.
Proof.
  intros Hxy. pose proof (Qfloor_resp_le _ _ Hxy) as Hf.
  destruct (round_half_even_cases x) as [[Ex Cx]|[Ex Cx]];
  destruct (round_half_even_cases y) as [[Ey Cy]|[Ey Cy]];
    rewrite Ex, Ey; try lia.
  destruct (Z.eq_dec (Qfloor x) (Qfloor y)) as [E|]; [|lia].
  exfalso. rewrite E in Cx.
  destruct Cx as [Cx|[Cx Px]], Cy as [Cy|[Cy Py]]; try lra; congruence.
Qed.

#[export] Instance round_half_even_le : Proper (Qle ==> Z.le) round_half_even.
Proof. intros x y. apply round_half_even_mono. Qed.

#[export] Instance round_half_even_proper : Proper (Qeq ==> eq) round_half_even.
Proof.
  intros x y Hxy. apply Z.le_antisymm; apply round_half_even_mono; rewrite Hxy;
    apply Qle_refl.
Qed.

Lemma Qdiv_le_anti a s1 s2 : 0 <= a → 0 < s1 → s1 <= s2 → a / s2 <= a / s1.
Proof.
  intros Ha H1 H12. unfold Qdiv.
  assert (E1 : s1 * / s1 == 1) by (apply Qmult_inv_r; lra).
  assert (E2 : s2 * / s2 == 1) by (apply Qmult_inv_r; lra).
  assert (P1 : 0 <= / s1) by (apply Qinv_le_0_compat; lra).
  assert (P2 : 0 <= / s2) by (apply Qinv_le_0_compat; lra).
  assert (/ s2 <= / s1) by nra.
  rewrite !(Qmult_comm a). apply Qmult_le_compat_r; assumption.
Qed.

Lemma Qdiv_nonpos a s : 0 <= a → s < 0 → a / s <= 0.
Proof.
  intros Ha Hs. unfold Qdiv.
  assert (E : s * / s == 1) by (apply Qmult_inv_r; lra).
  assert (/ s <= 0) by nra.
  nra.
Qed.

Lemma clamp_min_ge lo x : (lo <= clamp_min lo x)%Z.
Proof. unfold clamp_min. lia. Qed.

Lemma frames_of_speed_mono sigmoid s1 s2 row :
  (∀ x, 0 <= sigmoid x) → 0 < s1 → s1 <= s2 →
  (frames_of sigmoid s2 row <= frames_of sigmoid s1 row)%Z.
Proof.
  intros Hs H1 H12. unfold frames_of, clamp_min, token_duration.
  pose proof (Qdiv_le_anti _ _ _ (sum_sigmoid_nonneg sigmoid row Hs) H1 H12) as Hq.
  apply round_half_even_mono in Hq. lia.
Qed.

Lemma frames_of_neg_speed sigmoid s row :
  (∀ x, 0 <= sigmoid x) → s < 0 → frames_of sigmoid s row = 1%Z.
Proof.
  intros Hs Hneg. unfold frames_of, clamp_min, token_duration.
  pose proof (Qdiv_nonpos _ _ (sum_sigmoid_nonneg sigmoid row Hs) Hneg) as Hq.
  apply round_half_even_mono in Hq. change (round_half_even 0) with 0%Z in Hq. lia.
Qed.

Lemma frames_of_ge_1 sigmoid speed row : (1 <= frames_of sigmoid speed row)%Z.
Proof. apply clamp_min_ge. Qed.

Lemma pred_dur_Ok_inv sigmoid speed logits ds :
  pred_dur sigmoid speed logits = Ok ds →
  ~ speed == 0 ∧ ds = map (frames_of sigmoid speed) logits.
Proof.
  unfold pred_dur. destruct (Qeq_bool speed 0) eqn:E; intros H; simplify_result.
  split; [|done]. intros Hz. apply Qeq_bool_iff in Hz. congruence.
Qed.

Lemma pred_dur_length sigmoid speed logits ds :
  pred_dur sigmoid speed logits = Ok ds → length ds = length logits.
Proof. intros (_ & ->)%pred_dur_Ok_inv. apply length_map. Qed.

Lemma Forall_frames_of_ge_1 sigmoid speed logits :
  Forall (λ d, (1 <= d)%Z) (map (frames_of sigmoid speed) logits).
Proof. apply Forall_map, Forall_forall. intros row _. apply frames_of_ge_1. Qed.

Lemma Forall2_map_diag {A B} (R : B → B → Prop) (f g : A → B) l :
  (∀ x, R (f x) (g x)) → Forall2 R (map f l) (map g l).
Proof. intros H. induction l; simpl; constructor; auto. Qed.

#[export] Hint Resolve clamp_min_ge round_half_even_mono : kokoro.

(** ** Properties *)

(** C4: every predicted duration is at least one frame, whatever the
    logits and the (nonzero) speed, negative values included. *)
Theorem pred_dur_ge_1 sigmoid speed logits ds :
  pred_dur sigmoid speed logits = Ok ds → Forall (λ d, (1 <= d)%Z) ds.
Proof. intros (_ & ->)%pred_dur_Ok_inv. apply Forall_frames_of_ge_1. Qed.

(** C5: speed monotonicity: for the same logits, a larger positive speed
    never increases the frame count of any token. *)
Theorem pred_dur_speed_mono sigmoid s1 s2 logits d1 d2 :
  (∀ x, 0 <= sigmoid x) → 0 < s1 → s1 <= s2 →
  pred_dur sigmoid s1 logits = Ok d1 → pred_dur sigmoid s2 logits = Ok d2 →
  Forall2 (λ a b, (b <= a)%Z) d1 d2.
Proof.
  intros Hs H1 H12.
  rewrite !pred_dur_Ok by lra. intros E1 E2. simplify_result.
  apply Forall2_map_diag. intros row. by apply frames_of_speed_mono.
Qed.

(** C23: the code never checks that [speed] is positive: a negative speed
    makes every duration negative, and the clamp turns each into exactly
    one frame. *)
Theorem pred_dur_negative_speed sigmoid speed logits :
  (∀ x, 0 <= sigmoid x) → speed < 0 →
  pred_dur sigmoid speed logits = Ok (replicate (length logits) 1%Z).
Proof.
  intros Hs Hneg. rewrite pred_dur_Ok by lra. f_equal.
  induction logits as [|row l IH]; cbn [map replicate length]; [done|].
  by rewrite frames_of_neg_speed, IH.
Qed.

(** C24: with [n] logits per token and a positive speed, each duration is
    at most [max(1, round(n / speed))] frames ([n] is [max_dur]). *)
Theorem pred_dur_upper_bound sigmoid speed logits ds n :
  (∀ x, 0 <= sigmoid x <= 1) → 0 < speed →
  Forall (λ row, length row = n) logits →
  pred_dur sigmoid speed logits = Ok ds →
  Forall (λ d, (d <= Z.max 1 (round_half_even (inject_Z (Z.of_nat n) / speed)))%Z) ds.
Proof.
  intros Hs Hpos Hrows. rewrite pred_dur_Ok by lra. intros E. simplify_result.
  apply Forall_map. eapply Forall_impl; [exact Hrows|]. intros row <-.
  unfold frames_of, clamp_min, token_duration.
  enough (round_half_even (foldr Qplus 0%Q (map sigmoid row) / speed) <=
          round_half_even (inject_Z (Z.of_nat (length row)) / speed))%Z by lia.
  apply round_half_even_mono. unfold Qdiv. apply Qmult_le_compat_r.
  - apply sum_sigmoid_le_length. intros x. apply Hs.
  - apply Qinv_le_0_compat. lra.
Qed.

(** [torch.round] as modelled: the result is within one half of its
    argument, and a tie is rounded to the even neighbour. *)
Lemma round_half_even_spec q :
  -(1 # 2) <= inject_Z (round_half_even q) - q <= 1 # 2 ∧
  (q - inject_Z (Qfloor q) == 1 # 2 → Z.even (round_half_even q) = true).
Proof.
  pose proof (Qfloor_bounds q).
  destruct (round_half_even_cases q) as [[-> C]|[-> C]].
  - split; [lra|]. intros Ht. destruct C as [C|[_ C]]; [lra|exact C].
  - rewrite inject_Z_plus. change (inject_Z 1) with 1. split; [lra|].
    intros Ht. destruct C as [C|[_ C]]; [lra|].
    rewrite Z.even_add. (* odd floor, so the next integer is even *)
    rewrite C. reflexivity.
Qed.

(** ** Witnesses *)


Lemma sigmoid_example_range x : 0 <= sigmoid_example x <= 1.
Proof. unfold sigmoid_example. destruct (Qle_bool x 0); split; discriminate. Qed.

Lemma pred_dur_ge_1_witness :
  Forall (λ d, (1 <= d)%Z) [3%Z; 1%Z].
Proof.
  apply (pred_dur_ge_1 sigmoid_example 1 logits_example). reflexivity.
Defined.

Lemma pred_dur_speed_mono_witness :
  Forall2 (λ a b, (b <= a)%Z) [3%Z; 1%Z] [2%Z; 1%Z].
Proof.
  apply (pred_dur_speed_mono sigmoid_example 1 2 logits_example);
    [intros x; apply sigmoid_example_range | reflexivity | discriminate
    | reflexivity | reflexivity].
Defined.

Lemma pred_dur_negative_speed_witness :
  pred_dur sigmoid_example (-1) logits_example = Ok [1%Z; 1%Z].
Proof.
  apply (pred_dur_negative_speed sigmoid_example (-1) logits_example);
    [intros x; apply sigmoid_example_range | reflexivity].
Defined.

Lemma pred_dur_upper_bound_witness :
  Forall (λ d, (d <= Z.max 1 (round_half_even (inject_Z 4 / 1)))%Z) [3%Z; 1%Z].
Proof.
  apply (pred_dur_upper_bound sigmoid_example 1 [[1; 1; 1; 1]; [-1; -1; -1; -1]] _ 4);
    [apply sigmoid_example_range | reflexivity | repeat constructor | reflexivity].
Defined.

End Duration.
