(* ===== verification/Alignment.v ===== *)
(** * Alignment: token-to-frame alignment and expansion

    Models the AlignmentExpander of src/kokoro/model.py, the two ways the
    code builds the (L x F) alignment matrix [pred_aln_trg] from the
    durations, and the expansion [d.transpose(-1, -2) @ pred_aln_trg]:
    - [aln_scatter]   : [KModel.forward], lines 99-101
      ([repeat_interleave] of the token indices, then a scatter of ones);
    - [aln_broadcast] : [KModel.inference], lines 130-134
      (cumulative sums, then a broadcast comparison with the frame index);
    - [aln_spec]      : the specification of the matrix (token [i] occupies
      frames [starts i, starts (i+1))), which both refine;
    - [matmul], [transpose] : the products of lines 103, 106, 136, 139.
    Durations are [nat]s (they are [long]s at least 1, see [Duration]).
    Tensor elements range over a type with 0, 1, + and * ([TensorElt]);
    the batch axis of size one is handled in [Pipeline]. *)

From S2P Require Import Prelude.

Module Alignment.

(** The element type of float tensors, with the laws the expansion uses. *)
Class TensorElt (K : Type) := {
  t0 : K;
  t1 : K;
  tadd : K → K → K;
  tmul : K → K → K;
  tadd_0_l x : tadd t0 x = x;
  tadd_0_r x : tadd x t0 = x;
  tmul_1_r x : tmul x t1 = x;
  tmul_0_r x : tmul x t0 = t0
}.

Abbreviation mat K := (list (list K)).

(** [torch.arange(n)]. *)
Definition arange (n : nat) : list nat := seq 0 n.

(** [torch.repeat_interleave(xs, reps)]: each [xs[i]] repeated [reps[i]] times. *)
Definition repeat_interleave {A} (xs : list A) (reps : list nat) : list A :=
  concat (zip_with (λ x r, replicate r x) xs reps).

(** [tensor.cumsum(0)] of a list of counts. *)
Fixpoint cumsum_from (acc : nat) (l : list nat) : list nat :=
  match l with
  | [] => []
  | x :: l' => (acc + x) :: cumsum_from (acc + x) l'
  end.

Definition cumsum (l : list nat) : list nat := cumsum_from 0 l.

(** Frame [f] belongs to token [i] when [starts durs i <= f < starts durs (S i)]. *)
Definition starts (durs : list nat) (i : nat) : nat := sum_list (take i durs).

(** The token occupying frame [f]. *)
Fixpoint owner (durs : list nat) (f : nat) : nat :=
  match durs with
  | [] => 0
  | d :: ds => if bool_decide (f < d) then 0 else S (owner ds (f - d))
  end.

Section Matrices.

Context {K : Type} `{!TensorElt K}.

#[local] Instance tensor_elt_inhabited : Inhabited K := populate t0.

(** [bool_tensor.float()]. *)
Definition b2f (b : bool) : K := if b then t1 else t0.

(** [torch.zeros((rows, cols))]. *)
Definition zeros (rows cols : nat) : mat K := replicate rows (replicate cols t0).

(** [m[i, j] = v] (no effect out of range). *)
Definition set2 (m : mat K) (i j : nat) (v : K) : mat K :=
  alter (λ row, <[j := v]> row) i m.

(** [m[rows, cols] = 1]: advanced-index assignment, pair by pair. *)
Definition scatter_ones (m : mat K) (rows cols : list nat) : mat K :=
  foldl (λ acc ij, set2 acc ij.1 ij.2 t1) m (zip rows cols).

(** Lines 99-101 of [KModel.forward]; [L] is [input_ids.shape[1]]:
<<
    indices = torch.repeat_interleave(torch.arange(L), pred_dur)
    pred_aln_trg = torch.zeros((L, indices.shape[0]))
    pred_aln_trg[indices, torch.arange(indices.shape[0])] = 1
>> *)
Definition aln_scatter (L : nat) (durs : list nat) : mat K :=
  let indices := repeat_interleave (arange L) durs in
  scatter_ones (zeros L (length indices)) indices (arange (length indices)).

(** Lines 130-134 of [KModel.inference]:
<<
    indices = pred_dur.cumsum(0)
    start_indices = torch.cat([torch.zeros(1), indices[:-1]])
    idx = torch.arange(pred_dur.sum()).unsqueeze(0).repeat(indices.shape[0], 1)
    pred_aln_trg = (idx >= start_indices.unsqueeze(1)) & (idx < indices.unsqueeze(1))
    pred_aln_trg = pred_aln_trg.float()
>> *)
Definition aln_broadcast (durs : list nat) : mat K :=
  let indices := cumsum durs in
  let start_indices := 0 :: take (length indices - 1) indices in
  let idx := replicate (length indices) (arange (sum_list durs)) in
  zip_with (λ row se,
      map (λ f, b2f (bool_decide (se.1 ≤ f) && bool_decide (f < se.2))) row)
    idx (zip start_indices indices).

(** The alignment matrix the spec describes: L rows, F = sum durs
    columns, token [i] on the frames [starts i, starts (S i)). *)
Definition aln_spec (durs : list nat) : mat K :=
  map (λ i, map (λ f, b2f (bool_decide (starts durs i ≤ f < starts durs (S i))))
                (seq 0 (sum_list durs)))
      (seq 0 (length durs)).

(** Column [j] of a matrix given by its rows. *)
Definition col (m : mat K) (j : nat) : list K := map (λ row, row !!! j) m.

(** [m.transpose(-1, -2)] of a matrix with [n] columns. *)
Definition transpose (n : nat) (m : mat K) : mat K := map (col m) (seq 0 n).

Definition dot (u v : list K) : K := foldr tadd t0 (zip_with tmul u v).

(** [a @ b] where [b] has [p] columns. *)
Definition matmul (a b : mat K) (p : nat) : mat K :=
  map (λ row, map (λ j, dot row (col b j)) (seq 0 p)) a.

(** The unit vector of length [n] selecting [k]. *)
Definition unit_vec (n k : nat) : list K := map (λ i, b2f (bool_decide (i = k))) (seq 0 n).

(** [m[i][j]] as an option. *)
Definition entry (m : mat K) (i j : nat) : option K := m !! i ≫= (λ row, row !! j).

(** [m] has [r] rows of [c] entries each. *)
Definition rect (r c : nat) (m : mat K) : Prop :=
  length m = r ∧ Forall (λ row, length row = c) m.

End Matrices.

(** Integers, with exact arithmetic, as an element type for examples. *)
#[export] Program Instance Z_tensor_elt : TensorElt Z :=
  {| t0 := 0%Z; t1 := 1%Z; tadd := Z.add; tmul := Z.mul |}.
Solve All Obligations with intros; lia.

(** ** Frames, owners and cumulative sums *)

Lemma starts_0 durs : starts durs 0 = 0.
Proof. reflexivity. Qed.

Lemma starts_cons_S d ds i : starts (d :: ds) (S i) = d + starts ds i.
Proof. reflexivity. Qed.

Lemma starts_all durs i : length durs ≤ i → starts durs i = sum_list durs.
Proof. intros H. unfold starts. by rewrite take_ge. Qed.

Lemma starts_mono durs i j : i ≤ j → starts durs i ≤ starts durs j.
Proof.
  revert i j. induction durs as [|d ds IH]; intros [|i] [|j] Hij;
    rewrite ?starts_0, ?starts_cons_S; try lia.
  - unfold starts. simpl. lia.
  - specialize (IH i j). lia.
Qed.

(** Every frame below [sum durs] has an owner, a token whose interval
    contains it. *)
Lemma owner_spec durs f :
  f < sum_list durs →
  owner durs f < length durs ∧
  starts durs (owner durs f) ≤ f < starts durs (S (owner durs f)).
Proof.
  revert f. induction durs as [|d ds IH]; intros f Hf; simpl in *; [lia|].
  case_bool_decide.
  - unfold starts. simpl. lia.
  - destruct (IH (f - d)) as (H1 & H2 & H3); [lia|].
    rewrite !starts_cons_S. lia.
Qed.

(** ... and it is the only one. *)
Lemma owner_unique durs i f :
  i < length durs → starts durs i ≤ f < starts durs (S i) → owner durs f = i.
Proof.
  revert i f. induction durs as [|d ds IH]; intros [|i] f Hi Hf; simpl in *; try lia.
  - unfold starts in Hf. simpl in Hf. by rewrite bool_decide_true by lia.
  - rewrite !starts_cons_S in Hf. rewrite bool_decide_false by lia.
    f_equal. apply IH; lia.
Qed.

Lemma owner_iff durs i f :
  i < length durs → f < sum_list durs →
  owner durs f = i ↔ starts durs i ≤ f < starts durs (S i).
Proof.
  intros Hi Hf. split; [intros <-; apply owner_spec; lia|].
  apply owner_unique; lia.
Qed.

Lemma repeat_interleave_cons {A} (x : A) xs d ds :
  repeat_interleave (x :: xs) (d :: ds) = replicate d x ++ repeat_interleave xs ds.
Proof. reflexivity. Qed.

Lemma length_repeat_interleave {A} (xs : list A) durs :
  length xs = length durs → length (repeat_interleave xs durs) = sum_list durs.
Proof.
  revert durs. induction xs as [|x xs IH]; intros [|d ds] H; simpl in *; try lia.
  rewrite repeat_interleave_cons, length_app, length_replicate, IH; lia.
Qed.

(** Frame [f] of [repeat_interleave xs durs] is the element of its owner. *)
Lemma lookup_repeat_interleave {A} (xs : list A) durs f :
  length xs = length durs → f < sum_list durs →
  repeat_interleave xs durs !! f = xs !! owner durs f.
Proof.
  revert durs f. induction xs as [|x xs IH]; intros [|d ds] f Hl Hf;
    simpl in *; try lia.
  rewrite repeat_interleave_cons. case_bool_decide.
  - rewrite lookup_app_l by (rewrite length_replicate; lia).
    by apply lookup_replicate_2.
  - rewrite lookup_app_r by (rewrite length_replicate; lia).
    rewrite length_replicate. simpl. apply IH; lia.
Qed.

Lemma length_cumsum_from acc l : length (cumsum_from acc l) = length l.
Proof. revert acc. induction l; simpl; auto. Qed.

Lemma lookup_cumsum_from acc l i :
  i < length l → cumsum_from acc l !! i = Some (acc + starts l (S i)).
Proof.
  revert acc i. induction l as [|x l IH]; intros acc [|i] Hi; simpl in *; try lia.
  - unfold starts. simpl. f_equal. lia.
  - rewrite IH by lia. rewrite starts_cons_S. f_equal. lia.
Qed.

Lemma length_cumsum l : length (cumsum l) = length l.
Proof. apply length_cumsum_from. Qed.

Lemma lookup_cumsum l i : i < length l → cumsum l !! i = Some (starts l (S i)).
Proof. intros Hi. unfold cumsum. by rewrite lookup_cumsum_from. Qed.

#[export] Hint Rewrite length_cumsum starts_cons_S : kokoro_rw.

Lemma lookup_map_opt {A B} (f : A → B) (l : list A) i : map f l !! i = f <$> l !! i.
Proof. revert i. induction l; intros [|i]; simpl; auto. Qed.

#[export] Hint Rewrite @lookup_map_opt : kokoro_rw.

(** ** Matrices *)

Section MatrixLemmas.

Context {K : Type} `{!TensorElt K}.
#[local] Existing Instance tensor_elt_inhabited.

Lemma rect_ext r c (m1 m2 : mat K) :
  rect r c m1 → rect r c m2 →
  (∀ i j, i < r → j < c → entry m1 i j = entry m2 i j) → m1 = m2.
Proof.
  intros [Hl1 Hr1] [Hl2 Hr2] He. apply list_eq. intros i.
  destruct (decide (i < r)); [|rewrite !lookup_ge_None_2 by lia; done].
  destruct (m1 !! i) as [row1|] eqn:E1; [|apply lookup_ge_None in E1; lia].
  destruct (m2 !! i) as [row2|] eqn:E2; [|apply lookup_ge_None in E2; lia].
  pose proof (Forall_lookup_1 _ _ _ _ Hr1 E1) as Hc1.
  pose proof (Forall_lookup_1 _ _ _ _ Hr2 E2) as Hc2.
  simpl in Hc1, Hc2. f_equal. apply list_eq. intros j.
  destruct (decide (j < c)).
  2:{ rewrite (lookup_ge_None_2 row1), (lookup_ge_None_2 row2) by lia. done. }
  specialize (He i j ltac:(done) ltac:(done)).
  unfold entry in He. by rewrite E1, E2 in He.
Qed.

Lemma rect_row r c (m : mat K) i row :
  rect r c m → m !! i = Some row → length row = c.
Proof. intros [_ Hr] E. exact (Forall_lookup_1 _ _ _ _ Hr E). Qed.

Lemma rect_set2 r c (m : mat K) i j v : rect r c m → rect r c (set2 m i j v).
Proof.
  intros [Hl Hr]. unfold set2. split; [by rewrite length_alter|].
  apply Forall_lookup. intros k row. rewrite list_lookup_alter.
  destruct (decide (i = k)) as [<-|].
  - destruct (m !! i) as [row0|] eqn:E; [|discriminate].
    intros [= <-]. rewrite length_insert. exact (Forall_lookup_1 _ _ _ _ Hr E).
  - intros E. exact (Forall_lookup_1 _ _ _ _ Hr E).
Qed.

Lemma entry_set2 r c (m : mat K) i j v i' j' :
  rect r c m → i < r → j < c →
  entry (set2 m i j v) i' j' =
  if decide (i' = i ∧ j' = j) then Some v else entry m i' j'.
Proof.
  intros Hm Hi Hj. unfold entry, set2.
  destruct (decide (i' = i)) as [->|Hne].
  - rewrite list_lookup_alter, decide_True by done.
    destruct (m !! i) as [row|] eqn:E; [|apply lookup_ge_None in E; destruct Hm; lia].
    pose proof (rect_row _ _ _ _ _ Hm E). simpl.
    destruct (decide (j' = j)) as [->|Hj'].
    + rewrite decide_True by done. apply list_lookup_insert_eq; lia.
    + rewrite decide_False by (intros [_ ?]; contradiction). by apply list_lookup_insert_ne.
  - rewrite list_lookup_alter_ne by done. rewrite decide_False by (intros [? _]; contradiction).
    done.
Qed.

Lemma scatter_ones_cons (m : mat K) x rows k cols :
  scatter_ones m (x :: rows) (k :: cols) = scatter_ones (set2 m x k t1) rows cols.
Proof. reflexivity. Qed.

(** The scatter of ones at [(rows[n], k + n)]: shape kept, and an entry is
    one exactly where a pair was written. *)
Lemma scatter_ones_spec r c (m : mat K) rows k :
  rect r c m → Forall (λ x, x < r) rows → k + length rows ≤ c →
  rect r c (scatter_ones m rows (seq k (length rows))) ∧
  ∀ i j, entry (scatter_ones m rows (seq k (length rows))) i j =
    if decide (k ≤ j ∧ rows !! (j - k) = Some i) then Some t1 else entry m i j.
Proof.
  revert m k. induction rows as [|x rows IH]; intros m k Hm Hrows Hc.
  - split; [done|]. intros i j. simpl. by rewrite decide_False by (intros [_ ?]; discriminate).
  - apply Forall_cons in Hrows as [Hx Hrows]. simpl in Hc, Hx.
    cbn [length seq]. rewrite scatter_ones_cons.
    pose proof (rect_set2 _ _ _ x k t1 Hm) as Hm'.
    destruct (IH (set2 m x k t1) (S k) Hm' Hrows ltac:(lia)) as [Hr He].
    split; [done|]. intros i j. rewrite He, (entry_set2 r c) by (done || lia).
    destruct (decide (j = k)) as [->|Hjk].
    + rewrite Nat.sub_diag. simpl.
      rewrite (decide_False (P := S k ≤ k ∧ _)) by (intros [? _]; lia).
      destruct (decide (i = x)) as [->|Hix].
      * by rewrite !decide_True by done.
      * rewrite (decide_False (P := i = x ∧ k = k)) by (intros [? _]; contradiction).
        rewrite decide_False by (intros [_ [= ?]]; congruence). done.
    + rewrite (decide_False (P := i = x ∧ j = k)) by (intros [_ ?]; contradiction).
      destruct (decide (k < j)).
      * replace (j - k) with (S (j - S k)) by lia. simpl.
        apply decide_ext. split; intros [? ?]; split; (done || lia).
      * rewrite !decide_False by (intros [? ?]; lia). done.
Qed.

Lemma rect_zeros r c : rect r c (zeros r c).
Proof.
  unfold zeros. split; [apply length_replicate|].
  apply Forall_replicate, length_replicate.
Qed.

Lemma entry_zeros r c i j : i < r → j < c → entry (zeros r c) i j = Some t0.
Proof.
  intros Hi Hj. unfold entry, zeros.
  rewrite lookup_replicate_2 by done. simpl. by rewrite lookup_replicate_2.
Qed.

Lemma map_seq_const {A} (g : nat → A) c s k :
  (∀ f, s ≤ f < s + k → g f = c) → map g (seq s k) = replicate k c.
Proof.
  revert s. induction k as [|k IH]; intros s Hg; simpl; [done|].
  rewrite Hg by lia. f_equal. apply IH. intros f Hf. apply Hg. lia.
Qed.

Lemma lookup_total_map_seq {A} `{!Inhabited A} (g : nat → A) n f :
  f < n → map g (seq 0 n) !!! f = g f.
Proof.
  intros Hf. apply list_lookup_total_correct.
  by rewrite lookup_map_opt, lookup_seq_lt.
Qed.

Lemma rect_aln_spec durs : rect (length durs) (sum_list durs) (aln_spec (K:=K) durs).
Proof.
  unfold aln_spec. split; [by rewrite length_map, length_seq|].
  apply Forall_lookup. intros i row. rewrite lookup_map_opt.
  destruct (seq 0 (length durs) !! i); intros [= <-]. by rewrite length_map, length_seq.
Qed.

Lemma lookup_aln_spec durs i :
  i < length durs →
  aln_spec (K:=K) durs !! i =
  Some (map (λ f, b2f (bool_decide (starts durs i ≤ f < starts durs (S i))))
            (seq 0 (sum_list durs))).
Proof. intros Hi. unfold aln_spec. by rewrite lookup_map_opt, lookup_seq_lt. Qed.

Lemma entry_aln_spec durs i j :
  i < length durs → j < sum_list durs →
  entry (aln_spec durs) i j =
  Some (b2f (bool_decide (starts durs i ≤ j < starts durs (S i)))).
Proof.
  intros Hi Hj. unfold entry. rewrite lookup_aln_spec by done. simpl.
  by rewrite lookup_map_opt, lookup_seq_lt.
Qed.

(** Refinement: the broadcast construction of [KModel.inference] builds
    the specified matrix. *)
Lemma aln_broadcast_spec durs : aln_broadcast durs = aln_spec (K:=K) durs.
Proof.
  apply list_eq. intros i. unfold aln_broadcast. rewrite lookup_zip_with, length_cumsum.
  destruct (decide (i < length durs)) as [Hi|Hi].
  2:{ rewrite (lookup_ge_None_2 (replicate _ _)) by (rewrite length_replicate; lia).
      simpl. symmetry. apply lookup_ge_None_2. unfold aln_spec.
      rewrite length_map, length_seq. lia. }
  assert (Hs : (0 :: take (length durs - 1) (cumsum durs)) !! i = Some (starts durs i)).
  { destruct i as [|i]; [done|]. simpl.
    rewrite lookup_take, decide_True by lia. by rewrite lookup_cumsum by lia. }
  rewrite lookup_replicate_2, lookup_aln_spec by done. cbn [mbind option_bind].
  rewrite lookup_zip_with, Hs, lookup_cumsum by done. cbn [mbind option_bind]. f_equal.
  unfold arange. apply map_ext. intros f. by rewrite bool_decide_and.
Qed.

Lemma lookup_indices durs f :
  f < sum_list durs →
  repeat_interleave (arange (length durs)) durs !! f = Some (owner durs f).
Proof.
  intros Hf. rewrite lookup_repeat_interleave by (unfold arange; by rewrite ?length_seq).
  unfold arange. apply lookup_seq_lt. apply owner_spec. done.
Qed.

(** Refinement: the scatter construction of [KModel.forward] builds the
    specified matrix. *)
Lemma aln_scatter_spec durs : aln_scatter (length durs) durs = aln_spec (K:=K) durs.
Proof.
  unfold aln_scatter.
  assert (Hlen : length (repeat_interleave (arange (length durs)) durs) = sum_list durs)
    by (apply length_repeat_interleave; unfold arange; by rewrite length_seq).
  assert (Hall : Forall (λ x, x < length durs) (repeat_interleave (arange (length durs)) durs)).
  { apply Forall_lookup. intros f x Hf.
    assert (f < sum_list durs) by (apply lookup_lt_Some in Hf; lia).
    rewrite lookup_indices in Hf by done. injection Hf as <-. apply owner_spec. lia. }
  unfold arange at 2. rewrite !Hlen.
  destruct (scatter_ones_spec (length durs) (sum_list durs)
              (zeros (length durs) (sum_list durs))
              (repeat_interleave (arange (length durs)) durs) 0) as [Hr He];
    [apply rect_zeros | done | lia |].
  rewrite Hlen in Hr, He.
  apply (rect_ext (length durs) (sum_list durs)); [exact Hr | apply rect_aln_spec |].
  intros i j Hi Hj. rewrite He, entry_aln_spec, entry_zeros by done.
  rewrite Nat.sub_0_r, lookup_indices by done. unfold b2f.
  destruct (decide (owner durs j = i)) as [Ho|Ho].
  - rewrite decide_True by (split; [lia|by rewrite Ho]).
    rewrite bool_decide_true; [done|]. by apply owner_iff.
  - rewrite decide_False by (intros [_ ?]; congruence).
    rewrite bool_decide_false; [done|]. by rewrite <- owner_iff.
Qed.

Lemma col_aln_spec durs f :
  f < sum_list durs → col (aln_spec durs) f = unit_vec (length durs) (owner durs f).
Proof.
  intros Hf. unfold col, aln_spec, unit_vec. rewrite map_map.
  apply map_ext_in. intros i Hi%in_seq.
  rewrite lookup_total_map_seq by done. f_equal.
  apply bool_decide_ext. rewrite <- (owner_iff durs i f) by lia. split; congruence.
Qed.

Lemma dot_zero_vec (v : list K) k s :
  k < s → dot v (map (λ i, b2f (bool_decide (i = k))) (seq s (length v))) = t0.
Proof.
  revert s. induction v as [|x v IH]; intros s Hks; [done|].
  unfold dot in *. simpl. rewrite bool_decide_false by lia. unfold b2f at 1.
  rewrite tmul_0_r, tadd_0_l. apply IH. lia.
Qed.

Lemma dot_unit_vec_from (v : list K) k s :
  s ≤ k < s + length v →
  dot v (map (λ i, b2f (bool_decide (i = k))) (seq s (length v))) = v !!! (k - s).
Proof.
  revert s. induction v as [|x v IH]; intros s Hks; simpl in *; [lia|].
  unfold dot. simpl. fold (dot v (map (λ i, b2f (bool_decide (i = k))) (seq (S s) (length v)))).
  destruct (decide (k = s)) as [->|Hne].
  - rewrite bool_decide_true by done. unfold b2f at 1.
    rewrite tmul_1_r, dot_zero_vec, tadd_0_r by lia. by rewrite Nat.sub_diag.
  - rewrite bool_decide_false by lia. unfold b2f at 1.
    rewrite tmul_0_r, tadd_0_l, IH by lia.
    replace (k - s) with (S (k - S s)) by lia. done.
Qed.

(** A dot product with a unit vector selects one coordinate. *)
Lemma dot_unit_vec (v : list K) k :
  k < length v → dot v (unit_vec (length v) k) = v !!! k.
Proof.
  intros Hk. unfold unit_vec. rewrite dot_unit_vec_from by lia. by rewrite Nat.sub_0_r.
Qed.

Lemma length_col (m : mat K) j : length (col m j) = length m.
Proof. apply length_map. Qed.

Lemma starts_S durs i d : durs !! i = Some d → starts durs (S i) = starts durs i + d.
Proof.
  revert i. induction durs as [|x ds IH]; intros [|i] Hi; simpl in *; try discriminate.
  - injection Hi as <-. unfold starts. simpl. lia.
  - rewrite !starts_cons_S, (IH i Hi). lia.
Qed.

Lemma lookup_col (m : mat K) i j row :
  m !! i = Some row → col m j !! i = Some (row !!! j).
Proof. intros E. unfold col. by rewrite lookup_map_opt, E. Qed.

End MatrixLemmas.

(** ** Properties *)

Section AlignmentProperties.

Context {K : Type} `{!TensorElt K}.
#[local] Existing Instance tensor_elt_inhabited.

(** C1: the scatter construction of [KModel.forward] and the broadcast
    construction of [KModel.inference] build the same alignment matrix,
    for every duration vector (zero durations included). *)
Theorem aln_scatter_eq_broadcast durs :
  aln_scatter (length durs) durs = aln_broadcast (K:=K) durs.
Proof. by rewrite aln_scatter_spec, aln_broadcast_spec. Qed.

(** C2: every column [f] of the alignment matrix (one per frame, below
    [sum durs]) is the unit vector of exactly one token: the [owner] of
    [f], the token whose frame interval contains [f]. *)
Theorem aln_broadcast_column_one_hot durs f :
  f < sum_list durs →
  col (aln_broadcast (K:=K) durs) f = unit_vec (length durs) (owner durs f) ∧
  owner durs f < length durs ∧
  starts durs (owner durs f) ≤ f < starts durs (S (owner durs f)).
Proof.
  intros Hf. rewrite aln_broadcast_spec. split; [by apply col_aln_spec|].
  by apply owner_spec.
Qed.

(** Row [i] of the alignment matrix is [durs[i]] ones on the frames
    [cumsum(durs)[i-1] .. cumsum(durs)[i]) and zeros elsewhere, over
    [sum durs] frames: token [i] occupies exactly [durs[i]] frames. *)
Lemma aln_broadcast_row durs i d :
  durs !! i = Some d →
  aln_broadcast (K:=K) durs !! i =
  Some (replicate (starts durs i) t0 ++ replicate d t1 ++
        replicate (sum_list durs - starts durs (S i)) t0).
Proof.
  intros Hi. pose proof (lookup_lt_Some _ _ _ Hi) as Hlt.
  rewrite aln_broadcast_spec, lookup_aln_spec by done. f_equal.
  rewrite (starts_S durs i d Hi).
  pose proof (starts_mono durs (S i) (length durs) ltac:(lia)) as Hm.
  rewrite (starts_all durs (length durs)), (starts_S durs i d Hi) in Hm by done.
  replace (sum_list durs) with (starts durs i + (d + (sum_list durs - (starts durs i + d))))
    at 1 by lia.
  rewrite !seq_app, !map_app. f_equal; [|f_equal]; apply map_seq_const;
    intros f Hf; unfold b2f; [rewrite bool_decide_false|rewrite bool_decide_true|
                              rewrite bool_decide_false]; (done || lia).
Qed.

(** C3: the expansion [d.transpose(-1, -2) @ pred_aln_trg] of per-token
    embeddings (one row of [H] values per token) is the transpose of the
    token rows repeated [durs[i]] times each: frame [f] carries the
    embedding of its owner token. *)
Theorem expand_repeat_interleave H (d : mat K) durs :
  rect (length durs) H d →
  matmul (transpose H d) (aln_broadcast durs) (sum_list durs) =
  transpose H (repeat_interleave d durs).
Proof.
  intros [Hl Hr]. rewrite aln_broadcast_spec. apply list_eq. intros h.
  unfold matmul, transpose. rewrite !lookup_map_opt.
  destruct (decide (h < H)) as [Hh|Hh];
    [|by rewrite lookup_ge_None_2 by (rewrite length_seq; lia)].
  rewrite lookup_seq_lt by done. simpl. f_equal. apply list_eq. intros j.
  rewrite lookup_map_opt.
  destruct (decide (j < sum_list durs)) as [Hj|Hj].
  2:{ rewrite lookup_ge_None_2 by (rewrite length_seq; lia). symmetry.
      apply lookup_ge_None_2. rewrite length_col, length_repeat_interleave; lia. }
  rewrite lookup_seq_lt by done. simpl.
  destruct (owner_spec durs j Hj) as (Ho & _).
  destruct (d !! owner durs j) as [row|] eqn:Er; [|apply lookup_ge_None in Er; lia].
  rewrite (lookup_col _ j h row); [|by rewrite lookup_repeat_interleave].
  f_equal. rewrite col_aln_spec by done.
  rewrite <- Hl, <- (length_col d h), dot_unit_vec by (rewrite length_col; lia).
  apply list_lookup_total_correct. by apply lookup_col.
Qed.

End AlignmentProperties.

(** ** Witnesses *)

Lemma aln_broadcast_column_one_hot_witness :
  col (aln_broadcast (K:=Z) [2; 0; 3; 1]) 3 = unit_vec 4 2 ∧ 2 < 4 ∧ 2 ≤ 3 < 5.
Proof.
  exact (aln_broadcast_column_one_hot (K:=Z) [2; 0; 3; 1] 3 ltac:(vm_compute; lia)).
Defined.

Lemma expand_repeat_interleave_witness :
  matmul (transpose 2 [[1; 2]; [3; 4]; [5; 6]; [7; 8]]%Z) (aln_broadcast [2; 0; 3; 1]) 6 =
  [[1; 1; 5; 5; 5; 7]; [2; 2; 6; 6; 6; 8]]%Z.
Proof.
  exact (expand_repeat_interleave 2 [[1; 2]; [3; 4]; [5; 6]; [7; 8]]%Z [2; 0; 3; 1]
           ltac:(split; [reflexivity | repeat constructor])).
Defined.

End Alignment.
