(* ===== verification/Stft.v ===== *)
(** * Stft: [torch.stft] and [torch.istft] on real signals

    The transforms [post_process] (src/export.py lines 104 and 111) calls
    with their defaults: [hop_length = n_fft // 4], [win_length = n_fft],
    [center=True], [pad_mode='reflect'], [onesided=True], no [length].
    Library code, modelled from its documented semantics:
    - [torch.stft]: reflect padding by [n_fft // 2] on both sides
      (RuntimeError when the signal is not longer than the padding), a
      check that the hop is positive, then [unfold]: a loop cutting frames
      of [n_fft] samples every [hop_length] while one fits, each frame
      multiplied by the window and transformed by the one-sided DFT; the
      result is indexed [bin][frame];
    - [torch.istft]: inverse DFT of every frame, multiplied by the window,
      overlap-added, trimmed by [n_fft // 2] on both sides and divided by
      the overlap-added squared window (the envelope); RuntimeError when
      the absolute envelope is below [1e-11] somewhere (the NOLA check).
    The DFT pair, the window and the complex type are Section variables;
    samples are exact rationals.  The window loop is defined with
    Equations by well-founded recursion on the samples left; [frames] is
    its closed form. *)

From Stdlib Require Import QArith Qabs Qfield.
From S2P Require Import Prelude.
From Equations Require Import Equations.

Module Stft.

(** The sum of a list of rationals. *)
Definition qsum (l : list Q) : Q := foldr Qplus 0%Q l.

(** [m.T] on a matrix of [nc] columns given by its rows. *)
Definition transpose_lists {A} (nc : nat) (m : list (list A)) : list (list A) :=
  map (λ j, omap (λ row, row !! j) m) (seq 0 nc).

(** The number of frames of a spectrogram indexed [bin][frame]. *)
Definition n_frames_of {A} (m : list (list A)) : nat :=
  match m with [] => 0 | row :: _ => length row end.

(** [torch.nn.functional.pad(x, (p, p), mode='reflect')] on one signal. *)
Definition reflect_pad (p : nat) (x : list Q) : result (list Q) :=
  if bool_decide (p < length x)
  then Ok (reverse (take p (drop 1 x)) ++ x ++ reverse (take p (drop (length x - 1 - p) x)))
  else Raise (RuntimeError "Padding size should be less than the corresponding input dimension").

(** [xs.unfold(0, size, step)]: the windows of [size] samples at the
    offsets [start], [start + step], ... while a window fits.  A zero
    step is refused by the caller, so the loop runs while [0 < step]. *)
Equations? unfold_windows {A} (size step : nat) (xs : list A) (start : nat) : list (list A)
  by wf (S (length xs) - start)%nat lt :=
  unfold_windows size step xs start with decide (0 < step ∧ start + size ≤ length xs)%nat := {
    | left H => take size (drop start xs) :: unfold_windows size step xs (start + step)%nat
    | right n => [] }.
Proof. lia. Defined.

(** The number of windows [unfold] yields from offset [start]. *)
Definition window_count (size step len start : nat) : nat :=
  if bool_decide (start + size ≤ len)%nat then (1 + (len - size - start) / step)%nat else 0%nat.

(** The smallest envelope value [torch.istft] accepts. *)
Definition nola_eps : Q := 1 # 100000000000.

(** The envelope value [torch.istft] rejects: [abs(e) < 1e-11]. *)
Definition nola_fails (e : Q) : bool := negb (Qle_bool nola_eps (Qabs e)).

Section Torch.

Context {C : Type}.
Variable n_fft : nat.
Variable window : list Q.
Variable rfft : list Q → list C.
Variable irfft : list C → list Q.

Definition hop_length : nat := n_fft / 4.
Definition n_bins : nat := n_fft / 2 + 1.

(** Number of frames of a padded signal of [len] samples. *)
Definition frame_count (len : nat) : nat := 1 + (len - n_fft) / hop_length.

(** The frames of a padded signal. *)
Definition frames (xp : list Q) : list (list Q) :=
  map (λ m, take n_fft (drop (m * hop_length) xp)) (seq 0 (frame_count (length xp))).

Definition windowed (v : list Q) : list Q := zip_with Qmult window v.

(** [torch.stft(x, n_fft, window=window, return_complex=True)]. *)
Definition torch_stft (x : list Q) : result (list (list C)) :=
  xp ← reflect_pad (n_fft / 2) x;
  if bool_decide (hop_length = 0) then Raise (RuntimeError "stft: expected hop_length > 0")
  else Ok (transpose_lists n_bins (map (λ fr, rfft (windowed fr)) (unfold_windows n_fft hop_length xp 0))).

(** Whether frame [t] covers sample [j] of the padded signal. *)
Definition covers (t j : nat) : bool :=
  bool_decide (t * hop_length ≤ j < t * hop_length + n_fft).

(** Sample [j] of the overlap-add of the frames [ys]. *)
Definition overlap_add (ys : list (list Q)) (j : nat) : Q :=
  qsum (map (λ t, if covers t j then default 0%Q (ys !! t ≫= λ y, y !! (j - t * hop_length))
                  else 0%Q) (seq 0 (length ys))).

(** Sample [j] of the overlap-added squared window over [nf] frames. *)
Definition envelope (nf j : nat) : Q :=
  qsum (map (λ t, if covers t j
                  then let w := default 0%Q (window !! (j - t * hop_length)) in Qmult w w
                  else 0%Q) (seq 0 nf)).

(** Length of the output of [torch.istft] on [nf] frames. *)
Definition istft_length (nf : nat) : nat :=
  n_fft + hop_length * (nf - 1) - 2 * (n_fft / 2).

(** [torch.istft(X, n_fft, window=window)]. *)
Definition torch_istft (X : list (list C)) : result (list Q) :=
  let nf := n_frames_of X in
  let ys := map (λ F, windowed (irfft F)) (transpose_lists nf X) in
  let js := seq (n_fft / 2) (istft_length nf) in
  let env := map (envelope nf) js in
  if existsb nola_fails env
  then Raise (RuntimeError "window overlap add min")
  else Ok (zip_with Qdiv (map (overlap_add ys) js) env).

End Torch.

(** ** Lemmas *)

Lemma reflect_pad_Ok p x xp :
  reflect_pad p x = Ok xp →
  p < length x ∧ length xp = length x + 2 * p ∧ ∀ i, i < length x → xp !! (p + i) = x !! i.
Proof.
  unfold reflect_pad. case_bool_decide as Hp; [|discriminate]. intros [= <-].
  split; [done|]. split.
  - rewrite !length_app, !length_reverse, !length_take, !length_drop. lia.
  - intros i Hi. rewrite lookup_app_r; rewrite length_reverse, length_take, length_drop; [|lia].
    replace (p + i - min p (length x - 1)) with i by lia. by rewrite lookup_app_l.
Qed.

Lemma reflect_pad_short p x :
  length x ≤ p →
  reflect_pad p x = Raise (RuntimeError "Padding size should be less than the corresponding input dimension").
Proof. intros Hx. unfold reflect_pad. by rewrite bool_decide_false by lia. Qed.

Lemma window_count_step size step len start :
  (0 < step)%nat → (start + size ≤ len)%nat →
  window_count size step len start = S (window_count size step len (start + step)).
Proof.
  intros Hs Hle. unfold window_count. rewrite bool_decide_true by lia.
  case_bool_decide.
  - replace (len - size - start)%nat with ((len - size - (start + step)) + 1 * step)%nat by lia.
    rewrite Nat.div_add by lia. lia.
  - rewrite Nat.div_small by lia. lia.
Qed.

(** The window loop yields the windows at [start + m * step] for
    [m < window_count]: it terminates after that many iterations. *)
Lemma unfold_windows_closed {A} size step (xs : list A) start :
  (0 < step)%nat →
  unfold_windows size step xs start =
  map (λ m, take size (drop (start + m * step) xs)) (seq 0 (window_count size step (length xs) start)).
Proof.
  intros Hs. funelim (unfold_windows size step xs start).
  - rewrite H0 by done. pose proof (proj2 H) as Hle.
    rewrite (window_count_step _ _ _ _ Hs Hle). simpl. rewrite Nat.add_0_r. f_equal.
    rewrite <- seq_shift, map_map. apply map_ext. intros m. f_equal. f_equal. lia.
  - unfold window_count. rewrite bool_decide_false; [done|]. intros Hle. apply n. split; lia.
Qed.

(** [omap] of a function defined on the whole list is a lookup. *)
Lemma lookup_omap_total {A B} (f : A → option B) (l : list A) i :
  Forall (λ x, is_Some (f x)) l → omap f l !! i = l !! i ≫= f.
Proof.
  intros Hl. revert i. induction Hl as [|x l [y Hy] Hl IH]; intros i; [done|].
  simpl. rewrite Hy. destruct i; simpl; [done|]. apply IH.
Qed.

Lemma length_omap_total {A B} (f : A → option B) (l : list A) :
  Forall (λ x, is_Some (f x)) l → length (omap f l) = length l.
Proof.
  induction 1 as [|x l [y Hy] Hl IH]; [done|].
  change (omap f (x :: l)) with (match f x with Some y => y :: omap f l | None => omap f l end).
  rewrite Hy. simpl. by f_equal.
Qed.

Lemma rows_have {A} nc (m : list (list A)) j :
  Forall (λ row, length row = nc) m → j < nc → Forall (λ row, is_Some (row !! j)) m.
Proof. intros Hm Hj. eapply Forall_impl; [exact Hm|]. intros row Hr. simpl in Hr. apply lookup_lt_is_Some. lia. Qed.

Lemma lookup_transpose_lists {A} nc (m : list (list A)) j :
  transpose_lists nc m !! j = if bool_decide (j < nc) then Some (omap (λ row, row !! j) m) else None.
Proof.
  unfold transpose_lists. rewrite list_lookup_fmap. case_bool_decide.
  - by rewrite lookup_seq_lt.
  - by rewrite lookup_seq_ge by lia.
Qed.

(** Transposing twice gives back a matrix whose rows have [nc] entries. *)
Lemma transpose_lists_involutive {A} nc (m : list (list A)) :
  Forall (λ row, length row = nc) m →
  transpose_lists (length m) (transpose_lists nc m) = m.
Proof.
  intros Hm. apply list_eq. intros i. rewrite lookup_transpose_lists.
  case_bool_decide as Hi.
  - destruct (lookup_lt_is_Some_2 m i Hi) as [row Hrow]. rewrite Hrow. f_equal.
    pose proof (proj1 (Forall_forall _ _) Hm row (list_elem_of_lookup_2 _ _ _ Hrow)) as Hlen.
    simpl in Hlen.
    apply list_eq. intros j. destruct (decide (j < nc)) as [Hj|Hj].
    + rewrite lookup_omap_total.
      * rewrite lookup_transpose_lists, bool_decide_true by done. simpl.
        rewrite lookup_omap_total by (by apply (rows_have nc)). by rewrite Hrow.
      * apply Forall_forall. intros col (j' & -> & Hj')%list_elem_of_fmap.
        apply elem_of_seq in Hj'. rewrite lookup_omap_total by (apply (rows_have nc); [done|lia]).
        rewrite Hrow. simpl. apply lookup_lt_is_Some. lia.
    + rewrite !lookup_ge_None_2; [done|lia|].
      rewrite length_omap_total; [unfold transpose_lists; rewrite length_map, length_seq; lia|].
      apply Forall_forall. intros col (j' & -> & Hj')%list_elem_of_fmap.
      apply elem_of_seq in Hj'. rewrite lookup_omap_total by (apply (rows_have nc); [done|lia]).
      rewrite Hrow. simpl. apply lookup_lt_is_Some. lia.
  - symmetry. apply lookup_ge_None_2. lia.
Qed.

Lemma n_frames_of_transpose_lists {A} nc (m : list (list A)) :
  0 < nc → Forall (λ row, length row = nc) m → n_frames_of (transpose_lists nc m) = length m.
Proof.
  intros Hnc Hm. unfold transpose_lists. destruct nc as [|nc]; [lia|]. simpl.
  apply length_omap_total, (rows_have (S nc)); [done|lia].
Qed.

Lemma qsum_map_Qeq {A} (f g : A → Q) (l : list A) :
  (∀ x, x ∈ l → f x == g x) → qsum (map f l) == qsum (map g l).
Proof.
  induction l as [|x l IH]; intros H; simpl; [reflexivity|].
  apply Qplus_comp; [apply H; constructor|]. apply IH. intros y Hy. apply H. by constructor.
Qed.

Lemma qsum_map_scale {A} (c : A → bool) (a : A → Q) (X : Q) (l : list A) :
  qsum (map (λ t, if c t then (a t * X)%Q else 0%Q) l) ==
  qsum (map (λ t, if c t then a t else 0%Q) l) * X.
Proof. induction l as [|t l IH]; simpl; [ring|]. rewrite IH. destruct (c t); ring. Qed.

(** An envelope value that passed the NOLA check is not zero. *)
Lemma nola_nonzero (env : list Q) e :
  existsb nola_fails env = false → e ∈ env → ¬ e == 0%Q.
Proof.
  intros Hex He Hz. assert (Hb : nola_fails e = true).
  { unfold nola_fails. destruct (Qle_bool nola_eps (Qabs e)) eqn:E; [|done].
    apply Qle_bool_iff in E. rewrite Hz in E. unfold nola_eps in E. simpl in E. by apply Qle_not_lt in E. }
  assert (existsb nola_fails env = true) as Ht; [|congruence].
  apply existsb_exists. exists e. split; [by apply list_elem_of_In|done].
Qed.

Section RoundTrip.

Context {C : Type}.
Variable n_fft : nat.
Variable window : list Q.
Variable rfft : list Q → list C.
Variable irfft : list C → list Q.

(** The frame length allows a hop, the window has [n_fft] samples, and
    the one-sided DFT pair has [n_fft // 2 + 1] bins and inverts. *)
Hypothesis Hn : 4 ≤ n_fft.
Hypothesis Hwin : length window = n_fft.
Hypothesis Hbins : ∀ v, length (rfft v) = n_bins n_fft.
Hypothesis Hinv : ∀ v, length v = n_fft → irfft (rfft v) = v.

Lemma hop_pos : 0 < hop_length n_fft.
Proof. unfold hop_length. apply Nat.div_str_pos. lia. Qed.

Lemma frame_inside (xp : list Q) t :
  n_fft ≤ length xp → t < frame_count n_fft (length xp) →
  t * hop_length n_fft + n_fft ≤ length xp.
Proof.
  intros Hl Ht. unfold frame_count in Ht. pose proof hop_pos as Hh.
  assert (t ≤ (length xp - n_fft) / hop_length n_fft) by lia.
  pose proof (Nat.Div0.mul_div_le (length xp - n_fft) (hop_length n_fft)). nia.
Qed.

Lemma unfold_windows_frames (xp : list Q) :
  n_fft ≤ length xp → unfold_windows n_fft (hop_length n_fft) xp 0 = frames n_fft xp.
Proof.
  intros Hl. pose proof hop_pos. rewrite unfold_windows_closed by done.
  unfold frames, window_count, frame_count. rewrite bool_decide_true by lia.
  by rewrite Nat.sub_0_r.
Qed.

Lemma length_frames (xp : list Q) : length (frames n_fft xp) = frame_count n_fft (length xp).
Proof. unfold frames. by rewrite length_map, length_seq. Qed.

Lemma lookup_frames (xp : list Q) t :
  t < frame_count n_fft (length xp) →
  frames n_fft xp !! t = Some (take n_fft (drop (t * hop_length n_fft) xp)).
Proof. intros Ht. unfold frames. by rewrite list_lookup_fmap, lookup_seq_lt. Qed.

Lemma frames_full (xp : list Q) :
  n_fft ≤ length xp → Forall (λ fr, length fr = n_fft) (frames n_fft xp).
Proof.
  intros Hl. apply Forall_forall. intros fr (t & -> & Ht)%list_elem_of_fmap.
  apply elem_of_seq in Ht. pose proof (frame_inside xp t Hl ltac:(lia)).
  rewrite length_take, length_drop. lia.
Qed.

Lemma stft_rows (xp : list Q) :
  Forall (λ row, length row = n_bins n_fft) (map (λ fr, rfft (windowed window fr)) (frames n_fft xp)).
Proof. apply Forall_forall. intros row (fr & -> & _)%list_elem_of_fmap. apply Hbins. Qed.

(** [torch.stft] yields one column per frame. *)
Lemma n_frames_of_stft (xp : list Q) :
  n_frames_of (transpose_lists (n_bins n_fft) (map (λ fr, rfft (windowed window fr)) (frames n_fft xp))) =
  frame_count n_fft (length xp).
Proof.
  rewrite n_frames_of_transpose_lists; [by rewrite length_map, length_frames|unfold n_bins; lia|].
  apply stft_rows.
Qed.

(** The frames [torch.istft] overlap-adds are those of [torch.stft],
    multiplied twice by the window. *)
Lemma istft_frames (xp : list Q) :
  n_fft ≤ length xp →
  map (λ F, windowed window (irfft F))
    (transpose_lists (frame_count n_fft (length xp))
       (transpose_lists (n_bins n_fft) (map (λ fr, rfft (windowed window fr)) (frames n_fft xp)))) =
  map (λ fr, windowed window (windowed window fr)) (frames n_fft xp).
Proof.
  intros Hl. rewrite <- (length_frames xp), <- (length_map (λ fr, rfft (windowed window fr))).
  rewrite transpose_lists_involutive by apply stft_rows.
  rewrite map_map. apply map_ext_in. intros fr Hfr%list_elem_of_In.
  rewrite Hinv; [done|]. unfold windowed. rewrite length_zip_with, Hwin.
  pose proof (proj1 (Forall_forall _ _) (frames_full xp Hl) fr Hfr). simpl in *. lia.
Qed.

(** Overlap-adding the twice-windowed frames gives each sample times
    the envelope. *)
Lemma overlap_add_frames (xp : list Q) j v :
  n_fft ≤ length xp → xp !! j = Some v →
  overlap_add n_fft (map (λ fr, windowed window (windowed window fr)) (frames n_fft xp)) j ==
  (envelope n_fft window (frame_count n_fft (length xp)) j * v)%Q.
Proof.
  intros Hl Hj. unfold overlap_add, envelope. rewrite length_map, length_frames.
  etransitivity; [|apply qsum_map_scale]. apply qsum_map_Qeq.
  intros t Ht%elem_of_seq. destruct (covers n_fft t j) eqn:Hc; [|reflexivity].
  unfold covers in Hc. apply bool_decide_eq_true in Hc.
  pose proof (frame_inside xp t Hl ltac:(lia)).
  rewrite list_lookup_fmap, lookup_frames by lia. simpl.
  unfold windowed. rewrite !lookup_zip_with, lookup_take_lt, lookup_drop by lia.
  replace (t * hop_length n_fft + (j - t * hop_length n_fft)) with j by lia. rewrite Hj.
  destruct (lookup_lt_is_Some_2 window (j - t * hop_length n_fft)) as [w Hw]; [lia|].
  rewrite Hw. simpl. ring.
Qed.

(** [torch.istft] inverts [torch.stft] on the samples it returns:
    unless the window fails the NOLA check, the reconstruction of a
    signal that [torch.stft] accepts is its first [istft_length] samples,
    exactly (up to equality of rationals), and that length never exceeds
    the signal's. *)
Lemma istft_stft_inverse (x : list Q) X :
  torch_stft n_fft window rfft x = Ok X →
  torch_istft n_fft window irfft X = Raise (RuntimeError "window overlap add min") ∨
  ∃ y, torch_istft n_fft window irfft X = Ok y ∧
       Forall2 Qeq y (take (istft_length n_fft (frame_count n_fft (length x + 2 * (n_fft / 2)))) x) ∧
       istft_length n_fft (frame_count n_fft (length x + 2 * (n_fft / 2))) ≤ length x.
Proof.
  unfold torch_stft. intros (xp & Hp & HX)%bind_Ok.
  destruct (reflect_pad_Ok _ _ _ Hp) as (Hpx & Hlxp & Hxp). rewrite <- Hlxp.
  assert (Hnl : n_fft ≤ length xp).
  { pose proof (Nat.div_mod_eq n_fft 2). pose proof (Nat.mod_upper_bound n_fft 2). lia. }
  rewrite bool_decide_false in HX by (pose proof hop_pos; lia).
  rewrite unfold_windows_frames in HX by done.
  assert (X = transpose_lists (n_bins n_fft) (map (λ fr, rfft (windowed window fr)) (frames n_fft xp)))
    as -> by (by inversion HX).
  assert (HL : istft_length n_fft (frame_count n_fft (length xp)) ≤ length x).
  { unfold istft_length, frame_count. pose proof hop_pos.
    pose proof (Nat.Div0.mul_div_le (length xp - n_fft) (hop_length n_fft)). nia. }
  unfold torch_istft. cbv zeta. rewrite n_frames_of_stft, istft_frames by done.
  destruct (existsb _ _) eqn:E; [by left|right].
  eexists. split; [reflexivity|]. split; [|done].
  apply Forall2_lookup. intros i. rewrite lookup_zip_with, !list_lookup_fmap.
  destruct (decide (i < istft_length n_fft (frame_count n_fft (length xp)))) as [Hi|Hi].
  - rewrite lookup_seq_lt by done. cbn [mbind option_bind]. rewrite lookup_take_lt by done.
    rewrite <- Hxp by lia.
    destruct (lookup_lt_is_Some_2 xp (n_fft / 2 + i)) as [v Hv]; [lia|]. rewrite Hv.
    constructor. rewrite overlap_add_frames by done. field.
    eapply nola_nonzero; [exact E|]. apply list_elem_of_fmap. exists (n_fft / 2 + i).
    split; [done|]. apply elem_of_seq. lia.
  - rewrite lookup_seq_ge by lia. cbn [mbind option_bind]. rewrite lookup_take_ge by lia.
    constructor.
Qed.

End RoundTrip.

End Stft.
