(* ===== verification/PostProcess.v ===== *)
(** * PostProcess: the STFT low-pass step

    Models [post_process] of src/export.py (lines 100-112):
<<
    n_fft = 100
    window = hann(n_fft)
    forward_transform = torch.stft(audio, n_fft, window=window, return_complex=True)
    magnitude = torch.abs(forward_transform)
    phase = torch.angle(forward_transform)
    magnitude *= 3
    magnitude[:, 18:, :] = 0.0
    inverse_transform = torch.istft(magnitude * torch.exp(phase * 1j), n_fft, window=window)
>>
    The complex type, [torch.abs], [torch.angle] and
    [magnitude * exp(i phase)] are Section variables, and so are the
    one-signal transforms, which may raise; [Stft] models them as
    [torch.stft] and [torch.istft] with a window and a DFT pair, and the
    properties at the end of this file use that model.  What the code
    decides is modelled exactly: the gain, the mask of the frequency bins
    from 18 on (indices [batch][bin][frame]) and [n_fft = 100]. *)

From Stdlib Require Import QArith.
From S2P Require Import Prelude Stft.

Module PostProcess.

Definition n_fft : nat := 100.

(** [t[b, i, f]] of a 3-axis tensor, as an option. *)
Definition entry3 {A} (t : list (list (list A))) (b i f : nat) : option A :=
  t !! b ≫= λ bins, bins !! i ≫= λ row, row !! f.

(** [magnitude *= 3]. *)
Definition gain (g : Q) (mag : list (list (list Q))) : list (list (list Q)) :=
  map (map (map (Qmult g))) mag.

(** [magnitude[:, k:, :] = 0.0]. *)
Definition mask_from (k : nat) (mag : list (list (list Q))) : list (list (list Q)) :=
  map (λ bins, imap (λ i row, if bool_decide (k ≤ i) then map (λ _, 0%Q) row else row) bins) mag.

(** Lines 108-109: gain, then the low-pass mask. *)
Definition post_mag (mag : list (list (list Q))) : list (list (list Q)) :=
  mask_from 18 (gain 3 mag).

Section Transform.

Context {A C : Type}.
Variable cabs : C → Q.
Variable cangle : C → Q.
Variable polar : Q → Q → C.
Variable stft : list A → result (list (list C)).
Variable istft : list (list C) → result (list A).

(** Lines 105-111: the spectrum passed to [torch.istft], from the
    spectra [X] of the batch. *)
Definition post_spectrum (X : list (list (list C))) : list (list (list C)) :=
  let magnitude := post_mag (map (map (map cabs)) X) in
  let phase := map (map (map cangle)) X in
  zip_with (zip_with (zip_with polar)) magnitude phase.

(** [post_process(audio)] on a batch of signals. *)
Definition post_process (audio : list (list A)) : result (list (list A)) :=
  X ← mapM stft audio;
  mapM istft (post_spectrum X).

End Transform.


(** A transform that keeps a whole frame in its first bin, with its
    inverse: a pair with the laws of a one-sided DFT pair for
    [n_fft = 100], for the examples. *)
Definition rfft_example (v : list Q) : list (list Q) := v :: replicate 50 [].
Definition irfft_example (X : list (list Q)) : list Q := default [] (head X).
Definition signal_example : list Q := map (λ n, inject_Z (Z.of_nat n)) (seq 0 60).

(** ** Lemmas *)

Lemma lookup_map_opt3 {A B} (f : A → B) (l : list A) i : map f l !! i = f <$> l !! i.
Proof. revert i. induction l; intros [|i]; simpl; auto. Qed.

Lemma entry3_map3 {A B} (f : A → B) (t : list (list (list A))) b i k :
  entry3 (map (map (map f)) t) b i k = f <$> entry3 t b i k.
Proof.
  unfold entry3. rewrite lookup_map_opt3.
  destruct (t !! b) as [bins|]; simpl; [|done].
  rewrite lookup_map_opt3. destruct (bins !! i) as [row|]; simpl; [|done].
  by rewrite lookup_map_opt3.
Qed.

Lemma entry3_mask_from k t b i f :
  entry3 (mask_from k t) b i f =
  (λ x, if bool_decide (k ≤ i) then 0%Q else x) <$> entry3 t b i f.
Proof.
  unfold entry3, mask_from. rewrite lookup_map_opt3.
  destruct (t !! b) as [bins|]; simpl; [|done].
  rewrite list_lookup_imap. destruct (bins !! i) as [row|]; simpl; [|done].
  case_bool_decide as Hk.
  - rewrite lookup_map_opt3. by destruct (row !! f).
  - by destruct (row !! f).
Qed.

(** The framing arithmetic of [torch.stft]/[torch.istft] at [n_fft = 100]. *)
Lemma istft_length_n_fft t :
  Stft.istft_length n_fft (Stft.frame_count n_fft (t + 2 * (n_fft / 2))) = 25 * (t / 25).
Proof.
  unfold Stft.istft_length, Stft.frame_count, Stft.hop_length, n_fft.
  change (100 / 4) with 25. change (100 / 2) with 50.
  replace (t + 2 * 50 - 100) with t by lia. lia.
Qed.

Lemma entry3_zip3 {A B C} (g : A → B → C) (t : list (list (list A)))
    (u : list (list (list B))) b i f x y :
  entry3 t b i f = Some x → entry3 u b i f = Some y →
  entry3 (zip_with (zip_with (zip_with g)) t u) b i f = Some (g x y).
Proof.
  unfold entry3. intros Ht Hu.
  destruct (t !! b) as [tb|] eqn:Etb; [|discriminate].
  destruct (u !! b) as [ub|] eqn:Eub; [|discriminate]. simpl in *.
  rewrite lookup_zip_with, Etb, Eub. simpl.
  destruct (tb !! i) as [tr|] eqn:Eti; [|discriminate].
  destruct (ub !! i) as [ur|] eqn:Eui; [|discriminate]. simpl in *.
  rewrite lookup_zip_with, Eti, Eui. simpl.
  by rewrite lookup_zip_with, Ht, Hu.
Qed.

(** After the post-processing of the magnitudes, bin [i] of every
    frame holds three times the original magnitude when [i < 18] and
    zero otherwise (bin 18 included: the slice is [18:]). *)
Lemma post_mag_entry mag b i f x :
  entry3 mag b i f = Some x →
  entry3 (post_mag mag) b i f = Some (if bool_decide (i < 18) then (3 * x)%Q else 0%Q).
Proof.
  intros Hx. unfold post_mag, gain.
  rewrite entry3_mask_from, entry3_map3, Hx. simpl.
  by repeat case_bool_decide; try lia.
Qed.

(** ** Properties *)

(** C25: the spectrum handed to [torch.istft] keeps the phase of every
    bin and frame, with magnitude [3 |X|] below bin 18 and 0 from bin 18
    on. *)
Theorem post_spectrum_entry {C} cabs cangle (polar : Q → Q → C) (X : list (list (list C))) b i f z :
  entry3 X b i f = Some z →
  entry3 (post_spectrum cabs cangle polar X) b i f =
  Some (polar (if bool_decide (i < 18) then (3 * cabs z)%Q else 0%Q) (cangle z)).
Proof.
  intros Hz. unfold post_spectrum. apply entry3_zip3.
  - apply post_mag_entry. by rewrite entry3_map3, Hz.
  - by rewrite entry3_map3, Hz.
Qed.

(** C12: the window loop of [torch.stft] in [post_process] terminates on
    every padded signal: with [n_fft = 100] and the hop of 25 it stops
    after exactly [1 + (len - 100) / 25] windows, the samples
    [25 m .. 25 m + 100), when [len >= 100], and yields none otherwise. *)
Theorem stft_window_loop (xp : list Q) :
  Stft.unfold_windows n_fft (Stft.hop_length n_fft) xp 0 =
  map (λ m, take 100 (drop (25 * m) xp))
      (seq 0 (if bool_decide (100 ≤ length xp) then 1 + (length xp - 100) / 25 else 0)).
Proof.
  rewrite Stft.unfold_windows_closed by (unfold Stft.hop_length, n_fft; simpl; lia).
  unfold Stft.window_count, Stft.hop_length, n_fft. change (100 / 4) with 25.
  rewrite Nat.add_0_l, Nat.sub_0_r.
  rewrite (map_ext _ (λ m, take 100 (drop (25 * m) xp))) by (intros m; do 3 f_equal; lia).
  done.
Qed.

(** C11: the transforms [post_process] calls invert each other on what
    they return: with [n_fft = 100], a window of 100 samples and a DFT
    pair that inverts, [torch.istft(torch.stft(x))] either fails the NOLA
    check or returns exactly the first [25 * (len(x) / 25)] samples of
    [x] (equal as rationals). *)
Theorem stft_istft_roundtrip {C} window (rfft : list Q → list C) irfft x X :
  length window = n_fft → (∀ v, length (rfft v) = Stft.n_bins n_fft) →
  (∀ v, length v = n_fft → irfft (rfft v) = v) →
  Stft.torch_stft n_fft window rfft x = Ok X →
  Stft.torch_istft n_fft window irfft X = Raise (RuntimeError "window overlap add min") ∨
  ∃ y, Stft.torch_istft n_fft window irfft X = Ok y ∧ Forall2 Qeq y (take (25 * (length x / 25)) x).
Proof.
  intros Hw Hb Hi HX.
  destruct (Stft.istft_stft_inverse n_fft window rfft irfft ltac:(unfold n_fft; lia) Hw Hb Hi x X HX)
    as [?|(y & Hy & Heq & _)]; [by left|right].
  rewrite istft_length_n_fft in Heq. eauto.
Qed.

(** C26: a batch of signals of at most [n_fft // 2 = 50] samples cannot
    be reflect padded: [post_process] raises in [torch.stft], whatever the
    window and transform. *)
Theorem post_process_short {C} cabs cangle (polar : Q → Q → C) window rfft irfft
    (audio : list (list Q)) :
  audio ≠ [] → Forall (λ a, length a ≤ n_fft / 2) audio →
  post_process cabs cangle polar (Stft.torch_stft n_fft window rfft)
    (Stft.torch_istft n_fft window irfft) audio =
  Raise (RuntimeError "Padding size should be less than the corresponding input dimension").
Proof.
  destruct audio as [|a rest]; [done|]. intros _ Hs. apply Forall_cons in Hs as [Ha _].
  unfold post_process. simpl. unfold Stft.torch_stft. by rewrite Stft.reflect_pad_short.
Qed.

(** ** Witnesses *)

Lemma post_spectrum_entry_witness :
  entry3 (post_spectrum fst snd pair [[[(5%Q, 0%Q)]]]) 0 0 0 = Some ((3 * 5)%Q, 0%Q).
Proof. exact (post_spectrum_entry fst snd pair [[[(5%Q, 0%Q)]]] 0 0 0 (5%Q, 0%Q) eq_refl). Defined.

Lemma stft_istft_roundtrip_witness :
  ∃ X, Stft.torch_stft n_fft (replicate 100 1%Q) rfft_example (signal_example) = Ok X ∧
  (Stft.torch_istft n_fft (replicate 100 1%Q) irfft_example X =
     Raise (RuntimeError "window overlap add min") ∨
   ∃ y, Stft.torch_istft n_fft (replicate 100 1%Q) irfft_example X = Ok y ∧
        Forall2 Qeq y (take (25 * (length (signal_example) / 25)) (signal_example))).
Proof.
  eexists. split; [reflexivity|].
  apply (stft_istft_roundtrip (replicate 100 1%Q) rfft_example irfft_example signal_example);
    [reflexivity|reflexivity| |reflexivity].
  intros v _. reflexivity.
Defined.

Lemma post_process_short_witness :
  post_process fst snd pair (Stft.torch_stft n_fft (replicate 100 1%Q) (λ _, []))
    (Stft.torch_istft n_fft (replicate 100 1%Q) (λ _ : list (Q * Q), [])) [[1%Q; 2%Q; 3%Q]] =
  Raise (RuntimeError "Padding size should be less than the corresponding input dimension").
Proof.
  apply post_process_short; [discriminate|]. apply Forall_singleton. simpl. lia.
Defined.

End PostProcess.
