(* ===== verification/Window.v ===== *)
(** * Window: the Hann window of [post_process] and its envelope

    Models line 102 of src/export.py,
    [window = torch.from_numpy(get_window('hann', n_fft, fftbins=True))],
    over the real numbers: scipy's periodic Hann window of [N] points is
    [w[n] = 1/2 - 1/2 cos(2 pi n / N)] for [n = 0 .. N-1] (library code,
    modelled from its documented formula; the cast to float32 is not
    modelled).  [envelope_R] is the envelope [torch.istft] divides by,
    the envelope of [Stft] over these real window values: the sum over
    the frames covering a sample of the squared window value there.
    [Stft] and [PostProcess] work over rationals and take the window as
    a parameter, since the Hann values are irrational; this file shows
    what that parameter is for the window [post_process] builds: its
    squared values overlap-add to the constant 3/2 wherever four frames
    cover a sample, and the envelope never falls to [torch.istft]'s NOLA
    threshold on the samples it keeps. *)

From Stdlib Require Import Reals Lra.
From S2P Require Import Prelude Stft PostProcess.

Module Window.

Local Open Scope R_scope.

(** The sum of a list of reals. *)
Definition rsum (l : list R) : R := foldr Rplus 0 l.

(** Point [n] of [get_window('hann', N, fftbins=True)]. *)
Definition hann (N n : nat) : R := / 2 - / 2 * cos (2 * PI * INR n / INR N).

(** [get_window('hann', N, fftbins=True)]. *)
Definition get_window_hann (N : nat) : list R := map (hann N) (seq 0 N).

(** The [window] of [post_process]. *)
Definition post_window : list R := get_window_hann PostProcess.n_fft.

(** Sample [j] of the overlap-added squared window over [nf] frames, as
    [torch.istft] computes it with the hop of [Stft]. *)
Definition envelope_R (w : list R) (n_fft nf j : nat) : R :=
  rsum (map (λ t, if bool_decide (t * Stft.hop_length n_fft ≤ j < t * Stft.hop_length n_fft + n_fft)%nat
                  then (nth (j - t * Stft.hop_length n_fft) w 0) ^ 2 else 0) (seq 0 nf)).

(** The NOLA threshold of [torch.istft], [1e-11]. *)
Definition nola_eps_R : R := / 100000000000.

(** ** Lemmas *)

Lemma rsum_app l1 l2 : rsum (l1 ++ l2) = rsum l1 + rsum l2.
Proof. induction l1 as [|x l IH]; simpl; [lra|]. rewrite IH. lra. Qed.

Lemma rsum_nonneg l : Forall (λ x, 0 <= x) l → 0 <= rsum l.
Proof. induction 1; simpl; lra. Qed.

Lemma rsum_zero l : Forall (λ x, x = 0) l → rsum l = 0.
Proof. induction 1; simpl; lra. Qed.

(** The angle of point [o + 25 k] of the 100-point window is that of
    point [o] turned by [k] quarter turns. *)
Lemma hann_angle o k :
  2 * PI * INR (o + 25 * k) / INR 100 = 2 * PI * INR o / INR 100 + INR k * (PI / 2).
Proof.
  rewrite plus_INR, mult_INR. replace (INR 100) with 100 by (simpl; lra).
  replace (INR 25) with 25 by (simpl; lra). field.
Qed.

Lemma hann_quarter o :
  hann 100 (o + 25 * 1) = / 2 + / 2 * sin (2 * PI * INR o / INR 100).
Proof.
  unfold hann. rewrite hann_angle. replace (INR 1) with 1 by reflexivity.
  rewrite Rmult_1_l, cos_plus, cos_PI2, sin_PI2. lra.
Qed.

Lemma hann_half o :
  hann 100 (o + 25 * 2) = / 2 + / 2 * cos (2 * PI * INR o / INR 100).
Proof.
  unfold hann. rewrite hann_angle. replace (INR 2 * (PI / 2)) with PI by (simpl; lra).
  rewrite neg_cos. lra.
Qed.

Lemma hann_three_quarters o :
  hann 100 (o + 25 * 3) = / 2 - / 2 * sin (2 * PI * INR o / INR 100).
Proof.
  unfold hann. rewrite hann_angle.
  replace (INR 3 * (PI / 2)) with (PI / 2 + PI) by (simpl; lra).
  rewrite <- Rplus_assoc, neg_cos, cos_plus, cos_PI2, sin_PI2. lra.
Qed.

Lemma hop_post : Stft.hop_length PostProcess.n_fft = 25%nat.
Proof. reflexivity. Qed.

Lemma nth_post_window n : (n < 100)%nat → nth n post_window 0 = hann 100 n.
Proof.
  intros Hn. unfold post_window, get_window_hann, PostProcess.n_fft.
  rewrite (nth_indep _ _ (hann 100 0)) by (rewrite length_map, length_seq; lia).
  by rewrite map_nth, seq_nth by lia.
Qed.

(** The frames [0 .. nf) split around the frames [a .. a + m). *)
Lemma rsum_seq_split (f : nat → R) nf a m :
  (a + m ≤ nf)%nat →
  rsum (map f (seq 0 nf)) =
  rsum (map f (seq 0 a)) + rsum (map f (seq a m)) + rsum (map f (seq (a + m) (nf - a - m))).
Proof.
  intros Hle. replace nf with (a + (m + (nf - a - m)))%nat at 1 by lia.
  rewrite !seq_app, !map_app, !rsum_app. simpl. lra.
Qed.

(** The terms of the envelope of [post_window] at sample [j]. *)
Definition env_term (j t : nat) : R :=
  if bool_decide (t * 25 ≤ j < t * 25 + 100)%nat then (nth (j - t * 25) post_window 0) ^ 2 else 0.

Lemma envelope_post nf j :
  envelope_R post_window PostProcess.n_fft nf j = rsum (map (env_term j) (seq 0 nf)).
Proof. unfold envelope_R. by rewrite hop_post. Qed.

Lemma env_term_nonneg j t : 0 <= env_term j t.
Proof. unfold env_term. case_bool_decide; [apply pow2_ge_0|lra]. Qed.

Lemma env_term_cover j t :
  (t * 25 ≤ j < t * 25 + 100)%nat → env_term j t = hann 100 (j - t * 25) ^ 2.
Proof. intros Hc. unfold env_term. rewrite bool_decide_true by done. by rewrite nth_post_window by lia. Qed.

Lemma env_term_outside j t : ¬ (t * 25 ≤ j < t * 25 + 100)%nat → env_term j t = 0.
Proof. intros Hc. unfold env_term. by rewrite bool_decide_false. Qed.

(** Sample [25 q + r] is covered by the frames [q - 3 .. q] only. *)
Lemma env_term_far q r t :
  (r < 25)%nat → (t + 3 < q ∨ q < t)%nat → env_term (25 * q + r) t = 0.
Proof. intros Hr Ht. apply env_term_outside. lia. Qed.

Lemma rsum_nonneg_env j l : 0 <= rsum (map (env_term j) l).
Proof. apply rsum_nonneg, Forall_map, Forall_forall. intros t _. apply env_term_nonneg. Qed.

Lemma rsum_zero_env q r a m :
  (r < 25)%nat → (∀ t, a ≤ t < a + m → t + 3 < q ∨ q < t)%nat →
  rsum (map (env_term (25 * q + r)) (seq a m)) = 0.
Proof.
  intros Hr Ht. apply rsum_zero, Forall_map, Forall_seq. intros t Hin.
  apply env_term_far; [done|]. apply Ht. lia.
Qed.

(** A sample in quotient-remainder form, with the point of the window
    the last covering frame sees. *)
Lemma sample_split j : ∃ q r, j = (25 * q + r)%nat ∧ (r < 25)%nat.
Proof. exists (j / 25)%nat, (j mod 25)%nat. split; [apply Nat.div_mod_eq|apply Nat.mod_upper_bound; lia]. Qed.

(** ** Properties *)

(** C14: constant overlap-add: wherever four frames of [post_process]'s
    STFT cover a sample (from sample 75 of the padded signal to the last
    frame's start), the squared Hann window values of the frames sum to
    exactly 3/2, whatever the sample. *)
Theorem hann_envelope_cola nf j :
  (75 ≤ j)%nat → (j < 25 * nf)%nat →
  envelope_R post_window PostProcess.n_fft nf j = 3 / 2.
Proof.
  intros Hlo Hhi. rewrite envelope_post.
  destruct (sample_split j) as (q & r & -> & Hr).
  rewrite (rsum_seq_split _ nf (q - 3) 4) by lia.
  rewrite (rsum_zero_env q r 0 (q - 3)), (rsum_zero_env q r (q - 3 + 4)) by (done || lia).
  cbn [seq map rsum foldr]. rewrite !env_term_cover by lia.
  replace (25 * q + r - (q - 3) * 25)%nat with (r + 25 * 3)%nat by lia.
  replace (25 * q + r - S (q - 3) * 25)%nat with (r + 25 * 2)%nat by lia.
  replace (25 * q + r - S (S (q - 3)) * 25)%nat with (r + 25 * 1)%nat by lia.
  replace (25 * q + r - S (S (S (q - 3))) * 25)%nat with r by lia.
  rewrite hann_three_quarters, hann_half, hann_quarter. unfold hann.
  pose proof (sin2_cos2 (2 * PI * INR r / INR 100)) as H1. unfold Rsqr in H1. nra.
Qed.

(** C13: the NOLA check of [torch.istft] never fails for [post_process]'s
    window: on every sample [torch.istft] keeps ([n_fft / 2] onwards,
    [istft_length] of them), the envelope is above [1e-11], since two
    frames a quarter turn apart always cover it. *)
Theorem hann_envelope_nola nf j :
  j ∈ seq (PostProcess.n_fft / 2) (Stft.istft_length PostProcess.n_fft nf) →
  nola_eps_R < envelope_R post_window PostProcess.n_fft nf j.
Proof.
  rewrite elem_of_seq. unfold Stft.istft_length. rewrite hop_post.
  unfold PostProcess.n_fft. simpl Nat.div. intros Hj. rewrite envelope_post.
  destruct (sample_split j) as (q & r & -> & Hr).
  rewrite (rsum_seq_split _ nf (q - 2) 2) by lia.
  pose proof (rsum_nonneg_env (25 * q + r) (seq 0 (q - 2))).
  pose proof (rsum_nonneg_env (25 * q + r) (seq (q - 2 + 2) (nf - (q - 2) - 2))).
  cbn [seq map rsum foldr]. rewrite !env_term_cover by lia.
  replace (25 * q + r - (q - 2) * 25)%nat with (r + 25 * 2)%nat by lia.
  replace (25 * q + r - S (q - 2) * 25)%nat with (r + 25 * 1)%nat by lia.
  rewrite hann_half, hann_quarter. unfold nola_eps_R.
  set (c := cos (2 * PI * INR r / INR 100)). set (s := sin (2 * PI * INR r / INR 100)).
  pose proof (sin2_cos2 (2 * PI * INR r / INR 100)) as H1. fold c s in H1. unfold Rsqr in H1.
  assert (Hd : 0 <= (c - s) * (c - s)) by apply Rle_0_sqr.
  assert (Hcs : (c + s) * (c + s) <= 2) by nra.
  assert (-142 / 100 < c + s).
  { destruct (Rlt_or_le (-142 / 100) (c + s)) as [|Hle]; [done|].
    assert (142 / 100 * (142 / 100) <= (c + s) * (c + s)) by nra. lra. }
  nra.
Qed.

(** ** Witnesses *)

Lemma hann_envelope_cola_witness : envelope_R post_window PostProcess.n_fft 5 100 = 3 / 2.
Proof. apply hann_envelope_cola; lia. Defined.

Lemma hann_envelope_nola_witness :
  50%nat ∈ seq (PostProcess.n_fft / 2) (Stft.istft_length PostProcess.n_fft 3) ∧
  nola_eps_R < envelope_R post_window PostProcess.n_fft 3 50.
Proof.
  assert (H : 50%nat ∈ seq (PostProcess.n_fft / 2) (Stft.istft_length PostProcess.n_fft 3))
    by (apply elem_of_seq; vm_compute; lia).
  split; [exact H|]. exact (hann_envelope_nola 3 50 H).
Defined.

End Window.
