(* ===== verification/Pipeline.v ===== *)
(** * Pipeline: KModel.forward and KModel.inference

    Models the two forward passes of src/kokoro/model.py:
    [KModel.forward] (lines 75-108), the original path, and
    [KModel.inference] (lines 110-141), the path traced into the ONNX
    graph.  The neural modules (CustomAlbert [bert], the [bert_encoder]
    Linear, the ProsodyPredictor's [text_encoder], [lstm],
    [duration_proj] and [F0Ntrain], the [TextEncoder] and the iSTFTNet
    [Decoder]) are library code outside src/: they are the operations of
    the type class [Backend], whose laws are their shape contracts and the
    agreement of the [.inference] variants used by [KModel.inference] with
    the variants used by [KModel.forward].  Tensors are matrices of
    [TensorElt] elements with the batch axis of size one dropped, except
    where the code keeps it ([ref_s], the returned audio); duration logits
    are rationals, as in [Duration]. *)

From Stdlib Require Import QArith.
From S2P Require Import Prelude Tokens Duration Alignment.

Module Pipeline.

Import Alignment.

(** The number of columns of a matrix given by its rows. *)
Definition width {K} (m : mat K) : nat :=
  match m with [] => 0 | row :: _ => length row end.

(** [m.transpose(-1, -2)]. *)
Definition tr {K} `{!TensorElt K} (m : mat K) : mat K := transpose (width m) m.

(** Lines 86-88: [text_mask = torch.gt(arange(L) + 1, input_lengths)]:
    true on padding positions. *)
Definition text_mask (L : nat) : list bool := map (λ i, bool_decide (L < i + 1)) (arange L).

(** [(~text_mask).int()]: the attention mask given to [bert]. *)
Definition attention_mask (m : list bool) : list Z := map (λ b : bool, if b then 0%Z else 1%Z) m.

(** [ref_s[:, 128:]] (prosody half) and [ref_s[:, :128]] (timbre half). *)
Definition prosody_half {K} (ref_s : mat K) : mat K := map (drop 128) ref_s.
Definition timbre_half {K} (ref_s : mat K) : mat K := map (take 128) ref_s.

(** The modules [KModel] calls, with their contracts. *)
Class Backend (K : Type) `{!TensorElt K} := {
  bert : list Z → list Z → mat K;
  bert_encoder : mat K → mat K;
  pte_forward : mat K → mat K → nat → list bool → mat K;
  pte_inference : mat K → mat K → nat → list bool → mat K;
  lstm : mat K → mat K;
  duration_proj : mat K → list (list Q);
  sigmoid : Q → Q;
  f0n : mat K → mat K → mat K * mat K;
  te_forward : list Z → nat → list bool → mat K;
  te_inference : list Z → nat → list bool → mat K;
  decoder : mat K → mat K → mat K → mat K → list K;
  (** one row of [d] per token, one row of [x] per row of [d], one row
      of duration logits per row of [x] *)
  pte_forward_rows x s n m : length (pte_forward x s n m) = n;
  lstm_rows x : length (lstm x) = length x;
  duration_proj_rows x : length (duration_proj x) = length x;
  (** the [.inference] variants take [d_en] untransposed *)
  pte_inference_agrees x s n m : pte_inference x s n m = pte_forward (tr x) s n m;
  te_inference_agrees ids n m : te_inference ids n m = te_forward ids n m
}.

(** [KModel.Output(audio, pred_dur)] or the bare audio. *)
Inductive fwd_out (K : Type) : Type :=
| AudioOnly (audio : list K)
| WithDur (audio : list K) (pred_dur : list Z).
Arguments AudioOnly {K} audio.
Arguments WithDur {K} audio pred_dur.

Definition out_audio {K} (o : fwd_out K) : list K :=
  match o with AudioOnly a => a | WithDur a _ => a end.

Section Passes.

Context {K : Type} `{!TensorElt K} `{!Backend K}.

(** [KModel.forward(phonemes, ref_s, speed, return_output)]. *)
Definition kmodel_forward (vocab : gmap string Z) (context_length : nat)
    (phonemes : list string) (ref_s : mat K) (speed : Q) (return_output : bool)
    : result (fwd_out K) :=
  input_ids ← Tokens.forward_input_ids vocab context_length phonemes;
  let L := length input_ids in
  let mask := text_mask L in
  let bert_dur := bert input_ids (attention_mask mask) in
  let d_en := tr (bert_encoder bert_dur) in
  let s := prosody_half ref_s in
  let d := pte_forward d_en s L mask in
  let x := lstm d in
  pred_dur ← Duration.pred_dur sigmoid speed (duration_proj x);
  let aln := aln_scatter L (map Z.to_nat pred_dur) in
  let en := matmul (tr d) aln (width aln) in
  let '(F0_pred, N_pred) := f0n en s in
  let t_en := te_forward input_ids L mask in
  let asr := matmul t_en aln (width aln) in
  let audio := decoder asr F0_pred N_pred (timbre_half ref_s) in
  Ok (if return_output then WithDur audio pred_dur else AudioOnly audio).

(** [KModel.inference(input_ids, ref_s, speed)] on the id row; the audio
    keeps its batch axis ([squeeze(0)] of a [(1, 1, T)] tensor). *)
Definition kmodel_inference (input_ids : list Z) (ref_s : mat K) (speed : Z)
    : result (mat K) :=
  let L := length input_ids in
  let mask := text_mask L in
  let bert_dur := bert input_ids (attention_mask mask) in
  let d_en := bert_encoder bert_dur in
  let s := prosody_half ref_s in
  let d := pte_inference d_en s L mask in
  let x := lstm d in
  pred_dur ← Duration.pred_dur sigmoid (inject_Z speed) (duration_proj x);
  let aln := aln_broadcast (map Z.to_nat pred_dur) in
  let en := matmul (tr d) aln (width aln) in
  let '(F0_pred, N_pred) := f0n en s in
  let t_en := te_inference input_ids L mask in
  let asr := matmul t_en aln (width aln) in
  Ok [decoder asr F0_pred N_pred (timbre_half ref_s)].

End Passes.

(** A small backend over [Z] for the examples: one-column embeddings,
    two duration logits per token with a constant sigmoid of 1/2, and a
    decoder that flattens its input. *)
#[local] Program Instance toy_backend : Backend Z := {|
  bert ids _ := map (λ i, [i]) ids;
  bert_encoder x := x;
  pte_forward x s n _ := map (λ i, [Z.of_nat i]) (seq 0 n);
  pte_inference x s n m := map (λ i, [Z.of_nat i]) (seq 0 n);
  lstm x := x;
  duration_proj x := map (λ _, [1%Q; 1%Q]) x;
  sigmoid _ := (1 # 2)%Q;
  f0n en s := (en, s);
  te_forward ids _ _ := [ids];
  te_inference ids _ _ := [ids];
  decoder asr f0 n st := concat asr ++ concat st
|}.
Solve All Obligations with (intros; simpl; rewrite ?length_map, ?length_seq; reflexivity).

Lemma length_prosody_half {K} (ref_s : mat K) : length (prosody_half ref_s) = length ref_s.
Proof. apply length_map. Qed.

Section PassLemmas.

Context {K : Type} `{!TensorElt K} `{!Backend K}.

(** The durations of both passes have one entry per token. *)
Lemma pred_dur_tokens (x : mat K) s L m speed durs :
  Duration.pred_dur sigmoid speed (duration_proj (lstm (pte_forward x s L m))) = Ok durs →
  length durs = L.
Proof.
  intros H. apply Duration.pred_dur_length in H.
  by rewrite H, duration_proj_rows, lstm_rows, pte_forward_rows.
Qed.

(** For durations with one entry per token, the scatter of [forward] and
    the broadcast of [inference] coincide. *)
Lemma aln_tokens_agree (durs : list Z) L :
  length durs = L →
  aln_scatter (K:=K) L (map Z.to_nat durs) = aln_broadcast (map Z.to_nat durs).
Proof.
  intros <-. rewrite <- (length_map Z.to_nat durs).
  by rewrite aln_scatter_spec, aln_broadcast_spec.
Qed.

End PassLemmas.

(** ** Properties *)

Section PassProperties.

Context {K : Type} `{!TensorElt K} `{!Backend K}.

(** C10: [KModel.inference] (the exported path) refines [KModel.forward]:
    on the ids that [forward] encodes, with the same style and an integer
    speed, it raises exactly when [forward] does and otherwise returns
    [forward]'s audio with its batch axis. *)
Theorem inference_refines_forward vocab ctx phonemes ids (ref_s : mat K) speed rf :
  Tokens.forward_input_ids vocab ctx phonemes = Ok ids →
  kmodel_inference ids ref_s speed =
  (λ o, [out_audio o]) <$> kmodel_forward vocab ctx phonemes ref_s (inject_Z speed) rf.
Proof.
  intros Hids. unfold kmodel_forward, kmodel_inference. rewrite Hids.
  cbn [mbind result_bind]. rewrite pte_inference_agrees, te_inference_agrees.
  destruct (Duration.pred_dur _ _ _) as [durs|e] eqn:Ed; [|done].
  cbn [mbind result_bind]. rewrite (aln_tokens_agree durs (length ids))
    by exact (pred_dur_tokens _ _ _ _ _ _ Ed).
  destruct (f0n _ _). by destruct rf.
Qed.

(** C27: the durations [KModel.forward] predicts depend on the style
    vector only through its prosody half [ref_s[:, 128:]]: changing the
    timbre half changes the audio at most, never the durations. *)
Theorem forward_durations_prosody_only vocab ctx phonemes (ref_s ref_s' : mat K) speed a d :
  kmodel_forward vocab ctx phonemes ref_s speed true = Ok (WithDur a d) →
  prosody_half ref_s = prosody_half ref_s' →
  ∃ a', kmodel_forward vocab ctx phonemes ref_s' speed true = Ok (WithDur a' d).
Proof.
  unfold kmodel_forward. intros H Hs. rewrite <- Hs.
  destruct (Tokens.forward_input_ids _ _ _) as [ids|e]; [|discriminate].
  cbn [mbind result_bind] in *.
  destruct (Duration.pred_dur _ _ _) as [durs|e]; [|discriminate].
  cbn [mbind result_bind] in *. destruct (f0n _ _). injection H as <- <-. eauto.
Qed.

(** [KModel.forward] with [return_output] returns one duration per
    token of the wrapped id row, each at least one frame. *)
Lemma forward_pred_dur_shape vocab ctx phonemes (ref_s : mat K) speed a d :
  kmodel_forward vocab ctx phonemes ref_s speed true = Ok (WithDur a d) →
  length d = length (Tokens.wrap (Tokens.input_ids_of vocab phonemes)) ∧
  Forall (λ x, (1 <= x)%Z) d.
Proof.
  unfold kmodel_forward. intros H.
  destruct (Tokens.forward_input_ids _ _ _) as [ids|e] eqn:Eids; [|discriminate].
  apply Tokens.forward_input_ids_Ok in Eids as [-> _]. cbn [mbind result_bind] in *.
  destruct (Duration.pred_dur _ _ _) as [durs|e] eqn:Ed; [|discriminate].
  cbn [mbind result_bind] in *. destruct (f0n _ _). injection H as <- <-.
  split; [exact (pred_dur_tokens _ _ _ _ _ _ Ed)|].
  apply Duration.pred_dur_Ok_inv in Ed as [_ ->]. apply Duration.Forall_frames_of_ge_1.
Qed.

End PassProperties.

(** ** Witnesses *)

Lemma inference_refines_forward_witness :
  kmodel_inference [0; 5; 12; 0]%Z [[1; 2]]%Z 1 =
  (λ o, [out_audio o]) <$>
    kmodel_forward Tokens.vocab_example 512 ["a"; "b"] [[1; 2]]%Z (inject_Z 1) false.
Proof. apply (inference_refines_forward Tokens.vocab_example 512 ["a"; "b"]). reflexivity. Defined.

Lemma forward_durations_prosody_only_witness :
  ∃ a', kmodel_forward Tokens.vocab_example 512 ["a"; "b"] [[7; 2]]%Z 1%Q true =
        Ok (WithDur a' [1; 1; 1; 1]%Z).
Proof.
  apply (forward_durations_prosody_only _ _ _ [[1; 2]]%Z _ _ [0; 5; 12; 0; 1; 2]%Z);
    reflexivity.
Defined.

End Pipeline.
