(* ===== verification/Voice.v ===== *)
(** * Voice: the style vector lookup

    Models [load_voice] of src/export.py (lines 75-77):
<<
    pack = pipeline.load_voice(voice).to(model.device)
    return pack[len(phonemes) - 1]
>>
    The voice pack is a tensor whose first axis is the phoneme count
    bucket (510 rows in the shipped packs); loading it from disk is the
    external [load_pack].  The index is computed from the number of
    phonemes before any vocabulary filtering, with Python's indexing:
    [-1] is the last row and an index past the end raises IndexError.
    [.to(model.device)] moves data and is not modelled. *)

From S2P Require Import Prelude Tokens.

Module Voice.

(** The number of rows of the shipped voice packs. *)
Definition pack_rows : nat := 510.

(** [load_voice(pipeline, voice, phonemes)]. *)
Definition load_voice {A} (load_pack : string → list A) (voice : string)
    (phonemes : list string) : result A :=
  (load_pack voice).[Z.of_nat (length phonemes) - 1].

(** A pack of 510 numbered rows, for the examples. *)
Definition pack_example (_ : string) : list nat := seq 100 pack_rows.

(** ** Lemmas *)

Lemma load_voice_index {A} (load_pack : string → list A) voice phonemes row :
  1 ≤ length phonemes →
  load_pack voice !! (length phonemes - 1) = Some row →
  load_voice load_pack voice phonemes = Ok row.
Proof.
  intros Hl Hr. unfold load_voice.
  replace (Z.of_nat (length phonemes) - 1)%Z with (Z.of_nat (length phonemes - 1)) by lia.
  by apply py_getitem_nonneg.
Qed.

Lemma load_voice_nonempty_pack {A} (load_pack : string → list A) voice phonemes :
  length phonemes ≤ length (load_pack voice) → 1 ≤ length (load_pack voice) →
  ∃ row, load_voice load_pack voice phonemes = Ok row.
Proof.
  intros Hle Hne. destruct phonemes as [|p ps].
  - destruct (lookup_lt_is_Some_2 (load_pack voice) (length (load_pack voice) - 1))
      as [row Hrow]; [lia|].
    exists row. unfold load_voice. simpl.
    apply (py_getitem_neg _ 1); [lia|done|lia].
  - destruct (lookup_lt_is_Some_2 (load_pack voice) (length (p :: ps) - 1))
      as [row Hrow]; [lia|].
    exists row. apply load_voice_index; [simpl; lia|done].
Qed.

(** ** Properties *)

(** C28: for [n] phonemes with [1 <= n <= rows], [load_voice] returns row
    [n - 1] of the pack: the style vector of the length bucket [n]. *)
Theorem load_voice_bucket {A} (load_pack : string → list A) voice phonemes :
  1 ≤ length phonemes ≤ length (load_pack voice) →
  ∃ row, load_pack voice !! (length phonemes - 1) = Some row ∧
         load_voice load_pack voice phonemes = Ok row.
Proof.
  intros Hl.
  destruct (lookup_lt_is_Some_2 (load_pack voice) (length phonemes - 1)) as [row Hrow];
    [lia|].
  exists row. split; [done|]. by apply load_voice_index; [lia|].
Qed.

(** C29: an empty phoneme sequence gives the index [-1]: Python indexing
    silently returns the LAST row of the pack, the style of the longest
    bucket. *)
Theorem load_voice_empty {A} (load_pack : string → list A) voice row :
  load_pack voice !! (length (load_pack voice) - 1) = Some row →
  load_voice load_pack voice [] = Ok row.
Proof.
  intros Hrow. pose proof (lookup_lt_Some _ _ _ Hrow).
  unfold load_voice. simpl. apply (py_getitem_neg _ 1); [lia|done|lia].
Qed.

(** C30: the phonemes [load_input_ids] keeps always select a row of a
    510-row pack: the truncation to 510 symbols keeps the voice lookup of
    [load_sample] in range, for any text. *)
Theorem load_input_ids_voice_in_range {A} en g2p vocab lang text ps ids
    (load_pack : string → list A) voice :
  Tokens.load_input_ids en g2p vocab lang text = Ok (ps, ids) →
  length (load_pack voice) = pack_rows →
  ∃ row, load_voice load_pack voice ps = Ok row.
Proof.
  intros (ps0 & _ & -> & _)%Tokens.load_input_ids_Ok Hp.
  apply load_voice_nonempty_pack; rewrite ?Tokens.length_truncate, Hp;
    unfold Tokens.max_phonemes, pack_rows; lia.
Qed.

(** ** Witnesses *)

Lemma load_voice_bucket_witness :
  ∃ row, pack_example "af_heart" !! 2 = Some row ∧
         load_voice pack_example "af_heart" ["a"; "b"; "c"] = Ok row.
Proof. apply (load_voice_bucket pack_example "af_heart" ["a"; "b"; "c"]). vm_compute. lia. Defined.

Lemma load_voice_empty_witness : load_voice pack_example "af_heart" [] = Ok 609.
Proof. apply load_voice_empty. reflexivity. Defined.

Lemma load_input_ids_voice_in_range_witness :
  ∃ row, load_voice pack_example "af_heart" ["a"; "b"; "?"] = Ok row.
Proof.
  apply (load_input_ids_voice_in_range Tokens.chunks_example (λ _, []) Tokens.vocab_example
           "a" "x y" ["a"; "b"; "?"] [0; 5; 12; 0]%Z); reflexivity.
Defined.

End Voice.
