(* ===== verification/OnnxExport.v ===== *)
(** * OnnxExport: the exported graph and its two runners

    Models the glue of src/export.py: the [Model] wrapper (lines 10-26),
    [export_onnx] (lines 28-56), [load_sample] (lines 79-96),
    [inference_onnx] (lines 114-134) and [check_model] (lines 136-147).
    The graph [torch.onnx.export] produces is described by what the code
    fixes: the names of its three inputs and one output, the dtypes and
    shapes of the example arguments, the dynamic axes and the opset.  Its
    computation is the one it traces, [Model.forward], i.e.
    [KModel.inference] (there is no data-dependent Python control flow in
    it to be lost by tracing).  onnxruntime's [session.run] is modelled by
    its input validation (every declared input fed, no unknown name,
    dtypes equal, static dimensions equal) followed by that computation.
    Feeds and dynamic axes are Python dicts: [gmap]s.  Audio playback is
    not modelled: the runners return the samples they would play. *)

From Stdlib Require Import QArith.
From S2P Require Import Prelude Tokens Alignment Pipeline Voice PostProcess.

Module OnnxExport.

Import Alignment Pipeline.

Inductive dtype : Type := Int64 | Float32 | Int32.

#[export] Instance dtype_eq_dec : EqDecision dtype.
Proof. solve_decision. Defined.

(** One declared graph input: name, dtype, dimensions ([None]: dynamic). *)
Record graph_input : Type := mk_input {
  gi_name : string;
  gi_dtype : dtype;
  gi_shape : list (option nat)
}.

Record graph : Type := mk_graph {
  g_inputs : list graph_input;
  g_outputs : list string;
  g_opset : nat
}.

(** [input_names], [output_names], [dynamic_axes], [opset_version]. *)
Definition input_names : list string := ["input_ids"; "style"; "speed"].
Definition output_names : list string := ["audio"].
Definition dynamic_axes : gmap string (list nat) :=
  {[ "input_ids" := [1]; "audio" := [1] ]}.
Definition opset_version : nat := 17.

(** Whether a declared input shape admits an actual one. *)
Definition shape_admits (decl : list (option nat)) (sh : list nat) : bool :=
  bool_decide (length decl = length sh) &&
  forallb (λ p, match p.1 with None => true | Some d => bool_decide (d = p.2) end)
          (zip decl sh).

Section Graph.

Context {K : Type} `{!TensorElt K} `{!Backend K}.

(** A tensor passed to the graph: [LongTensor], [FloatTensor], [IntTensor]. *)
Inductive tensor : Type :=
| TLong (rows : mat Z)
| TFloat (rows : mat K)
| TInt (v : list Z).

Definition dtype_of (t : tensor) : dtype :=
  match t with TLong _ => Int64 | TFloat _ => Float32 | TInt _ => Int32 end.

Definition shape_of (t : tensor) : list nat :=
  match t with
  | TLong rows => [length rows; width rows]
  | TFloat rows => [length rows; width rows]
  | TInt v => [length v]
  end.

(** [Model.forward(input_ids, style, speed)] (lines 19-26): a batch of
    one id row and a one-element speed. *)
Definition model_forward (input_ids : mat Z) (style : mat K) (speed : list Z)
    : result (mat K) :=
  match input_ids, speed with
  | [ids], [sp] => kmodel_inference ids style sp
  | _, _ => Raise (RuntimeError "unsupported batch")
  end.

(** The declaration [torch.onnx.export] makes of one example argument. *)
Definition declare (name : string) (t : tensor) : graph_input :=
  {| gi_name := name; gi_dtype := dtype_of t;
     gi_shape := imap (λ ax d, if bool_decide (ax ∈ default [] (dynamic_axes !! name))
                               then None else Some d) (shape_of t) |}.

(** The example arguments of lines 31-34: 48 random ids wrapped by the
    markers, a [(1, 256)] style and a one-element speed. *)
Definition export_args (rand_ids : list Z) (style : mat K) (speed : Z) : list tensor :=
  [TLong [0%Z :: rand_ids ++ [0%Z]]; TFloat style; TInt [speed]].

(** [onnx.checker.check_model]: input and output names are distinct. *)
Definition check_graph (g : graph) : bool :=
  bool_decide (NoDup (map gi_name (g_inputs g) ++ g_outputs g)).

(** The graph [torch.onnx.export] traces and writes (lines 36-50). *)
Definition traced_graph (rand_ids : list Z) (style : mat K) (speed : Z) : graph :=
  {| g_inputs := zip_with declare input_names (export_args rand_ids style speed);
     g_outputs := output_names; g_opset := opset_version |}.

(** [export_onnx(model, output)]: trace, declare, then check. *)
Definition export_onnx (rand_ids : list Z) (style : mat K) (speed : Z) : result graph :=
  let g := traced_graph rand_ids style speed in
  if check_graph g then Ok g
  else Raise (RuntimeError "onnx.checker.check_model").

(** [session.run(None, feeds)] on an exported graph. *)
Definition session_run (g : graph) (feeds : gmap string tensor) : result (list (mat K)) :=
  if forallb (λ gi, match feeds !! gi_name gi with
                    | Some t => bool_decide (gi_dtype gi = dtype_of t) &&
                                shape_admits (gi_shape gi) (shape_of t)
                    | None => false
                    end) (g_inputs g) &&
     forallb (λ n, bool_decide (n ∈ map gi_name (g_inputs g))) (map fst (map_to_list feeds))
  then match feeds !! "input_ids", feeds !! "style", feeds !! "speed" with
       | Some (TLong ids), Some (TFloat st), Some (TInt sp) => (λ a, [a]) <$> model_forward ids st sp
       | _, _, _ => Raise (RuntimeError "INVALID_ARGUMENT")
       end
  else Raise (RuntimeError "INVALID_ARGUMENT").

(** The sample of [load_sample]: English pipeline, fixed text and voice. *)
Definition sample_text : string := "
    In today's fast-paced tech world, building software applications has never been easier — thanks to AI-powered coding assistants.'
    ".
Definition sample_voice : string := "checkpoints/voices/af_heart.pt".

Section Sample.

Variable en_chunks : string → list Tokens.chunk.
Variable g2p_other : string → list string.
Variable vocab : gmap string Z.
Variable load_pack : string → list (mat K).

(** [load_sample(model)]: ids, style and [torch.IntTensor([1])]. *)
Definition load_sample : result (mat Z * mat K * list Z) :=
  '(phonemes, input_ids) ← Tokens.load_input_ids en_chunks g2p_other vocab "a" sample_text;
  style ← Voice.load_voice load_pack sample_voice phonemes;
  Ok ([input_ids], style, [1%Z]).

Context {C : Type}.
Variable cabs : C → Q.
Variable cangle : C → Q.
Variable polar : Q → Q → C.
Variable stft : list K → result (list (list C)).
Variable istft : list (list C) → result (list K).

(** [inference_onnx(model, output)]: run the session on the sample,
    post-process [outputs[0]], return [output[0]] (the played samples). *)
Definition inference_onnx (g : graph) : result (list K) :=
  '(input_ids, style, speed) ← load_sample;
  outputs ← session_run g {[ "input_ids" := TLong input_ids; "style" := TFloat style;
                             "speed" := TInt speed ]};
  output ← outputs.[0];
  output ← PostProcess.post_process cabs cangle polar stft istft output;
  output.[0].

(** [check_model(model)]: the same with [model(input_ids, style, speed)]. *)
Definition check_model : result (list K) :=
  '(input_ids, style, speed) ← load_sample;
  output ← model_forward input_ids style speed;
  output ← PostProcess.post_process cabs cangle polar stft istft output;
  output.[0].

End Sample.

End Graph.

(** The graph exported from a [(1, 256)] example style. *)
Definition graph_example : graph :=
  {| g_inputs := [mk_input "input_ids" Int64 [Some 1; None];
                  mk_input "style" Float32 [Some 1; Some 256];
                  mk_input "speed" Int32 [Some 1]];
     g_outputs := ["audio"]; g_opset := 17 |}.

(** ** Lemmas *)

Section GraphLemmas.

Context {K : Type} `{!TensorElt K} `{!Backend K}.

(** The graph the export writes depends on the example style only
    through its shape. *)
Lemma traced_graph_eq rand_ids (style : mat K) speed :
  traced_graph rand_ids style speed =
  {| g_inputs := [mk_input "input_ids" Int64 [Some 1; None];
                  mk_input "style" Float32 [Some (length style); Some (width style)];
                  mk_input "speed" Int32 [Some 1]];
     g_outputs := output_names; g_opset := opset_version |}.
Proof. reflexivity. Qed.

(** The graph [export_onnx] builds: only the token axis of [input_ids]
    is dynamic; the style keeps the example's [(1, 256)]. *)
Lemma export_onnx_eq rand_ids (style : mat K) speed :
  export_onnx rand_ids style speed =
  Ok {| g_inputs := [mk_input "input_ids" Int64 [Some 1; None];
                     mk_input "style" Float32 [Some (length style); Some (width style)];
                     mk_input "speed" Int32 [Some 1]];
        g_outputs := output_names; g_opset := opset_version |}.
Proof. reflexivity. Qed.

(** onnxruntime accepts the three feeds of a sample whose style has the
    example's shape, and runs [Model.forward]. *)
Lemma session_run_sample rand_ids (st0 : mat K) sp0 g ids_row (style : mat K) sp :
  export_onnx rand_ids st0 sp0 = Ok g →
  length style = length st0 → width style = width st0 →
  session_run g {[ "input_ids" := TLong [ids_row]; "style" := TFloat style;
                   "speed" := TInt [sp] ]} =
  (λ a, [a]) <$> model_forward [ids_row] style [sp].
Proof.
  rewrite export_onnx_eq. intros [= <-] Hl Hw. unfold session_run.
  set (feeds := {[ "input_ids" := TLong [ids_row]; "style" := TFloat style;
                   "speed" := TInt [sp] ]}).
  match goal with
  | |- context [forallb ?f (map fst (map_to_list feeds))] =>
      replace (forallb f (map fst (map_to_list feeds))) with true
        by (symmetry; vm_compute; reflexivity)
  end.
  assert (E1 : feeds !! "input_ids" = Some (TLong [ids_row])) by (unfold feeds; by simplify_map_eq).
  assert (E2 : feeds !! "style" = Some (TFloat style)) by (unfold feeds; by simplify_map_eq).
  assert (E3 : feeds !! "speed" = Some (TInt [sp])) by (unfold feeds; by simplify_map_eq).
  cbn [g_inputs gi_name gi_dtype gi_shape forallb]. rewrite E1, E2, E3.
  unfold shape_admits. cbn. rewrite ?Hl, ?Hw, ?bool_decide_true by done. reflexivity.
Qed.

Lemma load_sample_Ok en g2p vocab (load_pack : string → list (mat K)) ids style speed :
  load_sample en g2p vocab load_pack = Ok (ids, style, speed) →
  ∃ row, ids = [row] ∧ speed = [1%Z] ∧ style ∈ load_pack sample_voice.
Proof.
  unfold load_sample. intros H. simplify_result.
  destruct x as [ps row]. simplify_result. eauto using py_getitem_elem.
Qed.

(** A graph that runs every sample of a given style shape as
    [Model.forward] makes [inference_onnx] play what [check_model] plays,
    for a voice pack of that shape. *)
Lemma inference_onnx_sample en g2p vocab (load_pack : string → list (mat K))
    {C} cabs cangle (polar : Q → Q → C) stft istft g L W :
  (∀ ids_row (style : mat K) sp, length style = L → width style = W →
     session_run g {[ "input_ids" := TLong [ids_row]; "style" := TFloat style;
                      "speed" := TInt [sp] ]} =
     (λ a, [a]) <$> model_forward [ids_row] style [sp]) →
  Forall (λ row, length row = L ∧ width row = W) (load_pack sample_voice) →
  inference_onnx en g2p vocab load_pack cabs cangle polar stft istft g =
  check_model en g2p vocab load_pack cabs cangle polar stft istft.
Proof.
  intros Hg Hpack. unfold inference_onnx, check_model.
  destruct (load_sample _ _ _ _) as [[[ids style] speed]|e] eqn:Es; [|done].
  cbn [mbind result_bind].
  destruct (load_sample_Ok _ _ _ _ _ _ _ Es) as (row & -> & -> & Hstyle).
  destruct (proj1 (Forall_forall _ _) Hpack style Hstyle) as [Hl Hw].
  rewrite (Hg _ _ _ Hl Hw).
  by destruct (model_forward _ _ _).
Qed.

End GraphLemmas.

(** ** Properties *)

Section GraphProperties.

Context {K : Type} `{!TensorElt K} `{!Backend K}.

(** C31: the exported graph passes [onnx.checker] and declares exactly
    the inputs [input_ids] ([int64], shape [(1, None)]: only the token
    axis 1 is dynamic), [style] ([float32], the example style's shape)
    and [speed] ([int32], shape [(1)]), the output [audio] and opset 17. *)
Theorem export_onnx_dynamic_token_axis rand_ids (st0 : mat K) sp0 g :
  export_onnx rand_ids st0 sp0 = Ok g →
  map (λ gi, (gi_name gi, gi_dtype gi, gi_shape gi)) (g_inputs g) =
    [("input_ids", Int64, [Some 1; None]);
     ("style", Float32, [Some (length st0); Some (width st0)]);
     ("speed", Int32, [Some 1])] ∧
  g_outputs g = ["audio"] ∧ g_opset g = 17.
Proof. rewrite export_onnx_eq. by intros [= <-]. Qed.

(** C32: the onnxruntime path [inference_onnx] and the direct path
    [check_model] play the same samples (or raise the same error) when
    the voice pack's rows have the example style's shape: ORT's input
    validation never rejects a sample. *)
Theorem inference_onnx_eq_check_model en g2p vocab (load_pack : string → list (mat K))
    {C} cabs cangle (polar : Q → Q → C) stft istft rand_ids (st0 : mat K) sp0 g :
  export_onnx rand_ids st0 sp0 = Ok g →
  Forall (λ row, length row = length st0 ∧ width row = width st0) (load_pack sample_voice) →
  inference_onnx en g2p vocab load_pack cabs cangle polar stft istft g =
  check_model en g2p vocab load_pack cabs cangle polar stft istft.
Proof.
  intros Hg. apply inference_onnx_sample.
  intros ids_row style sp. by apply session_run_sample with rand_ids sp0.
Qed.

(** A feed dict that misses one of the declared inputs is rejected by
    [session.run] with INVALID_ARGUMENT. *)
Lemma session_run_missing_input rand_ids (st0 : mat K) sp0 g n (feeds : gmap string tensor) :
  export_onnx rand_ids st0 sp0 = Ok g →
  n ∈ input_names → feeds !! n = None →
  session_run g feeds = Raise (RuntimeError "INVALID_ARGUMENT").
Proof.
  rewrite export_onnx_eq. intros [= <-] Hn Hf. unfold session_run.
  destruct (forallb _ _) eqn:E; [|done]. exfalso.
  apply list_elem_of_In in Hn. simpl in Hn.
  apply forallb_forall with (x := mk_input n
    (if bool_decide (n = "input_ids") then Int64 else if bool_decide (n = "style")
     then Float32 else Int32)
    (if bool_decide (n = "input_ids") then [Some 1; None] else if bool_decide (n = "style")
     then [Some (length st0); Some (width st0)] else [Some 1])) in E.
  - simpl in E. by rewrite Hf in E.
  - simpl. destruct Hn as [<-|[<-|[<-|[]]]]; auto.
Qed.

End GraphProperties.

(** ** Witnesses *)

#[local] Existing Instance toy_backend.

Lemma export_onnx_dynamic_token_axis_witness :
  map (λ gi, (gi_name gi, gi_dtype gi, gi_shape gi)) (g_inputs graph_example) =
    [("input_ids", Int64, [Some 1; None]); ("style", Float32, [Some 1; Some 256]);
     ("speed", Int32, [Some 1])] ∧
  g_outputs graph_example = ["audio"] ∧ g_opset graph_example = 17.
Proof.
  apply (export_onnx_dynamic_token_axis (replicate 48 1%Z) [replicate 256 0%Z] 1).
  reflexivity.
Defined.

Lemma inference_onnx_eq_check_model_witness :
  inference_onnx Tokens.chunks_example (λ _, []) Tokens.vocab_example
    (λ _, replicate 510 [replicate 256 0%Z]) inject_Z (λ _, 0%Q) (λ _ _, 0%Z)
    (λ a, Ok [a]) (λ S, Ok (concat S)) graph_example =
  check_model Tokens.chunks_example (λ _, []) Tokens.vocab_example
    (λ _, replicate 510 [replicate 256 0%Z]) inject_Z (λ _, 0%Q) (λ _ _, 0%Z)
    (λ a, Ok [a]) (λ S, Ok (concat S)).
Proof.
  apply (inference_onnx_eq_check_model _ _ _ _ _ _ _ _ _
           (replicate 48 1%Z) [replicate 256 0%Z] 1%Z); [reflexivity|].
  apply Forall_replicate. split; reflexivity.
Defined.

End OnnxExport.
