(* ===== verification/Weights.v ===== *)
(** * Weights: loading the checkpoint in KModel.__init__

    Models the loop of src/kokoro/model.py lines 56-63:
<<
    for key, state_dict in torch.load(model, ...).items():
        assert hasattr(self, key), key
        try:
            getattr(self, key).load_state_dict(state_dict)
        except:
            state_dict = {k[7:]: v for k, v in state_dict.items()}
            getattr(self, key).load_state_dict(state_dict, strict=False)
>>
    The model's attributes are a [gmap] from names to [attr]s: a
    sub-module with its parameters (name to value), or any other
    attribute (a method, [vocab], ...), whose [load_state_dict] raises
    AttributeError (caught by the bare [except], raised again by the
    retry).  The checkpoint and each state dict are dicts whose
    order matters (a comprehension keeps the last of two equal keys):
    association lists.  [load_state_dict] follows torch: it first copies
    every parameter the dict provides, then, when [strict], raises if the
    key sets differ; the copy is kept by the caller even when it raises.
    Parameter values are opaque (shape mismatches are not modelled).
    [state_dicts] is the checkpoint format the loop reads, one state dict
    per sub-module, used to state the save and reload round trip. *)

From S2P Require Import Prelude.

Module Weights.

Inductive attr (V : Type) : Type :=
| AModule (params : gmap string V)
| AOther.
Arguments AModule {V} params.
Arguments AOther {V}.

Section Loading.

Context {V : Type}.

(** [dict(items)]: the last binding of a key wins. *)
Definition dict_of (l : list (string * V)) : gmap string V :=
  foldl (λ m kv, <[kv.1 := kv.2]> m) ∅ l.

(** Python's [k[n:]] on a string. *)
Fixpoint str_drop (n : nat) (s : string) : string :=
  match n, s with
  | O, _ => s
  | S n', String _ s' => str_drop n' s'
  | S _, EmptyString => EmptyString
  end.

(** [{k[7:]: v for k, v in state_dict.items()}]. *)
Definition strip_prefix (sd : list (string * V)) : list (string * V) :=
  map (λ kv, (str_drop 7 kv.1, kv.2)) sd.

(** [module.load_state_dict(sd, strict)]: the updated parameters, and the
    RuntimeError raised after the copy when strict and the keys differ. *)
Definition load_state_dict (params sd : gmap string V) (strict : bool)
    : gmap string V * option py_exc :=
  let params' := map_imap (λ k v, Some (default v (sd !! k))) params in
  if strict && negb (bool_decide (dom sd = dom params))
  then (params', Some (RuntimeError "Error(s) in loading state_dict"))
  else (params', None).

(** One iteration of the loop, for [(key, state_dict)]. *)
Definition load_key (attrs : gmap string (attr V)) (key : string)
    (sd : list (string * V)) : result (gmap string (attr V)) :=
  match attrs !! key with
  | None => Raise (AssertionError key)
  | Some AOther => Raise (AttributeError key)
  | Some (AModule params) =>
      let '(params1, err) := load_state_dict params (dict_of sd) true in
      match err with
      | None => Ok (<[key := AModule params1]> attrs)
      | Some _ =>
          let '(params2, _) := load_state_dict params1 (dict_of (strip_prefix sd)) false in
          Ok (<[key := AModule params2]> attrs)
      end
  end.

(** The whole loop over [torch.load(model).items()]. *)
Fixpoint load_checkpoint (attrs : gmap string (attr V))
    (ckpt : list (string * list (string * V))) : result (gmap string (attr V)) :=
  match ckpt with
  | [] => Ok attrs
  | (key, sd) :: rest => attrs' ← load_key attrs key sd; load_checkpoint attrs' rest
  end.

(** Two attribute maps with the same attributes, the same kinds and the
    same parameter names in every sub-module. *)
Definition same_layout (a1 a2 : gmap string (attr V)) : Prop :=
  ∀ key, match a1 !! key, a2 !! key with
         | Some (AModule p1), Some (AModule p2) => dom p1 = dom p2
         | Some AOther, Some AOther => True
         | None, None => True
         | _, _ => False
         end.

(** A checkpoint saved from a wrapped module: every key prefixed by
    ["module."]. *)
Definition prefixed (sd : list (string * V)) : list (string * V) :=
  map (λ kv, ("module." +:+ kv.1, kv.2)) sd.

(** The sub-modules of the model with their parameters. *)
Definition modules (attrs : gmap string (attr V)) : gmap string (gmap string V) :=
  omap (λ a, match a with AModule p => Some p | AOther => None end) attrs.

(** A checkpoint in the format [load_checkpoint] reads,
    [{key: getattr(self, key).state_dict()}] over the sub-modules. *)
Definition state_dicts (attrs : gmap string (attr V)) : list (string * list (string * V)) :=
  (λ kp, (kp.1, map_to_list kp.2)) <$> map_to_list (modules attrs).

End Loading.

(** A model with two sub-modules and a method, for the examples. *)
Definition attrs_example : gmap string (attr nat) :=
  {[ "bert" := AModule {[ "w" := 0 ]}; "decoder" := AModule {[ "w" := 0 ]};
     "forward" := AOther ]}.

(** ** Lemmas *)

Section LoadingLemmas.

Context {V : Type}.

Lemma foldl_insert_union (m : gmap string V) l :
  foldl (λ m kv, <[kv.1 := kv.2]> m) m l = dict_of l ∪ m.
Proof.
  induction l as [|[k v] l IH] in m |- *; simpl.
  - unfold dict_of. simpl. by rewrite (left_id_L ∅ (∪)).
  - unfold dict_of at 1. simpl. rewrite !IH, <- (assoc_L (∪)). f_equal.
    by rewrite <- insert_union_l, (left_id_L ∅ (∪)).
Qed.

Lemma dict_of_app (l1 l2 : list (string * V)) : dict_of (l1 ++ l2) = dict_of l2 ∪ dict_of l1.
Proof. unfold dict_of at 1. rewrite foldl_app. apply foldl_insert_union. Qed.

Lemma dict_of_reverse (l : list (string * V)) : dict_of l = list_to_map (reverse l).
Proof.
  induction l as [|[k v] l IH] using rev_ind; [done|].
  rewrite dict_of_app, reverse_snoc, IH. simpl.
  change (dict_of [(k, v)]) with (<[k:=v]> (∅ : gmap string V)).
  by rewrite <- insert_union_l, (left_id_L ∅ (∪)).
Qed.

Lemma dict_of_map_to_list (m : gmap string V) : dict_of (map_to_list m) = m.
Proof.
  rewrite dict_of_reverse.
  transitivity (list_to_map (map_to_list m) : gmap string V); [|apply list_to_map_to_list].
  apply list_to_map_proper; [|apply reverse_Permutation].
  rewrite fmap_reverse, reverse_Permutation. apply NoDup_fst_map_to_list.
Qed.

Lemma lookup_dict_of_cons_ne (l : list (string * V)) k v k' :
  k ≠ k' → dict_of ((k, v) :: l) !! k' = dict_of l !! k'.
Proof.
  intros Hne. change ((k, v) :: l) with ([(k, v)] ++ l).
  rewrite dict_of_app, lookup_union.
  change (dict_of [(k, v)]) with (<[k:=v]> (∅ : gmap string V)).
  rewrite lookup_insert_ne, lookup_empty by done.
  by destruct (dict_of l !! k').
Qed.

Lemma load_state_dict_fst (params sd : gmap string V) strict :
  (load_state_dict params sd strict).1 = map_imap (λ k v, Some (default v (sd !! k))) params.
Proof. unfold load_state_dict. by destruct (_ && _). Qed.

Lemma dom_load_state_dict (params sd : gmap string V) strict :
  dom (load_state_dict params sd strict).1 = dom params.
Proof.
  rewrite load_state_dict_fst. apply dom_imap_L. intros i. rewrite elem_of_dom.
  split; [intros [x Hx]; eauto | intros (x & Hx & _); eauto].
Qed.

Lemma same_layout_refl (a : gmap string (attr V)) : same_layout a a.
Proof. intros key. by destruct (a !! key) as [[]|]. Qed.

Lemma same_layout_trans (a1 a2 a3 : gmap string (attr V)) :
  same_layout a1 a2 → same_layout a2 a3 → same_layout a1 a3.
Proof.
  intros H12 H23 key. specialize (H12 key). specialize (H23 key).
  destruct (a1 !! key) as [[]|], (a2 !! key) as [[]|], (a3 !! key) as [[]|];
    try done; congruence.
Qed.

Lemma same_layout_insert_module (a : gmap string (attr V)) key params params' :
  a !! key = Some (AModule params) → dom params' = dom params →
  same_layout a (<[key := AModule params']> a).
Proof.
  intros Hk Hd key'. destruct (decide (key = key')) as [<-|Hne].
  - by rewrite lookup_insert_eq, Hk.
  - rewrite lookup_insert_ne by done. by destruct (a !! key') as [[]|].
Qed.

Lemma load_key_Ok (attrs attrs' : gmap string (attr V)) key sd :
  load_key attrs key sd = Ok attrs' →
  ∃ params params', attrs !! key = Some (AModule params) ∧ dom params' = dom params ∧
    attrs' = <[key := AModule params']> attrs.
Proof.
  unfold load_key. destruct (attrs !! key) as [[params|]|] eqn:Ek; try discriminate.
  destruct (load_state_dict params (dict_of sd) true) as [params1 err] eqn:E1.
  pose proof (dom_load_state_dict params (dict_of sd) true) as D1. rewrite E1 in D1. simpl in D1.
  destruct err as [e|]; intros H.
  - destruct (load_state_dict params1 _ false) as [params2 err2] eqn:E2.
    pose proof (dom_load_state_dict params1 (dict_of (strip_prefix sd)) false) as D2.
    rewrite E2 in D2. simpl in D2. simplify_result. exists params, params2. split_and!; congruence.
  - simplify_result. eauto.
Qed.

Lemma load_key_layout (attrs attrs' : gmap string (attr V)) key sd :
  load_key attrs key sd = Ok attrs' → same_layout attrs attrs'.
Proof.
  intros (params & params' & Hk & Hd & ->)%load_key_Ok.
  by eapply same_layout_insert_module.
Qed.

(** [load_key] on a sub-module never raises. *)
Lemma load_key_module (attrs : gmap string (attr V)) key sd params :
  attrs !! key = Some (AModule params) → ∃ attrs', load_key attrs key sd = Ok attrs'.
Proof.
  intros Hk. unfold load_key. rewrite Hk.
  destruct (load_state_dict params (dict_of sd) true) as [params1 [e|]]; [|eauto].
  destruct (load_state_dict params1 _ false). eauto.
Qed.

Lemma same_layout_module (a1 a2 : gmap string (attr V)) key params :
  same_layout a1 a2 → a1 !! key = Some (AModule params) →
  ∃ params', a2 !! key = Some (AModule params').
Proof.
  intros H Hk. specialize (H key). rewrite Hk in H.
  destruct (a2 !! key) as [[]|]; [eauto|done|done].
Qed.

Lemma same_layout_None (a1 a2 : gmap string (attr V)) key :
  same_layout a1 a2 → a1 !! key = None → a2 !! key = None.
Proof.
  intros H Hk. specialize (H key). rewrite Hk in H. by destruct (a2 !! key) as [[]|].
Qed.

Lemma str_drop_module k : str_drop 7 ("module." +:+ k) = k.
Proof. reflexivity. Qed.

Lemma strip_prefix_prefixed (sd : list (string * V)) : strip_prefix (prefixed sd) = sd.
Proof.
  unfold strip_prefix, prefixed.
  induction sd as [|[k v] sd IH]; [done|]. simpl. f_equal. exact IH.
Qed.

(** A non-strict load whose dict covers exactly the module's parameters
    replaces all of them. *)
Lemma load_all_keys (params sd : gmap string V) :
  dom sd = dom params → map_imap (λ k v, Some (default v (sd !! k))) params = sd.
Proof.
  intros Hd. apply map_eq. intros k. rewrite map_lookup_imap.
  destruct (params !! k) as [v|] eqn:E; simpl.
  - assert (Hin : k ∈ dom sd) by (rewrite Hd; by eapply elem_of_dom_2).
    apply elem_of_dom in Hin as [w Hw]. by rewrite Hw.
  - symmetry. apply not_elem_of_dom. rewrite Hd. by apply not_elem_of_dom.
Qed.

Lemma load_state_dict_full (params p : gmap string V) :
  dom p = dom params → load_state_dict params p true = (p, None).
Proof.
  intros Hd. unfold load_state_dict. rewrite bool_decide_true by done. simpl.
  by rewrite load_all_keys.
Qed.

Lemma load_key_full (attrs : gmap string (attr V)) key (p0 p : gmap string V) :
  attrs !! key = Some (AModule p0) → dom p0 = dom p →
  load_key attrs key (map_to_list p) = Ok (<[key := AModule p]> attrs).
Proof.
  intros Hk Hd. unfold load_key. rewrite Hk, dict_of_map_to_list, load_state_dict_full by done.
  done.
Qed.

(** Loading whole state dicts of distinct sub-modules, each with the
    parameter names of the model's module, overwrites those modules. *)
Lemma load_checkpoint_modules (attrs : gmap string (attr V)) (L : list (string * gmap string V)) :
  NoDup L.*1 →
  Forall (λ kp, ∃ p0, attrs !! kp.1 = Some (AModule p0) ∧ dom p0 = dom kp.2) L →
  load_checkpoint attrs ((λ kp, (kp.1, map_to_list kp.2)) <$> L) =
  Ok (list_to_map ((λ kp, (kp.1, AModule kp.2)) <$> L) ∪ attrs).
Proof.
  induction L as [|[k p] L IH] in attrs |- *; intros Hnd HL; simpl.
  - by rewrite (left_id_L ∅ (∪)).
  - apply NoDup_cons in Hnd as [Hk Hnd]. apply Forall_cons in HL as [(p0 & Hp0 & Hd) HL].
    simpl in *. rewrite (load_key_full _ _ p0) by done. cbn [mbind result_bind].
    rewrite IH; [|done|].
    + f_equal. rewrite <- insert_union_r, insert_union_l; [done|].
      apply not_elem_of_list_to_map_1. rewrite <- list_fmap_compose. by apply Hk.
    + apply Forall_forall. intros [k' p'] Hin.
      destruct (proj1 (Forall_forall _ _) HL _ Hin) as (p0' & Hp0' & Hd').
      exists p0'. simpl in *. rewrite lookup_insert_ne; [done|].
      intros ->. apply Hk. by apply (list_elem_of_fmap_2 fst _ (k', p')).
Qed.

Lemma list_to_map_modules (M : gmap string (gmap string V)) :
  list_to_map ((λ kp, (kp.1, AModule kp.2)) <$> map_to_list M) = (AModule <$> M : gmap string (attr V)).
Proof.
  by rewrite <- (list_to_map_to_list (AModule <$> M)), map_to_list_fmap.
Qed.

Lemma modules_union (attrs0 attrs1 : gmap string (attr V)) :
  same_layout attrs0 attrs1 → (AModule <$> modules attrs1) ∪ attrs0 = attrs1.
Proof.
  intros Hl. apply map_eq. intros k. specialize (Hl k).
  rewrite lookup_union, lookup_fmap. unfold modules. rewrite lookup_omap.
  destruct (attrs0 !! k) as [[]|], (attrs1 !! k) as [[]|]; done.
Qed.

(** Any part of the modules of a model of the same layout can be loaded
    whole. *)
Lemma state_dicts_layout (attrs0 attrs1 : gmap string (attr V)) M :
  same_layout attrs0 attrs1 → M ⊆ modules attrs1 →
  Forall (λ kp, ∃ p0, attrs0 !! kp.1 = Some (AModule p0) ∧ dom p0 = dom kp.2)
    (map_to_list M).
Proof.
  intros Hl HM. apply Forall_forall. intros [k p] Hin%elem_of_map_to_list. simpl.
  eapply lookup_weaken in Hin; [|exact HM].
  unfold modules in Hin. rewrite lookup_omap in Hin. specialize (Hl k).
  destruct (attrs1 !! k) as [[p1|]|] eqn:E1; simplify_eq/=.
  destruct (attrs0 !! k) as [[p0|]|]; try done. by exists p0.
Qed.

(** A sub-module stays a sub-module with the same parameter names
    through the whole loop. *)
Lemma load_checkpoint_module (attrs attrs' : gmap string (attr V)) ckpt key p :
  attrs !! key = Some (AModule p) → load_checkpoint attrs ckpt = Ok attrs' →
  ∃ p', attrs' !! key = Some (AModule p') ∧ dom p' = dom p.
Proof.
  revert attrs p. induction ckpt as [|[k sd] rest IH]; intros attrs p Hp H; simpl in H.
  - simplify_result. eauto.
  - destruct (load_key attrs k sd) as [a|e] eqn:E; [|discriminate]. simpl in H.
    pose proof (load_key_layout _ _ _ _ E key) as Hl. rewrite Hp in Hl.
    destruct (a !! key) as [[p1|]|] eqn:Ea; try contradiction.
    destruct (IH a p1 Ea H) as (p' & Hp' & Hd). exists p'. split; [done|]. congruence.
Qed.

Lemma load_checkpoint_cons (attrs : gmap string (attr V)) key sd rest :
  load_checkpoint attrs ((key, sd) :: rest) = load_key attrs key sd ≫= λ a, load_checkpoint a rest.
Proof. reflexivity. Qed.

End LoadingLemmas.

(** ** Properties *)

Section LoadingProperties.

Context {V : Type}.

(** C33: loading a checkpoint preserves the model's layout: no attribute
    appears or disappears, no attribute changes kind, and every
    sub-module keeps exactly its parameter names. *)
Theorem load_checkpoint_layout (attrs attrs' : gmap string (attr V)) ckpt :
  load_checkpoint attrs ckpt = Ok attrs' → same_layout attrs attrs'.
Proof.
  revert attrs. induction ckpt as [|[key sd] rest IH]; intros attrs H.
  - simpl in H. simplify_result. apply same_layout_refl.
  - rewrite load_checkpoint_cons in H.
    destruct (load_key attrs key sd) as [a|e] eqn:E; [|discriminate].
    eapply same_layout_trans; [eapply load_key_layout; eauto | by apply IH].
Qed.

(** C35: the first checkpoint key that is not an attribute of the model
    raises the AssertionError naming it, after the sub-modules before it
    have been loaded. *)
Theorem load_checkpoint_unknown_key (attrs : gmap string (attr V)) ckpt1 key sd ckpt2 :
  Forall (λ ks, ∃ ps, attrs !! ks.1 = Some (AModule ps)) ckpt1 →
  attrs !! key = None →
  load_checkpoint attrs (ckpt1 ++ (key, sd) :: ckpt2) = Raise (AssertionError key).
Proof.
  revert attrs. induction ckpt1 as [|[k s] rest IH]; intros attrs Hmods Hkey.
  - simpl. unfold load_key. by rewrite Hkey.
  - apply Forall_cons in Hmods as [[ps Hps] Hmods]. simpl in Hps.
    simpl app. rewrite load_checkpoint_cons.
    destruct (load_key_module attrs k s ps Hps) as [a Ha]. rewrite Ha.
    pose proof (load_key_layout _ _ _ _ Ha) as Hl. apply IH.
    + eapply Forall_impl; [exact Hmods|]. intros [k' s'] [ps' Hps'].
      eapply same_layout_module; eauto.
    + eapply same_layout_None; eauto.
Qed.

(** C36: the fallback is a round trip for checkpoints saved from a
    wrapped module: when every key carries the ["module."] prefix, the
    strict load fails, [k[7:]] restores the names and the non-strict
    load replaces every parameter of the sub-module. *)
Theorem load_key_data_parallel (attrs : gmap string (attr V)) key params sd :
  attrs !! key = Some (AModule params) →
  dom (dict_of sd) = dom params →
  dom (dict_of (prefixed sd)) ≠ dom params →
  load_key attrs key (prefixed sd) = Ok (<[key := AModule (dict_of sd)]> attrs).
Proof.
  intros Hk Hd Hne. unfold load_key. rewrite Hk.
  unfold load_state_dict at 1. rewrite (bool_decide_false _ Hne). simpl.
  rewrite strip_prefix_prefixed.
  pose proof (dom_load_state_dict params (dict_of (prefixed sd)) true) as D1.
  rewrite load_state_dict_fst in D1.
  unfold load_state_dict. simpl. do 3 f_equal. apply load_all_keys. congruence.
Qed.

(** C15: save and reload: the per-module state dicts of a model, loaded
    into any model of the same layout (such as a fresh one built from the
    same configuration), restore that model exactly: every strict load
    succeeds and the fallback is never taken. *)
Theorem load_checkpoint_state_dicts (attrs0 attrs1 : gmap string (attr V)) :
  same_layout attrs0 attrs1 → load_checkpoint attrs0 (state_dicts attrs1) = Ok attrs1.
Proof.
  intros Hl. unfold state_dicts. rewrite load_checkpoint_modules.
  - by rewrite list_to_map_modules, modules_union.
  - apply NoDup_fst_map_to_list.
  - by apply (state_dicts_layout _ attrs1).
Qed.

(** C34: a sub-module the checkpoint does not mention is left as
    initialised, silently: loading the state dicts of every other
    sub-module of a model of the same layout succeeds, restores those
    sub-modules, and keeps the initial parameters of the missing one; the
    loop checks that every checkpoint key is an attribute, not that every
    sub-module is in the checkpoint. *)
Theorem load_checkpoint_untouched (attrs0 attrs1 : gmap string (attr V)) key :
  same_layout attrs0 attrs1 →
  ∃ attrs', load_checkpoint attrs0 (state_dicts (delete key attrs1)) = Ok attrs' ∧
    attrs' !! key = attrs0 !! key ∧ ∀ k, k ≠ key → attrs' !! k = attrs1 !! k.
Proof.
  intros Hl. unfold state_dicts. rewrite load_checkpoint_modules.
  - eexists. split; [reflexivity|]. unfold modules. rewrite omap_delete, list_to_map_modules.
    fold (modules attrs1). rewrite fmap_delete. split.
    + by rewrite lookup_union, lookup_delete_eq, (left_id_L None (∪)).
    + intros k Hk. rewrite <- (modules_union attrs0 attrs1 Hl) at 2.
      by rewrite !lookup_union, lookup_delete_ne.
  - apply NoDup_fst_map_to_list.
  - apply (state_dicts_layout _ attrs1); [done|]. unfold modules. rewrite omap_delete.
    apply delete_subseteq.
Qed.

End LoadingProperties.

(** ** Witnesses *)

Lemma load_checkpoint_layout_witness :
  same_layout attrs_example (<[ "bert" := AModule {[ "w" := 5 ]} ]> attrs_example).
Proof. apply (load_checkpoint_layout _ _ [("bert", [("w", 5)])]). reflexivity. Defined.

Lemma load_checkpoint_untouched_witness :
  ∃ attrs', load_checkpoint attrs_example
      (state_dicts (delete "decoder" (<[ "bert" := AModule {[ "w" := 5 ]} ]>
         (<[ "decoder" := AModule {[ "w" := 9 ]} ]> attrs_example)))) = Ok attrs' ∧
    attrs' !! "decoder" = attrs_example !! "decoder" ∧
    ∀ k, k ≠ "decoder" → attrs' !! k = (<[ "bert" := AModule {[ "w" := 5 ]} ]>
         (<[ "decoder" := AModule {[ "w" := 9 ]} ]> attrs_example)) !! k.
Proof.
  apply load_checkpoint_untouched.
  apply (same_layout_trans _ (<[ "decoder" := AModule {[ "w" := 9 ]} ]> attrs_example)).
  - apply (same_layout_insert_module _ "decoder" {[ "w" := 0 ]}); reflexivity.
  - apply (same_layout_insert_module _ "bert" {[ "w" := 0 ]}); reflexivity.
Defined.

Lemma load_checkpoint_unknown_key_witness :
  load_checkpoint attrs_example ([("bert", [("w", 5)])] ++ ("vocoder", []) :: [])
  = Raise (AssertionError "vocoder").
Proof.
  apply load_checkpoint_unknown_key; [repeat constructor; eexists; reflexivity | reflexivity].
Defined.

Lemma load_key_data_parallel_witness :
  load_key attrs_example "bert" (prefixed [("w", 7)]) =
  Ok (<[ "bert" := AModule (dict_of [("w", 7)]) ]> attrs_example).
Proof.
  apply (load_key_data_parallel _ _ {[ "w" := 0 ]}); [reflexivity | reflexivity |].
  intros H. assert (Hw : "w" ∈ dom (dict_of (prefixed [("w", 7)]))).
  { rewrite H. apply elem_of_dom. eexists. reflexivity. }
  apply elem_of_dom in Hw as [x Hx]. discriminate.
Defined.

Lemma load_checkpoint_state_dicts_witness :
  load_checkpoint attrs_example (state_dicts (<[ "bert" := AModule {[ "w" := 5 ]} ]> attrs_example))
  = Ok (<[ "bert" := AModule {[ "w" := 5 ]} ]> attrs_example).
Proof.
  apply load_checkpoint_state_dicts. apply (same_layout_insert_module _ _ {[ "w" := 0 ]});
    reflexivity.
Defined.

End Weights.
