(* ===== verification/KModelInit.v ===== *)
(** * KModelInit: the constructor KModel.__init__

    Models src/kokoro/model.py lines 27-63:
<<
    if not isinstance(config, dict):
        if not config:
            config = hf_hub_download(repo_id=KModel.REPO_ID, filename='config.json')
        with open(config, 'r', encoding='utf-8') as r:
            config = json.load(r)
    self.vocab = config['vocab']
    self.bert = CustomAlbert(AlbertConfig(vocab_size=config['n_token'], **config['plbert']))
    ...
    for key, state_dict in torch.load(model, ...).items(): ...
>>
    The parsed configuration is a JSON value whose objects are
    association lists (a later duplicate key wins, as in [json.load]).
    [config[k]] raises KeyError on a missing key and TypeError on a value
    that is not a dict; a call [f(a=x, **d)] raises TypeError when [d] is
    not a mapping or repeats an explicit keyword.  The constructors of the
    sub-modules (CustomAlbert, Linear, ProsodyPredictor, TextEncoder,
    Decoder), the file and hub access and [torch.load] are library code:
    Section variables.  [AlbertConfig] is a keyword store with defaults,
    of which the code reads [hidden_size] and [max_position_embeddings].
    The attributes of the built object are those of [Weights], so the
    checkpoint loop is the one modelled there. *)

From Stdlib Require Import QArith.
From S2P Require Import Prelude Weights.

Module KModelInit.

Import Weights.

(** A value of [json.load]. *)
#[warnings="-register-all"]
Inductive json : Type :=
| JNull
| JBool (b : bool)
| JInt (z : Z)
| JFloat (q : Q)
| JStr (s : string)
| JArr (items : list json)
| JObj (fields : list (string * json)).

(** The [config] argument: a dict, a path (possibly empty) or [None]. *)
Inductive config_arg : Type :=
| CfgDict (fields : list (string * json))
| CfgPath (path : string)
| CfgNone.

Definition REPO_ID : string := "hexgrad/Kokoro-82M".

(** [config[k]]. *)
Definition getitem (j : json) (k : string) : result json :=
  match j with
  | JObj f => match dict_of f !! k with Some v => Ok v | None => Raise (KeyError k) end
  | _ => Raise (TypeError "object is not subscriptable by str")
  end.

(** The keyword arguments of [f(k1=v1, ..., **d)]. *)
Definition call_kwargs (explicit : list (string * json)) (d : json)
    : result (list (string * json)) :=
  match d with
  | JObj f =>
      match find (λ kv, bool_decide (kv.1 ∈ map fst f)) explicit with
      | Some (k, _) => Raise (TypeError ("got multiple values for keyword argument " +:+ k))
      | None => Ok (explicit ++ map_to_list (dict_of f))
      end
  | _ => Raise (TypeError "argument after ** must be a mapping")
  end.

(** An attribute of an [AlbertConfig] built from keyword arguments, with
    the class default when the keyword is absent. *)
Definition albert_attr (kw : list (string * json)) (k : string) (dflt : json) : json :=
  default dflt (dict_of kw !! k).

(** [AlbertConfig]'s defaults for the two attributes the code reads. *)
Definition albert_hidden_size : json := JInt 4096.
Definition albert_max_position_embeddings : json := JInt 512.

(** The attributes [KModel] declares in its class body. *)
Definition kmodel_class_members : list string :=
  ["REPO_ID"; "device"; "Output"; "forward"; "inference"].

(** The configuration keys in the order the constructor reads them. *)
Definition config_keys : list string :=
  ["vocab"; "n_token"; "plbert"; "hidden_dim"; "style_dim"; "n_layer"; "max_dur";
   "dropout"; "text_encoder_kernel_size"; "n_mels"; "istftnet"].

Section Init.

Context {V : Type}.

(** [json.load(open(path))], [hf_hub_download(repo_id, filename)],
    [torch.load(path)], a module class called with keyword arguments
    (the parameters of the module it builds), and the attributes every [torch.nn.Module] has. *)
Variable read_json : string → result json.
Variable hf_hub_download : string → string → string.
Variable torch_load : string → result (list (string * list (string * V))).
Variable build : string → list (string * json) → result (gmap string V).
Variable module_members : list string.

(** The state of a [KModel]: [vocab], [context_length] and the attributes. *)
Record kmodel : Type := mk_kmodel {
  km_vocab : json;
  km_context_length : json;
  km_attrs : gmap string (attr V)
}.

(** Lines 31-36. *)
Definition load_config (config : config_arg) : result json :=
  match config with
  | CfgDict f => Ok (JObj f)
  | CfgPath p =>
      if bool_decide (p = "") then read_json (hf_hub_download REPO_ID "config.json")
      else read_json p
  | CfgNone => read_json (hf_hub_download REPO_ID "config.json")
  end.

(** Lines 54-55: the checkpoint path. *)
Definition model_path (model : option string) : string :=
  match model with
  | Some p => if bool_decide (p = "") then hf_hub_download REPO_ID "kokoro-v1_0.pth" else p
  | None => hf_hub_download REPO_ID "kokoro-v1_0.pth"
  end.

(** The attributes of a fresh object, before [__init__] assigns any. *)
Definition base_attrs : gmap string (attr V) :=
  list_to_map (map (λ n, (n, AOther)) (module_members ++ kmodel_class_members)).

(** The assignments of lines 38-53, in order. *)
Definition init_attrs (bert bert_encoder predictor text_encoder decoder : gmap string V)
    : gmap string (attr V) :=
  <["decoder" := AModule decoder]> (<["text_encoder" := AModule text_encoder]>
  (<["predictor" := AModule predictor]> (<["context_length" := AOther]>
  (<["bert_encoder" := AModule bert_encoder]> (<["bert" := AModule bert]>
  (<["vocab" := AOther]> base_attrs)))))).

(** Lines 38-53: the sub-modules built from the configuration; the
    repeated [config['hidden_dim']], [config['style_dim']],
    [config['n_layer']] and [config['n_token']] reads return the value of
    the first read. *)
Definition build_modules (cfg : json)
    : result (json * json * gmap string (attr V)) :=
  vocab ← getitem cfg "vocab";
  n_token ← getitem cfg "n_token";
  plbert ← getitem cfg "plbert";
  albert_kw ← call_kwargs [("vocab_size", n_token)] plbert;
  bert ← build "CustomAlbert" albert_kw;
  hidden_dim ← getitem cfg "hidden_dim";
  bert_encoder ← build "Linear" [("in_features", albert_attr albert_kw "hidden_size" albert_hidden_size);
                                 ("out_features", hidden_dim)];
  let context_length := albert_attr albert_kw "max_position_embeddings"
                          albert_max_position_embeddings in
  style_dim ← getitem cfg "style_dim";
  n_layer ← getitem cfg "n_layer";
  max_dur ← getitem cfg "max_dur";
  dropout ← getitem cfg "dropout";
  predictor ← build "ProsodyPredictor"
    [("style_dim", style_dim); ("d_hid", hidden_dim); ("nlayers", n_layer);
     ("max_dur", max_dur); ("dropout", dropout)];
  kernel_size ← getitem cfg "text_encoder_kernel_size";
  text_encoder ← build "TextEncoder"
    [("channels", hidden_dim); ("kernel_size", kernel_size); ("depth", n_layer);
     ("n_symbols", n_token)];
  n_mels ← getitem cfg "n_mels";
  istftnet ← getitem cfg "istftnet";
  decoder_kw ← call_kwargs [("dim_in", hidden_dim); ("style_dim", style_dim);
                            ("dim_out", n_mels)] istftnet;
  decoder ← build "Decoder" decoder_kw;
  Ok (vocab, context_length, init_attrs bert bert_encoder predictor text_encoder decoder).

(** [KModel(config, model)]. *)
Definition kmodel_init (config : config_arg) (model : option string) : result kmodel :=
  cfg ← load_config config;
  '(vocab, context_length, attrs0) ← build_modules cfg;
  ckpt ← torch_load (model_path model);
  attrs ← load_checkpoint attrs0 ckpt;
  Ok (mk_kmodel vocab context_length attrs).

End Init.

Arguments kmodel : clear implicits.

(** The attributes that hold the sub-modules. *)
Definition module_keys : list string :=
  ["bert"; "bert_encoder"; "predictor"; "text_encoder"; "decoder"].

(** The first configuration key, in reading order, that [f] lacks. *)
Definition first_missing (f : list (string * json)) : option string :=
  find (λ k, bool_decide (dict_of f !! k = None)) config_keys.

(** The sub-configurations expanded with [**] are dicts that do not
    repeat the keywords passed explicitly. *)
Definition kwargs_ok (f : list (string * json)) : Prop :=
  (∀ j, dict_of f !! "plbert" = Some j →
        ∃ g, j = JObj g ∧ Forall (λ k, k ∉ map fst g) ["vocab_size"]) ∧
  (∀ j, dict_of f !! "istftnet" = Some j →
        ∃ g, j = JObj g ∧ Forall (λ k, k ∉ map fst g) ["dim_in"; "style_dim"; "dim_out"]).

(** A configuration shaped like the released [config.json] (vocabulary
    cut down to two symbols), and a library environment in which every
    module is built with one parameter ["weight"], for the examples. *)
Definition config_example : list (string * json) :=
  [("istftnet", JObj [("upsample_rates", JArr [JInt 10; JInt 6])]);
   ("dim_in", JInt 64); ("dropout", JFloat (1#5)); ("hidden_dim", JInt 512);
   ("max_conv_dim", JInt 512); ("max_dur", JInt 50); ("multispeaker", JBool true);
   ("n_layer", JInt 3); ("n_mels", JInt 80); ("n_token", JInt 178); ("style_dim", JInt 128);
   ("text_encoder_kernel_size", JInt 5);
   ("plbert", JObj [("hidden_size", JInt 768); ("num_attention_heads", JInt 12);
                    ("intermediate_size", JInt 2048); ("max_position_embeddings", JInt 512);
                    ("num_hidden_layers", JInt 12); ("dropout", JFloat (1#10))]);
   ("vocab", JObj [("a", JInt 43); ("b", JInt 44)])].

Definition read_json_example (_ : string) : result json := Raise (RuntimeError "no file").
Definition hub_example (_ _ : string) : string := "checkpoints/kokoro-v1_0.pth".
Definition torch_load_example (_ : string) : result (list (string * list (string * Z))) :=
  Ok [("bert", [("weight", 1%Z)]); ("decoder", [("module.weight", 2%Z)])].
Definition build_example (_ : string) (_ : list (string * json)) : result (gmap string Z) :=
  Ok {[ "weight" := 0%Z ]}.

(** ** Lemmas *)

Lemma call_kwargs_ok (explicit : list (string * json)) g :
  Forall (λ k, k ∉ map fst g) (map fst explicit) →
  call_kwargs explicit (JObj g) = Ok (explicit ++ map_to_list (dict_of g)).
Proof.
  intros Hex. unfold call_kwargs.
  replace (find _ explicit) with (@None (string * json)); [done|].
  induction explicit as [|[k v] ex IH]; [done|].
  apply Forall_cons in Hex as [Hk Hex]. simpl. by rewrite bool_decide_false, <- IH.
Qed.

Lemma getitem_Ok j k v : getitem j k = Ok v → ∃ f, j = JObj f ∧ dict_of f !! k = Some v.
Proof.
  destruct j as [| | | | | |f]; simpl; try discriminate.
  destruct (dict_of f !! k) eqn:E; intros; simplify_result; eauto.
Qed.

Lemma call_kwargs_Ok (explicit : list (string * json)) d kw :
  call_kwargs explicit d = Ok kw → ∃ g, d = JObj g ∧ kw = explicit ++ map_to_list (dict_of g).
Proof.
  destruct d as [| | | | | |g]; simpl; try discriminate.
  destruct (find _ _) as [[? ?]|]; intros; simplify_result; eauto.
Qed.

(** [AlbertConfig(vocab_size=n, **plbert)] reads its other attributes
    from [plbert]. *)
Lemma albert_attr_plbert n g k dflt :
  k ≠ "vocab_size" →
  albert_attr ([("vocab_size", n)] ++ map_to_list (dict_of g)) k dflt = default dflt (dict_of g !! k).
Proof.
  intros Hk. unfold albert_attr. simpl.
  by rewrite lookup_dict_of_cons_ne, dict_of_map_to_list by congruence.
Qed.

Lemma init_attrs_modules {V} members (b e p t d : gmap string V) key :
  key ∈ module_keys → ∃ ps, init_attrs members b e p t d !! key = Some (AModule ps).
Proof.
  intros Hk. unfold init_attrs.
  repeat (apply elem_of_cons in Hk as [->|Hk]; [eexists; by simplify_map_eq|]).
  by apply elem_of_nil in Hk.
Qed.

Lemma build_modules_Ok {V} build members cfg v c (a : gmap string (attr V)) :
  build_modules build members cfg = Ok (v, c, a) →
  ∃ f g, cfg = JObj f ∧ dict_of f !! "vocab" = Some v ∧ dict_of f !! "plbert" = Some (JObj g) ∧
    c = default albert_max_position_embeddings (dict_of g !! "max_position_embeddings") ∧
    ∀ key, key ∈ module_keys → ∃ ps, a !! key = Some (AModule ps).
Proof.
  unfold build_modules. intros H. simplify_result.
  repeat match goal with
  | H : getitem _ _ = Ok _ |- _ => apply getitem_Ok in H as (? & ? & ?)
  | H : call_kwargs _ _ = Ok _ |- _ => apply call_kwargs_Ok in H as (? & ? & ?)
  end. simplify_eq.
  eexists _, _. do 3 (split; [done|]). split.
  - by apply albert_attr_plbert.
  - intros key Hk. by apply init_attrs_modules.
Qed.

(** The next computation a chain of binds runs. *)
Ltac bind_head t :=
  lazymatch t with
  | @mbind _ _ _ _ _ ?x => bind_head x
  | _ => t
  end.

(** One step of the symbolic run of [build_modules], in evaluation order:
    split on the configuration lookup, module construction or keyword
    expansion that runs next. *)
Ltac init_step bld Hb Hpl Hist :=
  cbn [mbind result_bind];
  lazymatch goal with
  | |- ?lhs = _ =>
    let h := bind_head lhs in
    lazymatch h with
    | match dict_of ?f !! ?k with _ => _ end =>
        let E := fresh "E" in destruct (dict_of f !! k) eqn:E
    | call_kwargs [("vocab_size", _)] ?j =>
        let g := fresh "g" in let Hg := fresh "Hg" in
        destruct (Hpl j ltac:(first [assumption | reflexivity])) as (g & -> & Hg); rewrite call_kwargs_ok by exact Hg
    | call_kwargs _ ?j =>
        let g := fresh "g" in let Hg := fresh "Hg" in
        destruct (Hist j ltac:(first [assumption | reflexivity])) as (g & -> & Hg); rewrite call_kwargs_ok by exact Hg
    | bld ?c ?kw =>
        let E := fresh "B" in let H := fresh in
        destruct (bld c kw) eqn:E; [|pose proof (Hb c kw) as H; rewrite E in H; simpl in H; contradiction]
    end
  end.

Section InitProperties.

Context {V : Type}.
Variable read_json : string → result json.
Variable hf_hub_download : string → string → string.
Variable torch_load : string → result (list (string * list (string * V))).
Variable build : string → list (string * json) → result (gmap string V).
Variable module_members : list string.

(** C17: a dict configuration that lacks a required key makes [KModel]
    raise KeyError for the first such key in the order [__init__] reads
    them, when the sub-configurations expanded with [**] are well formed
    and the module constructors succeed. *)
Theorem kmodel_init_missing_key f model k :
  first_missing f = Some k → kwargs_ok f → (∀ c kw, is_ok (build c kw)) →
  kmodel_init read_json hf_hub_download torch_load build module_members (CfgDict f) model =
  Raise (KeyError k).
Proof.
  intros Hk [Hpl Hist] Hb. unfold first_missing, config_keys in Hk.
  unfold kmodel_init, build_modules. cbn [load_config getitem mbind result_bind].
  repeat (init_step build Hb Hpl Hist); simpl in Hk;
    repeat (case_bool_decide; simplify_eq/=); congruence.
Qed.

(** C16: a model built by [KModel(config, model)] keeps the
    configuration's [vocab], has the context length of its ALBERT
    configuration (512 unless [plbert] sets [max_position_embeddings]),
    and holds its five sub-modules as modules with the parameter names
    they were built with: the checkpoint fills parameters but never adds,
    removes or replaces a sub-module or one of its parameters. *)
Theorem kmodel_init_Ok config model m :
  kmodel_init read_json hf_hub_download torch_load build module_members config model = Ok m →
  ∃ f g attrs0, load_config read_json hf_hub_download config = Ok (JObj f) ∧
    dict_of f !! "vocab" = Some (km_vocab m) ∧ dict_of f !! "plbert" = Some (JObj g) ∧
    km_context_length m = default albert_max_position_embeddings
                            (dict_of g !! "max_position_embeddings") ∧
    build_modules build module_members (JObj f) = Ok (km_vocab m, km_context_length m, attrs0) ∧
    ∀ key, key ∈ module_keys → ∃ ps ps', attrs0 !! key = Some (AModule ps) ∧
      km_attrs m !! key = Some (AModule ps') ∧ dom ps' = dom ps.
Proof.
  unfold kmodel_init. intros (cfg & Hcfg & H)%bind_Ok.
  apply bind_Ok in H as ([[v c] a0] & Hb & H). simplify_result. simpl.
  destruct (build_modules_Ok _ _ _ _ _ _ Hb) as (f & g & -> & Hv & Hg & Hc & Hmods).
  exists f, g, a0. do 5 (split; [done|]).
  intros key Hk. destruct (Hmods key Hk) as [ps Hps].
  destruct (load_checkpoint_module _ _ _ _ _ Hps H0) as (ps' & ? & ?). eauto.
Qed.

(** C37: a [plbert] section that sets [vocab_size] cannot be expanded
    next to the explicit [vocab_size=config['n_token']]: [KModel] raises
    TypeError before building any module. *)
Theorem kmodel_init_plbert_vocab_size f model g n v :
  dict_of f !! "vocab" = Some v → dict_of f !! "n_token" = Some n →
  dict_of f !! "plbert" = Some (JObj g) → "vocab_size" ∈ map fst g →
  kmodel_init read_json hf_hub_download torch_load build module_members (CfgDict f) model =
  Raise (TypeError "got multiple values for keyword argument vocab_size").
Proof.
  intros Hv Hn Hp Hg. unfold kmodel_init, build_modules, call_kwargs.
  cbn [load_config getitem mbind result_bind]. rewrite Hv, Hn, Hp. simpl.
  by rewrite bool_decide_true.
Qed.

End InitProperties.

(** ** Witnesses *)

Lemma kmodel_init_missing_key_witness :
  kmodel_init read_json_example hub_example torch_load_example build_example []
    (CfgDict (filter (λ kv, kv.1 ≠ "n_mels") config_example)) None = Raise (KeyError "n_mels").
Proof.
  apply kmodel_init_missing_key; [reflexivity| |intros; exact I].
  split; intros j Hj; vm_compute in Hj; injection Hj as <-;
    eexists; (split; [reflexivity|]); repeat constructor; compute_done.
Defined.

Lemma kmodel_init_Ok_witness :
  ∃ m, kmodel_init read_json_example hub_example torch_load_example build_example []
         (CfgDict config_example) None = Ok m ∧
  ∃ f g attrs0, load_config read_json_example hub_example (CfgDict config_example) = Ok (JObj f) ∧
    dict_of f !! "vocab" = Some (km_vocab m) ∧ dict_of f !! "plbert" = Some (JObj g) ∧
    km_context_length m = default albert_max_position_embeddings
                            (dict_of g !! "max_position_embeddings") ∧
    build_modules build_example [] (JObj f) = Ok (km_vocab m, km_context_length m, attrs0) ∧
    ∀ key, key ∈ module_keys → ∃ ps ps', attrs0 !! key = Some (AModule ps) ∧
      km_attrs m !! key = Some (AModule ps') ∧ dom ps' = dom ps.
Proof.
  eexists. split; [reflexivity|].
  apply (kmodel_init_Ok read_json_example hub_example torch_load_example build_example []
           (CfgDict config_example) None).
  reflexivity.
Defined.

Lemma kmodel_init_plbert_vocab_size_witness :
  kmodel_init read_json_example hub_example torch_load_example build_example []
    (CfgDict (config_example ++ [("plbert", JObj [("vocab_size", JInt 178)])])) None =
  Raise (TypeError "got multiple values for keyword argument vocab_size").
Proof.
  apply (kmodel_init_plbert_vocab_size _ _ _ _ _ _ _ [("vocab_size", JInt 178)] (JInt 178)
           (JObj [("a", JInt 43); ("b", JInt 44)])); try reflexivity.
  compute_done.
Defined.

End KModelInit.
