(* ===== verification/Cli.v ===== *)
(** * Cli: the command-line entry points

    Models the [__main__] blocks of src/export.py (lines 149-179) and
    src/ids.py (lines 4-31): the arguments [argparse] accepts, its
    rejection of missing required options (exit status 2, before anything
    else runs), the defaults, the construction of the model with
    [KModel(config_file, checkpoint_path)], the choice of the action, and
    for ids.py the ids read through [model.vocab.get] on the JSON
    vocabulary the model took from its configuration.
    The parsed namespace is a record whose options are [None] when absent
    from the command line; [os.makedirs] and printing are I/O and not
    modelled. *)

From S2P Require Import Prelude Tokens Weights KModelInit.

Module Cli.

Import Tokens Weights KModelInit.

(** The namespace of export.py's parser. *)
Record export_namespace : Type := mk_export_namespace {
  a_inference : bool;
  a_check : bool;
  a_config_file : option string;
  a_checkpoint_path : option string;
  a_output_dir : option string
}.

(** What export.py does with the model it built. *)
Inductive action : Type :=
| InferenceOnnx (output_dir : string)
| CheckModel
| ExportOnnx (output_dir : string).

(** [parser.error] for the required options that are missing, in the
    order they were declared. *)
Definition required_error (missing : list string) : py_exc :=
  SystemExit 2 ("the following arguments are required: " +:+ String.concat ", " missing).

(** [parser.parse_args()] on the required options: their values, or the
    error naming every missing one. *)
Definition parse_required (opts : list (string * option string)) : result (list string) :=
  match filter (λ o, o.2 = None) opts with
  | [] => Ok (omap snd opts)
  | missing => Raise (required_error (map fst missing))
  end.

(** The namespace of ids.py's parser; its two paths have defaults. *)
Record ids_namespace : Type := mk_ids_namespace {
  i_text : option string;
  i_config_file : option string;
  i_checkpoint_path : option string
}.

(** [model.vocab.get(p)] on the [vocab] that [KModel] took from
    config.json unchecked: a JSON object is a dict, whose [get] answers
    [None] for a missing key and for a key bound to [null] (json.load
    reads [null] as [None]); any other JSON value has no [get]. *)
Definition json_get (vocab : json) (p : string) : result (option json) :=
  match vocab with
  | JObj f => Ok (match dict_of f !! p with Some JNull => None | o => o end)
  | _ => Raise (AttributeError "get")
  end.

(** The entries of a vocabulary object that [get] returns, [null] ones
    removed. *)
Definition json_vocab (f : list (string * json)) : gmap string json :=
  omap (λ j, match j with JNull => None | _ => Some j end) (dict_of f).

Section Main.

Context {V : Type}.
Variable read_json : string → result json.
Variable hf_hub_download : string → string → string.
Variable torch_load : string → result (list (string * list (string * V))).
Variable build : string → list (string * json) → result (gmap string V).
Variable module_members : list string.
(** [pipeline.en_tokenize(pipeline.g2p(text)[1])] of the pipeline built
    with [lang_code='a'] (misaki, external). *)
Variable en_chunks : string → list chunk.

(** The dispatch of lines 174-179. *)
Definition choose_action (args : export_namespace) (output_dir : string) : action :=
  if a_inference args then InferenceOnnx output_dir
  else if a_check args then CheckModel
  else ExportOnnx output_dir.

(** export.py's [__main__]: parse, build the model, choose the action.
    The [default="outputs"] of [--output_dir] is never used: the option
    is also [required=True]. *)
Definition export_main (args : export_namespace) : result (kmodel V * action) :=
  vals ← parse_required [("--config_file/-c", a_config_file args);
                         ("--checkpoint_path/-p", a_checkpoint_path args);
                         ("--output_dir/-o", a_output_dir args)];
  match vals with
  | [config_file; checkpoint_path; output_dir] =>
      m ← kmodel_init read_json hf_hub_download torch_load build module_members
            (CfgPath config_file) (Some checkpoint_path);
      Ok (m, choose_action args output_dir)
  | _ => Raise (RuntimeError "unreachable")
  end.

(** ids.py's [__main__]: [--text] is required, the paths default to the
    files under checkpoints/; the model is built, then the phonemes and
    the ids it prints are those of [ids_script] read through the
    model's [vocab]. *)
Definition ids_main (args : ids_namespace) : result (kmodel V * (list string * list json)) :=
  vals ← parse_required [("--text/-t", i_text args)];
  match vals with
  | [text] =>
      m ← kmodel_init read_json hf_hub_download torch_load build module_members
            (CfgPath (default "checkpoints/config.json" (i_config_file args)))
            (Some (default "checkpoints/kokoro-v1_0.pth" (i_checkpoint_path args)));
      r ← ids_script en_chunks (json_get (km_vocab m)) text;
      Ok (m, r)
  | _ => Raise (RuntimeError "unreachable")
  end.

End Main.

(** A config.json like [config_example] whose vocabulary binds ["b"] to
    [null], read from disk, for the examples. *)
Definition vocab_null_example : list (string * json) := [("a", JInt 43); ("b", JNull)].

Definition read_json_null_vocab (_ : string) : result json :=
  Ok (JObj (config_example ++ [("vocab", JObj vocab_null_example)])).

(** ** Lemmas *)

Lemma json_get_JObj f p : json_get (JObj f) p = Ok (json_vocab f !! p).
Proof.
  unfold json_get, json_vocab. rewrite lookup_omap.
  by destruct (dict_of f !! p) as [[]|].
Qed.

(** Without paths, only the files the hub returns are read. *)
Lemma kmodel_init_hub_paths {V} rj rj' hf (tl tl' : string → result (list (string * list (string * V))))
    bld mm :
  (∀ r f, hf r f ≠ "") → (∀ p, p ≠ "" → rj p = rj' p) → (∀ p, p ≠ "" → tl p = tl' p) →
  kmodel_init rj hf tl bld mm CfgNone None = kmodel_init rj' hf tl' bld mm CfgNone None.
Proof.
  intros Hhf Hrj Htl. unfold kmodel_init, load_config, model_path.
  rewrite Hrj by apply Hhf. by rewrite Htl by apply Hhf.
Qed.

(** ** Properties *)

(** C39: empty paths are falsy in Python: [export.py -c "" -p "" -o out]
    never opens the path [""]: its result is the same for any two
    [json.load] and [torch.load] that agree on every non-empty path (the
    hub returns real paths), and it is the run that builds the model from
    the configuration and weights downloaded from the hub, exactly as if
    no file had been named. *)
Theorem export_main_empty_paths {V} rj rj' hf (tl tl' : string → result (list (string * list (string * V))))
    bld mm inference check out :
  (∀ r f, hf r f ≠ "") → (∀ p, p ≠ "" → rj p = rj' p) → (∀ p, p ≠ "" → tl p = tl' p) →
  export_main rj hf tl bld mm (mk_export_namespace inference check (Some "") (Some "") (Some out)) =
  export_main rj' hf tl' bld mm (mk_export_namespace inference check (Some "") (Some "") (Some out)) ∧
  export_main rj hf tl bld mm (mk_export_namespace inference check (Some "") (Some "") (Some out)) =
  (λ m, (m, choose_action (mk_export_namespace inference check (Some "") (Some "") (Some out)) out))
    <$> kmodel_init rj hf tl bld mm CfgNone None.
Proof.
  intros Hhf Hrj Htl. unfold export_main. simpl.
  change (kmodel_init rj hf tl bld mm (CfgPath "") (Some "")) with
    (kmodel_init rj hf tl bld mm CfgNone None).
  change (kmodel_init rj' hf tl' bld mm (CfgPath "") (Some "")) with
    (kmodel_init rj' hf tl' bld mm CfgNone None).
  rewrite (kmodel_init_hub_paths rj rj' hf tl tl') by done.
  by destruct (kmodel_init _ _ _ _ _ _ _).
Qed.

(** C38: ids.py prints the ids of the configuration's vocabulary: once
    [KModel] is built from a config whose [vocab] is an object, ids.py
    returns the phonemes of the last chunk [en_tokenize] yields (NameError
    when there is none), cut to 510, and for each of them in order the
    value the configuration binds it to, skipping the phonemes it does
    not bind and those it binds to [null]. *)
Theorem ids_main_encodes {V} rj hf (tl : string → result (list (string * list (string * V))))
    bld mm en text cfg ckpt m f :
  kmodel_init rj hf tl bld mm (CfgPath (default "checkpoints/config.json" cfg))
    (Some (default "checkpoints/kokoro-v1_0.pth" ckpt)) = Ok m →
  km_vocab m = JObj f →
  ids_main rj hf tl bld mm en (mk_ids_namespace (Some text) cfg ckpt) =
  match last (en text) with
  | Some c => Ok (m, (take 510 (chunk_ps c), omap (λ p, json_vocab f !! p) (take 510 (chunk_ps c))))
  | None => Raise (NameError "ps")
  end.
Proof.
  intros Hm Hv. unfold ids_main. simpl. rewrite Hm. simpl. rewrite Hv.
  unfold ids_script. rewrite en_tokenize_loop_last. destruct (last (en text)); simpl; [|done].
  rewrite truncate_take, (input_ids_with_ext _ (λ p, Ok (json_vocab f !! p))) by apply json_get_JObj.
  by rewrite (input_ids_with_pure (λ p, json_vocab f !! p)).
Qed.

(** ** Witnesses *)

Lemma export_main_empty_paths_witness :
  export_main read_json_null_vocab hub_example torch_load_example build_example []
    (mk_export_namespace false false (Some "") (Some "") (Some "out")) =
  export_main (λ p, if bool_decide (p = "") then Raise (RuntimeError "open('')")
                    else read_json_null_vocab p)
    hub_example torch_load_example build_example []
    (mk_export_namespace false false (Some "") (Some "") (Some "out")) ∧
  export_main read_json_null_vocab hub_example torch_load_example build_example []
    (mk_export_namespace false false (Some "") (Some "") (Some "out")) =
  (λ m, (m, choose_action (mk_export_namespace false false (Some "") (Some "") (Some "out")) "out"))
    <$> kmodel_init read_json_null_vocab hub_example torch_load_example build_example [] CfgNone None.
Proof.
  apply export_main_empty_paths.
  - intros r f. unfold hub_example. discriminate.
  - intros p Hp. by rewrite bool_decide_false.
  - done.
Defined.

Lemma ids_main_encodes_witness :
  ∃ m, ids_main read_json_null_vocab hub_example torch_load_example build_example []
         chunks_example (mk_ids_namespace (Some "hi") None None) =
       Ok (m, (["a"; "b"; "?"], [JInt 43])).
Proof.
  eexists. erewrite ids_main_encodes with (f := vocab_null_example);
    [reflexivity|reflexivity|reflexivity].
Defined.

End Cli.
