(* ===== verification/Outputs.v ===== *)
(** * Outputs: export.py invocations over the output directory

    Models what one run of src/export.py leaves for the next: the file
    [output + "/" + "kokoro.onnx"] that [export_onnx] writes (lines 29
    and 36-50, [torch.onnx.export(..., f = onnx_file)]) and that
    [inference_onnx] opens (lines 115-116,
    [ort.InferenceSession(onnx_file)]).  The files are a store from
    paths to what [torch.onnx.export(..., export_params=True)] writes: the
    graph's signature and the parameters of the model exported (its
    [km_attrs]).  A model runs through [backend_of], the modules with
    the given parameters, and the pipeline reads [vocab_of] of the
    model's [vocab]: [-t] runs the parameters stored in the file on the
    ids of the model it has just built, [-m] runs the model it has just
    built.
    [torch.onnx.export] writes the file before [onnx.checker.check_model]
    runs, so the store is updated whatever the check says; the session
    is opened before the sample is loaded, so a missing file raises
    first.  One invocation of export.py ([export_py]) parses the command
    line and builds the model ([Cli.export_main]), then runs the chosen
    action on the store ([run_action], lines 174-179); the model run is
    the [Backend] of [Pipeline].  The random example arguments of lines
    31-34 are an input of the invocation ([draw]), within the ranges
    torch draws them from.  Invocations form a step relation
    ([invocation]); its reachable stores hold only one graph, and after
    an export [-t] plays what [-m] plays. *)

From Stdlib Require Import QArith.
From S2P Require Import Prelude Tokens Alignment Pipeline Voice PostProcess OnnxExport Weights KModelInit Cli.

Module Outputs.

Import Alignment Pipeline OnnxExport Weights KModelInit Cli.

(** The ONNX files of the output directories, by path: the signature of
    the graph and the parameters it was exported with. *)
Abbreviation store V := (gmap string (graph * gmap string (attr V))).

(** [onnx_file = output + "/" + "kokoro.onnx"]. *)
Definition onnx_file (output : string) : string := output +:+ "/" +:+ "kokoro.onnx".

(** The stores in which every ONNX file has the signature of a [(1, 256)]
    example style. *)
Definition store_ok {V} (fs : store V) : Prop := map_Forall (λ _ f, f.1 = graph_example) fs.

Section Runs.

Context {K : Type} `{!TensorElt K}.

(** The example arguments torch draws in lines 31-34. *)
Record draw : Type := mk_draw { d_ids : list Z; d_style : mat K; d_speed : Z }.

(** [torch.randint(1, 100, (48,))], [torch.randn(1, 256)],
    [torch.randint(1, 10, (1,))]. *)
Definition draw_ok (d : draw) : Prop :=
  length (d_ids d) = 48 ∧ Forall (λ i, 1 ≤ i < 100)%Z (d_ids d) ∧
  length (d_style d) = 1 ∧ Forall (λ r, length r = 256) (d_style d) ∧
  (1 ≤ d_speed d < 10)%Z.

Context {V : Type}.

(** [export_onnx(model4onnx, output_dir)]: the file (signature and the
    model's parameters) is written, then loaded back and checked. *)
Definition export_onnx_run (fs : store V) (m : kmodel V) (d : draw) (output : string)
    : store V * result unit :=
  (<[onnx_file output := (traced_graph (d_ids d) (d_style d) (d_speed d), km_attrs m)]> fs,
   (λ _, tt) <$> export_onnx (d_ids d) (d_style d) (d_speed d)).

Variable read_json : string → result json.
Variable hf_hub_download : string → string → string.
Variable torch_load : string → result (list (string * list (string * V))).
Variable build : string → list (string * json) → result (gmap string V).
Variable module_members : list string.
(** The sub-modules of a model with the given parameters. *)
Variable backend_of : gmap string (attr V) → Backend K.
(** The vocabulary the pipeline reads from [model.vocab]. *)
Variable vocab_of : json → gmap string Z.
Variable en_chunks : string → list Tokens.chunk.
Variable g2p_other : string → list string.
Variable load_pack : string → list (mat K).
Context {C : Type}.
Variable cabs : C → Q.
Variable cangle : C → Q.
Variable polar : Q → Q → C.
Variable stft : list K → result (list (list C)).
Variable istft : list (list C) → result (list K).

(** [check_model(model4onnx)] with the model [m]. *)
Definition check_model_run (m : kmodel V) : result (list K) :=
  check_model (Backend0 := backend_of (km_attrs m)) en_chunks g2p_other (vocab_of (km_vocab m))
    load_pack cabs cangle polar stft istft.

(** [inference_onnx(model4onnx, output_dir)]: the session opens the file
    first (onnxruntime raises NO_SUCHFILE when it is absent) and runs the
    parameters stored in it; the sample is encoded with the vocabulary
    of the model [m] of this run. *)
Definition inference_onnx_run (fs : store V) (m : kmodel V) (output : string) : result (list K) :=
  match fs !! onnx_file output with
  | Some (g, attrs) =>
      inference_onnx (Backend0 := backend_of attrs) en_chunks g2p_other (vocab_of (km_vocab m))
        load_pack cabs cangle polar stft istft g
  | None => Raise (RuntimeError "NO_SUCHFILE")
  end.

(** Lines 174-179: the action with the model built, on the store, and
    the samples it plays ([None] for the export, which plays nothing). *)
Definition run_action (fs : store V) (m : kmodel V) (d : draw) (act : action)
    : store V * result (option (list K)) :=
  match act with
  | InferenceOnnx output => (fs, Some <$> inference_onnx_run fs m output)
  | CheckModel => (fs, Some <$> check_model_run m)
  | ExportOnnx output =>
      let '(fs', r) := export_onnx_run fs m d output in (fs', (λ _, None) <$> r)
  end.

(** One run of export.py: [__main__] (lines 149-179) on the store. *)
Definition export_py (fs : store V) (d : draw) (args : export_namespace)
    : store V * result (option (list K)) :=
  match export_main read_json hf_hub_download torch_load build module_members args with
  | Ok (m, act) => run_action fs m d act
  | Raise e => (fs, Raise e)
  end.

(** One invocation, with example arguments torch can draw. *)
Inductive invocation : store V → store V → Prop :=
| invoke fs d args : draw_ok d → invocation fs (export_py fs d args).1.

End Runs.

(** The examples: the toy backend for every parameter set, the example
    vocabulary, a voice pack of [(1, 256)] styles, a draw, and the
    library environment of [Cli]'s examples. *)
#[local] Existing Instance toy_backend.

Definition pack_example (_ : string) : list (mat Z) := replicate 510 [replicate 256 0%Z].

Definition draw_example : draw := mk_draw (replicate 48 1%Z) [replicate 256 0%Z] 1%Z.

Definition export_py_example :=
  export_py read_json_null_vocab hub_example torch_load_example build_example []
    (λ _, toy_backend) (λ _, Tokens.vocab_example) Tokens.chunks_example (λ _, []) pack_example
    inject_Z (λ _, 0%Q) (λ _ _, 0%Z) (λ a, Ok [a]) (λ S, Ok (concat S)).

Definition invocation_example :=
  invocation read_json_null_vocab hub_example torch_load_example build_example []
    (λ _, toy_backend) (λ _, Tokens.vocab_example) Tokens.chunks_example (λ _, []) pack_example
    inject_Z (λ _, 0%Q) (λ _ _, 0%Z) (λ a, Ok [a]) (λ S, Ok (concat S)).

(** [export.py -c c.json -p m.pth -o out] in an empty directory tree. *)
Definition store_example : store Z :=
  (export_py_example ∅ draw_example
     (mk_export_namespace false false (Some "c.json") (Some "m.pth") (Some "out"))).1.

(** ** Lemmas *)

Section GraphRuns.

Context {K : Type} `{!TensorElt K} `{!Backend K}.

(** Whatever torch draws, the export writes the same signature. *)
Lemma traced_graph_draw (d : draw (K:=K)) :
  draw_ok d → traced_graph (d_ids d) (d_style d) (d_speed d) = graph_example.
Proof.
  intros (_ & _ & Hl & Hr & _). rewrite traced_graph_eq.
  destruct (d_style d) as [|r [|]]; simpl in Hl; try lia.
  apply Forall_inv in Hr. simpl. by rewrite Hr.
Qed.

(** onnxruntime runs every sample with a [(1, 256)] style on that graph. *)
Lemma session_run_graph_example ids_row (style : mat K) sp :
  length style = 1 → width style = 256 →
  session_run graph_example {[ "input_ids" := TLong [ids_row]; "style" := TFloat style;
                               "speed" := TInt [sp] ]} =
  (λ a, [a]) <$> model_forward [ids_row] style [sp].
Proof.
  intros Hl Hw. apply session_run_sample with [] style 0%Z; [|done..].
  rewrite export_onnx_eq, Hl, Hw. reflexivity.
Qed.

(** On that graph, the ONNX runner plays what the direct one plays with
    the same modules, for a voice pack of [(1, 256)] styles. *)
Lemma inference_graph_example en g2p vocab (load_pack : string → list (mat K))
    {C} cabs cangle (polar : Q → Q → C) stft istft :
  Forall (λ row, length row = 1 ∧ width row = 256) (load_pack sample_voice) →
  inference_onnx en g2p vocab load_pack cabs cangle polar stft istft graph_example =
  check_model en g2p vocab load_pack cabs cangle polar stft istft.
Proof.
  apply (inference_onnx_sample _ _ _ _ _ _ _ _ _ _ 1 256).
  intros. by apply session_run_graph_example.
Qed.

End GraphRuns.

Section RunLemmas.

Context {K : Type} `{!TensorElt K} {V : Type} (rj : string → result json)
  (hf : string → string → string) (tl : string → result (list (string * list (string * V))))
  (bld : string → list (string * json) → result (gmap string V)) (mm : list string).

(** The flags [-t] and [-m] only choose the action: the model is built
    from the paths alone. *)
Lemma export_main_flags i ck cf cp out :
  export_main rj hf tl bld mm (mk_export_namespace i ck cf cp (Some out)) =
  match export_main rj hf tl bld mm (mk_export_namespace false false cf cp (Some out)) with
  | Ok (m, _) => Ok (m, choose_action (mk_export_namespace i ck cf cp (Some out)) out)
  | Raise e => Raise e
  end.
Proof.
  unfold export_main. destruct cf, cp; simpl; try done.
  by destruct (kmodel_init _ _ _ _ _ _ _).
Qed.

Context (backend_of : gmap string (attr V) → Backend K) (vocab_of : json → gmap string Z)
  (en : string → list Tokens.chunk) (g2p : string → list string)
  (load_pack : string → list (mat K)) {C : Type} (cabs cangle : C → Q) (polar : Q → Q → C)
  (stft : list K → result (list (list C))) (istft : list (list C) → result (list K)).

Local Abbreviation export_py' :=
  (export_py rj hf tl bld mm backend_of vocab_of en g2p load_pack cabs cangle polar stft istft).
Local Abbreviation invocation' :=
  (invocation rj hf tl bld mm backend_of vocab_of en g2p load_pack cabs cangle polar stft istft).

(** An invocation either leaves the store alone or writes, at one path,
    the traced signature of its draw with the parameters of its model. *)
Lemma export_py_store fs (d : draw (K:=K)) args :
  (export_py' fs d args).1 = fs ∨
  ∃ out attrs, (export_py' fs d args).1 =
               <[onnx_file out := (traced_graph (d_ids d) (d_style d) (d_speed d), attrs)]> fs.
Proof.
  unfold export_py. destruct (export_main _ _ _ _ _ _) as [[m []]|e]; simpl; eauto.
Qed.

Lemma rtc_store_ok fs fs' : rtc invocation' fs fs' → store_ok fs → store_ok fs'.
Proof.
  induction 1 as [|fs1 fs2 fs3 Hstep _ IH]; [done|]. intros Hok. apply IH.
  destruct Hstep as [fs1 d args Hd].
  destruct (export_py_store fs1 d args) as [->|(out & attrs & ->)]; [done|].
  apply map_Forall_insert_2; [simpl; by apply traced_graph_draw|done].
Qed.

(** ** Properties *)

(** C20: every ONNX file that export.py leaves, after any sequence of
    invocations from an empty directory tree, has the same signature
    [graph_example]: [input_ids] of shape [(1, len)] with the length
    dynamic, [style] of shape [(1, 256)], [speed] of shape [(1)], output
    [audio], opset 17, whatever the random example arguments were. *)
Theorem reachable_store_graph fs path f :
  rtc invocation' ∅ fs → fs !! path = Some f → f.1 = graph_example.
Proof.
  intros Hr Hp. exact (rtc_store_ok _ _ Hr (map_Forall_empty _) path f Hp).
Qed.

(** C19: after any sequence of invocations, [export.py -t -o out] builds
    the model exactly as [export.py -m] does, then raises NO_SUCHFILE if
    no export to [out] happened; otherwise it plays what [check_model]
    plays with the parameters last exported to [out] and the vocabulary
    of the model just built (for a voice pack of [(1, 256)] styles). *)
Theorem export_py_inference_check fs0 fs d cf cp out :
  store_ok fs0 → rtc invocation' fs0 fs →
  Forall (λ row, length row = 1 ∧ width row = 256) (load_pack sample_voice) →
  (export_py' fs d (mk_export_namespace true false cf cp (Some out))).2 =
  export_main rj hf tl bld mm (mk_export_namespace false false cf cp (Some out)) ≫= λ '(m, _),
    match fs !! onnx_file out with
    | Some (_, attrs) =>
        Some <$> check_model (Backend0 := backend_of attrs) en g2p (vocab_of (km_vocab m))
                   load_pack cabs cangle polar stft istft
    | None => Raise (RuntimeError "NO_SUCHFILE")
    end.
Proof.
  intros Hok Hr Hpack. pose proof (rtc_store_ok _ _ Hr Hok) as Hfs.
  unfold export_py. rewrite (export_main_flags true false).
  destruct (export_main _ _ _ _ _ (mk_export_namespace false false cf cp (Some out)))
    as [[m act]|e]; simpl; [|done].
  unfold inference_onnx_run. destruct (fs !! onnx_file out) as [[g attrs]|] eqn:Eg; [|done].
  pose proof (Hfs _ _ Eg) as Hg. simpl in Hg. subst g.
  by rewrite inference_graph_example.
Qed.

(** C18: [export.py -o out] followed by [export.py -t -o out] with the
    same configuration and checkpoint plays exactly what
    [export.py -m] plays after it (or raises the same error): the ONNX
    runner on the exported file agrees with the direct run of the model,
    for a voice pack of [(1, 256)] styles. *)
Theorem export_then_inference fs d d' d'' cf cp out :
  draw_ok d → Forall (λ row, length row = 1 ∧ width row = 256) (load_pack sample_voice) →
  (export_py' (export_py' fs d (mk_export_namespace false false cf cp (Some out))).1 d'
     (mk_export_namespace true false cf cp (Some out))).2 =
  (export_py' (export_py' fs d (mk_export_namespace false false cf cp (Some out))).1 d''
     (mk_export_namespace false true cf cp (Some out))).2.
Proof.
  intros Hd Hpack. unfold export_py. rewrite (export_main_flags false false).
  rewrite (export_main_flags true false), (export_main_flags false true).
  destruct (export_main _ _ _ _ _ (mk_export_namespace false false cf cp (Some out)))
    as [[m act]|e]; simpl; [|done].
  unfold inference_onnx_run. rewrite lookup_insert_eq, (traced_graph_draw d Hd).
  by rewrite inference_graph_example.
Qed.

End RunLemmas.

(** ** Witnesses *)

Lemma draw_example_ok : draw_ok draw_example.
Proof.
  repeat split; try reflexivity; try lia.
  - apply Forall_replicate. lia.
  - by repeat constructor.
Qed.

Lemma pack_example_shape :
  Forall (λ row, length row = 1 ∧ width row = 256) (pack_example sample_voice).
Proof. apply Forall_replicate. split; reflexivity. Qed.

Lemma reachable_store_graph_witness :
  rtc invocation_example ∅ store_example ∧ is_Some (store_example !! onnx_file "out") ∧
  ∀ f, store_example !! onnx_file "out" = Some f → f.1 = graph_example.
Proof.
  assert (Hr : rtc invocation_example ∅ store_example)
    by (apply rtc_once, invoke, draw_example_ok).
  split; [done|]. split; [vm_compute; eauto|].
  intros f Hf. eapply reachable_store_graph; [exact Hr|exact Hf].
Defined.

Lemma export_py_inference_check_witness :
  is_ok (export_py_example store_example draw_example
     (mk_export_namespace false true (Some "c.json") (Some "m.pth") (Some "out"))).2 = true ∧
  (export_py_example store_example draw_example
     (mk_export_namespace true false (Some "c.json") (Some "m.pth") (Some "out"))).2 =
  (export_py_example store_example draw_example
     (mk_export_namespace false true (Some "c.json") (Some "m.pth") (Some "out"))).2.
Proof.
  split; [vm_compute; reflexivity|].
  etransitivity.
  { eapply (export_py_inference_check _ _ _ _ _ _ _ _ _ _ _ _ _ _ _ ∅ store_example).
    - apply map_Forall_empty.
    - apply rtc_once, invoke, draw_example_ok.
    - apply pack_example_shape. }
  vm_compute. reflexivity.
Defined.

Lemma export_then_inference_witness :
  (export_py_example store_example draw_example
     (mk_export_namespace true false (Some "c.json") (Some "m.pth") (Some "out"))).2 =
  (export_py_example store_example draw_example
     (mk_export_namespace false true (Some "c.json") (Some "m.pth") (Some "out"))).2.
Proof.
  apply export_then_inference; [apply draw_example_ok|apply pack_example_shape].
Defined.

End Outputs.
